(** * uStreamer capture device (src/device.c): a shallow embedding

    The V4L2 capture code of [device.c] is translated function by function
    into a state monad over a [world]: the [device_t] structure the C code
    mutates through its pointer, the kernel behind the file descriptor, and
    the log of the system calls issued so far.

    Conventions.
    - C integers are [Z]; [unsigned] values coming from the kernel are
      non-negative, and the conversions the code performs are written out:
      the two casts to [int] ([int_of_unsigned]) and the initialisers of
      [unsigned] variables ([to_unsigned]).
    - A result of [None] stands for undefined behaviour of the C program
      (an access outside an array, a remainder by zero).
    - [xioctl] either fails (the C call returns -1, modelled by [None]) or
      succeeds and fills the structure passed by address ([Some] reply);
      a request has a reply wherever the code reads that structure, or
      keeps it, after the call.
    - The [LOG_*] macros have no effect on the state and are left out, and
      so are the per-buffer mutexes: every function below is the sequential
      behaviour of one call. *)

From Stdlib Require Import ZArith Lia Bool List Ascii String.
From stdpp Require Import base list strings.

Local Open Scope Z_scope.

(** ** Constants of <linux/videodev2.h> and <linux/v4l2-controls.h> *)

Definition v4l2_fourcc (a b c d : ascii) : Z :=
  Z.lor (Z.of_nat (nat_of_ascii a))
    (Z.lor (Z.shiftl (Z.of_nat (nat_of_ascii b)) 8)
       (Z.lor (Z.shiftl (Z.of_nat (nat_of_ascii c)) 16)
          (Z.shiftl (Z.of_nat (nat_of_ascii d)) 24))).

Definition V4L2_PIX_FMT_YUYV : Z := v4l2_fourcc "Y" "U" "Y" "V".
Definition V4L2_PIX_FMT_UYVY : Z := v4l2_fourcc "U" "Y" "V" "Y".
Definition V4L2_PIX_FMT_RGB565 : Z := v4l2_fourcc "R" "G" "B" "P".
Definition V4L2_PIX_FMT_RGB24 : Z := v4l2_fourcc "R" "G" "B" "3".
Definition V4L2_PIX_FMT_MJPEG : Z := v4l2_fourcc "M" "J" "P" "G".
Definition V4L2_PIX_FMT_JPEG : Z := v4l2_fourcc "J" "P" "E" "G".

Definition V4L2_STD_UNKNOWN : Z := 0.
Definition V4L2_CAP_VIDEO_CAPTURE : Z := 0x00000001.
Definition V4L2_CAP_STREAMING : Z := 0x04000000.
Definition V4L2_CAP_TIMEPERFRAME : Z := 0x1000.
Definition V4L2_BUF_TYPE_VIDEO_CAPTURE : Z := 1.
Definition V4L2_FIELD_ANY : Z := 0.
Definition V4L2_MEMORY_MMAP : Z := 1.
Definition V4L2_MEMORY_USERPTR : Z := 2.
Definition V4L2_EVENT_EOS : Z := 2.
Definition V4L2_EVENT_SOURCE_CHANGE : Z := 5.
Definition V4L2_CTRL_FLAG_DISABLED : Z := 0x0001.

Definition V4L2_CID_BASE : Z := 0x00980900.
Definition V4L2_CID_BRIGHTNESS : Z := V4L2_CID_BASE + 0.
Definition V4L2_CID_CONTRAST : Z := V4L2_CID_BASE + 1.
Definition V4L2_CID_SATURATION : Z := V4L2_CID_BASE + 2.
Definition V4L2_CID_HUE : Z := V4L2_CID_BASE + 3.
Definition V4L2_CID_AUTO_WHITE_BALANCE : Z := V4L2_CID_BASE + 12.
Definition V4L2_CID_GAMMA : Z := V4L2_CID_BASE + 16.
Definition V4L2_CID_AUTOGAIN : Z := V4L2_CID_BASE + 18.
Definition V4L2_CID_GAIN : Z := V4L2_CID_BASE + 19.
Definition V4L2_CID_HFLIP : Z := V4L2_CID_BASE + 20.
Definition V4L2_CID_VFLIP : Z := V4L2_CID_BASE + 21.
Definition V4L2_CID_HUE_AUTO : Z := V4L2_CID_BASE + 25.
Definition V4L2_CID_WHITE_BALANCE_TEMPERATURE : Z := V4L2_CID_BASE + 26.
Definition V4L2_CID_SHARPNESS : Z := V4L2_CID_BASE + 27.
Definition V4L2_CID_BACKLIGHT_COMPENSATION : Z := V4L2_CID_BASE + 28.
Definition V4L2_CID_COLORFX : Z := V4L2_CID_BASE + 31.
Definition V4L2_CID_AUTOBRIGHTNESS : Z := V4L2_CID_BASE + 32.

Definition O_RDWR : Z := 2.
Definition O_NONBLOCK : Z := 2048.

(** ** C integer arithmetic used by the code *)

Definition INT_MIN : Z := - 2 ^ 31.
Definition INT_MAX : Z := 2 ^ 31 - 1.

(** Conversion of an [unsigned] to [int], as [return buf_info.index] and
    [int input = dev->input] do it (two's complement). *)
Definition int_of_unsigned (u : Z) : Z :=
  if u <=? INT_MAX then u else u - 2 ^ 32.

(** Conversion of an integer to [unsigned], as the initialisers
    [unsigned page_size = getpagesize()] and
    [unsigned buf_size = align_size(...)] do it (reduction modulo 2^32). *)
Definition to_unsigned (z : Z) : Z := z mod 2 ^ 32.

(** [a % b] on [int]: truncated remainder; undefined when [b] is zero and
    when the quotient overflows ([INT_MIN % -1]). *)
Definition c_rem (a b : Z) : option Z :=
  if b =? 0 then None
  else if (a =? INT_MIN) && (b =? -1) then None
  else Some (Z.rem a b).

(** Modelled from the spec: [min_u] of tools.h, which is not among the
    sources; the spec gives the effective worker count as
    min(configured workers, granted buffers). *)
Definition min_u (a b : Z) : Z := Z.min a b.

(** ** Kernel structures (the fields the code reads or writes) *)

(** The [data] pointer of a hardware buffer: [NULL], [MAP_FAILED], or the
    address of a region. *)
Inductive data_ptr : Type :=
| NullPtr
| MapFailed
| Region (addr : Z).

Definition is_null (p : data_ptr) : bool :=
  match p with NullPtr => true | _ => false end.

Definition is_map_failed (p : data_ptr) : bool :=
  match p with MapFailed => true | _ => false end.

Module Buf.
Record v4l2_buffer : Type := {
  index : Z;
  type : Z;
  bytesused : Z;
  memory : Z;
  m_offset : Z;
  m_userptr : data_ptr;
  length : Z
}.
End Buf.
Abbreviation v4l2_buffer := Buf.v4l2_buffer.
(* [m_offset] and [m_userptr] are the members of the union [m]; the code
   never reads one after writing the other. *)

(** [MEMSET_ZERO(buf_info)] *)
Definition zero_v4l2_buffer : v4l2_buffer :=
  {| Buf.index := 0; Buf.type := 0; Buf.bytesused := 0; Buf.memory := 0;
     Buf.m_offset := 0; Buf.m_userptr := NullPtr; Buf.length := 0 |}.

Module Pix.
Record v4l2_pix_format : Type := {
  width : Z;
  height : Z;
  pixelformat : Z;
  field : Z;
  sizeimage : Z
}.
End Pix.
Abbreviation v4l2_pix_format := Pix.v4l2_pix_format.

Record v4l2_capability : Type := { capabilities : Z }.

(** [struct v4l2_dv_timings], member [bt]. *)
Record v4l2_dv_timings : Type := {
  bt_width : Z;
  bt_height : Z;
  bt_pixelclock : Z
}.

(** [struct v4l2_streamparm], member [parm.capture]. *)
Record v4l2_captureparm : Type := {
  capability : Z;
  numerator : Z;
  denominator : Z
}.

Record v4l2_event : Type := { event_type : Z }.

Module Query.
Record v4l2_queryctrl : Type := {
  id : Z;
  minimum : Z;
  maximum : Z;
  step : Z;
  default_value : Z;
  flags : Z
}.
End Query.
Abbreviation v4l2_queryctrl := Query.v4l2_queryctrl.

Record v4l2_control : Type := { ctl_id : Z; ctl_value : Z }.

(** A reading of the monotonic clock ([get_now_monotonic]); the code only
    stores it. *)
Definition timestamp : Type := Z.

(** ** System calls

    [request R] is an ioctl request whose successful reply has type [R];
    [syscall R] is a call into the kernel (or the C library) returning
    [R]. *)

Inductive request : Type -> Type :=
| VIDIOC_QUERYCAP : request v4l2_capability
| VIDIOC_S_INPUT (input : Z) : request unit
| VIDIOC_S_STD (std : Z) : request unit
| VIDIOC_QUERY_DV_TIMINGS : request v4l2_dv_timings
| VIDIOC_S_DV_TIMINGS (dv : v4l2_dv_timings) : request v4l2_dv_timings
| VIDIOC_QUERYSTD : request Z
| VIDIOC_SUBSCRIBE_EVENT (sub_type : Z) : request unit
| VIDIOC_S_FMT (fmt : v4l2_pix_format) : request v4l2_pix_format
| VIDIOC_G_PARM : request v4l2_captureparm
| VIDIOC_S_PARM (parm : v4l2_captureparm) : request v4l2_captureparm
| VIDIOC_REQBUFS (count : Z) (memory : Z) : request Z
| VIDIOC_QUERYBUF (buf : v4l2_buffer) : request v4l2_buffer
| VIDIOC_QBUF (buf : v4l2_buffer) : request v4l2_buffer
| VIDIOC_DQBUF (buf : v4l2_buffer) : request v4l2_buffer
| VIDIOC_DQEVENT : request v4l2_event
| VIDIOC_STREAMON (buf_type : Z) : request unit
| VIDIOC_STREAMOFF (buf_type : Z) : request unit
| VIDIOC_QUERYCTRL (cid : Z) : request v4l2_queryctrl
| VIDIOC_S_CTRL (ctl : v4l2_control) : request unit.

Inductive syscall : Type -> Type :=
| sys_open (path : string) (oflags : Z) : syscall Z
| sys_close (fd : Z) : syscall Z
| sys_ioctl (fd : Z) {R : Type} (req : request R) : syscall (option R)
| sys_mmap (len : Z) (fd : Z) (offset : Z) : syscall data_ptr
| sys_munmap (ptr : data_ptr) (len : Z) : syscall Z
| sys_aligned_alloc (alignment size : Z) : syscall data_ptr
| sys_free (ptr : data_ptr) : syscall unit
| sys_getpagesize : syscall Z
| sys_now_monotonic : syscall timestamp.

(** One entry of the call log: the call and what it returned. *)
Inductive call : Type :=
| Call {R : Type} (s : syscall R) (ret : R).

(** The kernel: any state with a transition for every call. *)
Class Kernel (K : Type) : Type :=
  kernel_step : forall R : Type, syscall R -> K -> R * K.

(** ** The structures of device.h

    device.h is not among the sources; the fields are those device.c
    accesses, with the types its uses imply. *)

Record hw_buffer_t : Type := {
  data : data_ptr;
  used : Z;
  allocated : Z;
  grabbed : bool;
  buf_info : v4l2_buffer
}.

(** A slot as [A_CALLOC] leaves it. *)
Definition zero_hw_buffer : hw_buffer_t :=
  {| data := NullPtr; used := 0; allocated := 0; grabbed := false;
     buf_info := zero_v4l2_buffer |}.

Definition set_data (v : data_ptr) (b : hw_buffer_t) : hw_buffer_t :=
  {| data := v; used := used b; allocated := allocated b;
     grabbed := grabbed b; buf_info := buf_info b |}.
Definition set_used (v : Z) (b : hw_buffer_t) : hw_buffer_t :=
  {| data := data b; used := v; allocated := allocated b;
     grabbed := grabbed b; buf_info := buf_info b |}.
Definition set_allocated (v : Z) (b : hw_buffer_t) : hw_buffer_t :=
  {| data := data b; used := used b; allocated := v;
     grabbed := grabbed b; buf_info := buf_info b |}.
Definition set_grabbed (v : bool) (b : hw_buffer_t) : hw_buffer_t :=
  {| data := data b; used := used b; allocated := allocated b;
     grabbed := v; buf_info := buf_info b |}.
Definition set_buf_info (v : v4l2_buffer) (b : hw_buffer_t) : hw_buffer_t :=
  {| data := data b; used := used b; allocated := allocated b;
     grabbed := grabbed b; buf_info := v |}.

(** Modelled from the spec: [struct picture_t] of picture.h, which is not
    among the sources: a reusable byte buffer of some allocated size plus
    the grab timestamp. *)
Record picture_t : Type := {
  picture_allocated : Z;
  grab_ts : timestamp
}.

Definition set_grab_ts (v : timestamp) (p : picture_t) : picture_t :=
  {| picture_allocated := picture_allocated p; grab_ts := v |}.

(** Modelled from the spec: [picture_init] and [picture_realloc_data] of
    picture.h: a fresh picture owns no bytes; reallocation grows it to the
    requested size. *)
Definition picture_init : picture_t :=
  {| picture_allocated := 0; grab_ts := 0 |}.
Definition picture_realloc_data (p : picture_t) (size : Z) : picture_t :=
  {| picture_allocated := Z.max (picture_allocated p) size;
     grab_ts := grab_ts p |}.

Module Run.
Record device_runtime_t : Type := {
  fd : Z;
  width : Z;
  height : Z;
  format : Z;
  hw_fps : Z;
  raw_size : Z;
  n_buffers : Z;
  n_workers : Z;
  hw_buffers : option (list hw_buffer_t);
  pictures : option (list (option picture_t));
  capturing : bool
}.

Definition set_fd (v : Z) (r : device_runtime_t) : device_runtime_t :=
  {| fd := v; width := width r; height := height r; format := format r;
     hw_fps := hw_fps r; raw_size := raw_size r; n_buffers := n_buffers r;
     n_workers := n_workers r; hw_buffers := hw_buffers r;
     pictures := pictures r; capturing := capturing r |}.
Definition set_width (v : Z) (r : device_runtime_t) : device_runtime_t :=
  {| fd := fd r; width := v; height := height r; format := format r;
     hw_fps := hw_fps r; raw_size := raw_size r; n_buffers := n_buffers r;
     n_workers := n_workers r; hw_buffers := hw_buffers r;
     pictures := pictures r; capturing := capturing r |}.
Definition set_height (v : Z) (r : device_runtime_t) : device_runtime_t :=
  {| fd := fd r; width := width r; height := v; format := format r;
     hw_fps := hw_fps r; raw_size := raw_size r; n_buffers := n_buffers r;
     n_workers := n_workers r; hw_buffers := hw_buffers r;
     pictures := pictures r; capturing := capturing r |}.
Definition set_format (v : Z) (r : device_runtime_t) : device_runtime_t :=
  {| fd := fd r; width := width r; height := height r; format := v;
     hw_fps := hw_fps r; raw_size := raw_size r; n_buffers := n_buffers r;
     n_workers := n_workers r; hw_buffers := hw_buffers r;
     pictures := pictures r; capturing := capturing r |}.
Definition set_hw_fps (v : Z) (r : device_runtime_t) : device_runtime_t :=
  {| fd := fd r; width := width r; height := height r; format := format r;
     hw_fps := v; raw_size := raw_size r; n_buffers := n_buffers r;
     n_workers := n_workers r; hw_buffers := hw_buffers r;
     pictures := pictures r; capturing := capturing r |}.
Definition set_raw_size (v : Z) (r : device_runtime_t) : device_runtime_t :=
  {| fd := fd r; width := width r; height := height r; format := format r;
     hw_fps := hw_fps r; raw_size := v; n_buffers := n_buffers r;
     n_workers := n_workers r; hw_buffers := hw_buffers r;
     pictures := pictures r; capturing := capturing r |}.
Definition set_n_buffers (v : Z) (r : device_runtime_t) : device_runtime_t :=
  {| fd := fd r; width := width r; height := height r; format := format r;
     hw_fps := hw_fps r; raw_size := raw_size r; n_buffers := v;
     n_workers := n_workers r; hw_buffers := hw_buffers r;
     pictures := pictures r; capturing := capturing r |}.
Definition set_n_workers (v : Z) (r : device_runtime_t) : device_runtime_t :=
  {| fd := fd r; width := width r; height := height r; format := format r;
     hw_fps := hw_fps r; raw_size := raw_size r; n_buffers := n_buffers r;
     n_workers := v; hw_buffers := hw_buffers r;
     pictures := pictures r; capturing := capturing r |}.
Definition set_hw_buffers (v : option (list hw_buffer_t))
    (r : device_runtime_t) : device_runtime_t :=
  {| fd := fd r; width := width r; height := height r; format := format r;
     hw_fps := hw_fps r; raw_size := raw_size r; n_buffers := n_buffers r;
     n_workers := n_workers r; hw_buffers := v;
     pictures := pictures r; capturing := capturing r |}.
Definition set_pictures (v : option (list (option picture_t)))
    (r : device_runtime_t) : device_runtime_t :=
  {| fd := fd r; width := width r; height := height r; format := format r;
     hw_fps := hw_fps r; raw_size := raw_size r; n_buffers := n_buffers r;
     n_workers := n_workers r; hw_buffers := hw_buffers r;
     pictures := v; capturing := capturing r |}.
Definition set_capturing (v : bool) (r : device_runtime_t) : device_runtime_t :=
  {| fd := fd r; width := width r; height := height r; format := format r;
     hw_fps := hw_fps r; raw_size := raw_size r; n_buffers := n_buffers r;
     n_workers := n_workers r; hw_buffers := hw_buffers r;
     pictures := pictures r; capturing := v |}.
End Run.
Abbreviation device_runtime_t := Run.device_runtime_t.

Inductive control_mode_t : Type :=
| CTL_MODE_NONE
| CTL_MODE_VALUE
| CTL_MODE_AUTO
| CTL_MODE_DEFAULT.

Record control_t : Type := {
  mode : control_mode_t;
  value : Z
}.

Record controls_t : Type := {
  brightness : control_t;
  contrast : control_t;
  saturation : control_t;
  hue : control_t;
  gamma : control_t;
  sharpness : control_t;
  backlight_compensation : control_t;
  white_balance : control_t;
  gain : control_t;
  color_effect : control_t;
  flip_vertical : control_t;
  flip_horizontal : control_t
}.

Record device_t : Type := {
  path : string;
  input : Z;
  width : Z;
  height : Z;
  format : Z;
  standard : Z;
  dv_timings : bool;
  n_buffers : Z;
  n_workers : Z;
  desired_fps : Z;
  io_method : Z;
  ctl : controls_t;
  run : device_runtime_t
}.

Definition set_run (v : device_runtime_t) (d : device_t) : device_t :=
  {| path := path d; input := input d; width := width d; height := height d;
     format := format d; standard := standard d; dv_timings := dv_timings d;
     n_buffers := n_buffers d; n_workers := n_workers d;
     desired_fps := desired_fps d; io_method := io_method d; ctl := ctl d;
     run := v |}.
Definition set_standard (v : Z) (d : device_t) : device_t :=
  {| path := path d; input := input d; width := width d; height := height d;
     format := format d; standard := v; dv_timings := dv_timings d;
     n_buffers := n_buffers d; n_workers := n_workers d;
     desired_fps := desired_fps d; io_method := io_method d; ctl := ctl d;
     run := run d |}.

(** The constants and helpers of device.h, tools.h and picture.h that
    device.c uses without defining them. *)
Class Externals : Type := {
  VIDEO_MAX_WIDTH : Z;
  VIDEO_MAX_HEIGHT : Z;
  align_size : Z -> Z -> Z;
  picture_get_generous_size : Z -> Z -> Z
}.

(** The table [_FORMATS]. *)
Definition _FORMATS : list (string * Z) :=
  [ ("YUYV"%string, V4L2_PIX_FMT_YUYV);
    ("UYVY"%string, V4L2_PIX_FMT_UYVY);
    ("RGB565"%string, V4L2_PIX_FMT_RGB565);
    ("RGB24"%string, V4L2_PIX_FMT_RGB24);
    ("JPEG"%string, V4L2_PIX_FMT_MJPEG);
    ("JPEG"%string, V4L2_PIX_FMT_JPEG) ].

(** [_format_to_string_nullable]: the first entry whose code is [format],
    [None] for [NULL]. *)
Fixpoint format_lookup (table : list (string * Z)) (fmt : Z) : option string :=
  match table with
  | [] => None
  | (name, code) :: rest =>
      if fmt =? code then Some name else format_lookup rest fmt
  end.

Definition _format_to_string_nullable (fmt : Z) : option string :=
  format_lookup _FORMATS fmt.

Definition _format_to_string_supported (fmt : Z) : string :=
  match _format_to_string_nullable fmt with
  | None => "unsupported"%string
  | Some format_str => format_str
  end.

(** ** The program monad *)

Record world (K : Type) : Type := {
  w_dev : device_t;
  w_kernel : K;
  w_calls : list call
}.
Arguments w_dev {K} _.
Arguments w_kernel {K} _.
Arguments w_calls {K} _.

Declare Scope prog_scope.
Delimit Scope prog_scope with prog.

Definition prog (K : Type) (A : Type) : Type :=
  world K -> option (A * world K).

Section Program.
Context {K : Type} {kernel : Kernel K}.
Local Abbreviation M := (prog K).

Definition ret {A : Type} (a : A) : M A := fun w => Some (a, w).

Definition bind {A B : Type} (c : M A) (f : A -> M B) : M B :=
  fun w => match c w with
           | Some (a, w') => f a w'
           | None => None
           end.

(** Undefined behaviour, or a failed [assert]: the call does not return. *)
Definition undefined {A : Type} : M A := fun _ => None.

Definition get_dev : M device_t := fun w => Some (w_dev w, w).

Definition modify_dev (f : device_t -> device_t) : M unit :=
  fun w => Some (tt, {| w_dev := f (w_dev w); w_kernel := w_kernel w;
                        w_calls := w_calls w |}).

Definition get_run : M device_runtime_t := fun w => Some (run (w_dev w), w).

Definition modify_run (f : device_runtime_t -> device_runtime_t) : M unit :=
  modify_dev (fun d => set_run (f (run d)) d).

(** A call into the kernel: the kernel moves and the call is logged. *)
Definition sys {R : Type} (s : syscall R) : M R :=
  fun w => let (r, k) := kernel_step R s (w_kernel w) in
           Some (r, {| w_dev := w_dev w; w_kernel := k;
                       w_calls := Call s r :: w_calls w |}).

Definition xioctl {R : Type} (fd : Z) (req : request R) : M (option R) :=
  sys (sys_ioctl fd req).

End Program.

Notation "x <- c1 ;; c2" := (bind c1 (fun x => c2))
  (at level 100, c1 at next level, right associativity) : prog_scope.
Notation "c1 ;; c2" := (bind c1 (fun _ => c2))
  (at level 100, right associativity) : prog_scope.

Section Device.
Context {K : Type} {kernel : Kernel K} {ext : Externals}.
Local Abbreviation M := (prog K).
Local Open Scope prog_scope.

(** *** Array accesses: [hw_buffers[index]] and [pictures[index]] *)

Definition nat_index (index : Z) : option nat :=
  if 0 <=? index then Some (Z.to_nat index) else None.

(** Reading [dev->run->hw_buffers[index]]; outside the array (or through a
    [NULL] array) the behaviour is undefined. *)
Definition hw_buffer_at (index : Z) : M hw_buffer_t :=
  r <- get_run;;
  match Run.hw_buffers r, nat_index index with
  | Some bufs, Some i =>
      match bufs !! i with
      | Some b => ret b
      | None => undefined
      end
  | _, _ => undefined
  end.

(** Writing fields of [dev->run->hw_buffers[index]]. *)
Definition modify_hw_buffer (index : Z) (f : hw_buffer_t -> hw_buffer_t) : M unit :=
  b <- hw_buffer_at index;;
  modify_run (fun r =>
    Run.set_hw_buffers
      (option_map (fun bufs => <[Z.to_nat index := f b]> bufs) (Run.hw_buffers r)) r).

(** Reading the pointer [dev->run->pictures[index]]. *)
Definition picture_ptr_at (index : Z) : M (option picture_t) :=
  r <- get_run;;
  match Run.pictures r, nat_index index with
  | Some pics, Some i =>
      match pics !! i with
      | Some p => ret p
      | None => undefined
      end
  | _, _ => undefined
  end.

Definition store_picture_ptr (index : Z) (p : option picture_t) : M unit :=
  _ <- picture_ptr_at index;;
  modify_run (fun r =>
    Run.set_pictures
      (option_map (fun pics => <[Z.to_nat index := p]> pics) (Run.pictures r)) r).

(** Writing through [dev->run->pictures[index]->...]; undefined through
    a [NULL] pointer. *)
Definition modify_picture (index : Z) (f : picture_t -> picture_t) : M unit :=
  p <- picture_ptr_at index;;
  match p with
  | Some pic => store_picture_ptr index (Some (f pic))
  | None => undefined
  end.

(** *** Loops

    [for (unsigned index = 0; index < n; ++index) body], unrolled over the
    indices [0 .. n-1].  A body that answers a negative value makes the
    enclosing function [return -1]. *)
Fixpoint for_each (indices : list Z) (body : Z -> M Z) : M Z :=
  match indices with
  | [] => ret 0
  | index :: rest =>
      r <- body index;;
      if r <? 0 then ret (-1) else for_each rest body
  end.

Definition for_index (n : Z) (body : Z -> M Z) : M Z :=
  for_each (seqZ 0 n) body.

(** [for (dev->run->n_buffers = 0; dev->run->n_buffers < count;
    ++dev->run->n_buffers) body]: the loop variable is the runtime field
    itself, so an early [return -1] leaves in it the number of slots
    completed.  [iterations] is the number of times the condition holds,
    [count] of them when starting from zero. *)
Fixpoint for_n_buffers_loop (iterations : nat) (body : M Z) : M Z :=
  match iterations with
  | O => ret 0
  | S rest =>
      r <- body;;
      if r <? 0 then ret (-1)
      else
        modify_run (fun r => Run.set_n_buffers (Run.n_buffers r + 1) r);;
        for_n_buffers_loop rest body
  end.

Definition for_n_buffers (count : Z) (body : M Z) : M Z :=
  modify_run (Run.set_n_buffers 0);;
  for_n_buffers_loop (Z.to_nat count) body.

(** *** device_close *)

Definition device_close : M unit :=
  modify_run (Run.set_n_workers 0);;
  r <- get_run;;
  (match Run.pictures r with
   | Some _ =>
       (* picture_destroy(dev->run->pictures[index]) for every index *)
       for_index (Run.n_buffers r) (fun index =>
         picture_ptr_at index;; ret 0);;
       modify_run (Run.set_pictures None)
   | None => ret tt
   end);;
  r <- get_run;;
  (match Run.hw_buffers r with
   | Some _ =>
       for_index (Run.n_buffers r) (fun index =>
         d <- get_dev;;
         b <- hw_buffer_at index;;
         (if io_method d =? V4L2_MEMORY_MMAP then
            if (allocated b >? 0) && negb (is_map_failed (data b)) then
              sys (sys_munmap (data b) (allocated b));; ret tt
            else ret tt
          else
            if negb (is_null (data b)) then sys (sys_free (data b))
            else ret tt);;
         ret 0);;
       modify_run (Run.set_n_buffers 0);;
       modify_run (Run.set_hw_buffers None)
   | None => ret tt
   end);;
  r <- get_run;;
  if Run.fd r >=? 0 then
    sys (sys_close (Run.fd r));;
    modify_run (Run.set_fd (-1))
  else ret tt.

(** *** device_switch_capturing *)

Definition device_switch_capturing (enable : bool) : M Z :=
  r <- get_run;;
  if negb (eqb enable (Run.capturing r)) then
    let type := V4L2_BUF_TYPE_VIDEO_CAPTURE in
    res <- xioctl (Run.fd r)
             (if enable then VIDIOC_STREAMON type else VIDIOC_STREAMOFF type);;
    match res with
    | None =>
        if enable then ret (-1)
        else modify_run (Run.set_capturing enable);; ret 0
    | Some _ => modify_run (Run.set_capturing enable);; ret 0
    end
  else ret 0.

(** *** device_grab_buffer *)

Definition device_grab_buffer : M Z :=
  d <- get_dev;;
  let buf_info :=
    {| Buf.index := 0; Buf.type := V4L2_BUF_TYPE_VIDEO_CAPTURE;
       Buf.bytesused := 0; Buf.memory := io_method d;
       Buf.m_offset := 0; Buf.m_userptr := NullPtr; Buf.length := 0 |} in
  res <- xioctl (Run.fd (run d)) (VIDIOC_DQBUF buf_info);;
  match res with
  | None => ret (-1)
  | Some buf_info =>
      if Buf.index buf_info >=? Run.n_buffers (run d) then ret (-1)
      else
        b <- hw_buffer_at (Buf.index buf_info);;
        if grabbed b then ret (-1)
        else
          modify_hw_buffer (Buf.index buf_info) (set_grabbed true);;
          modify_hw_buffer (Buf.index buf_info)
            (set_used (Buf.bytesused buf_info));;
          modify_hw_buffer (Buf.index buf_info) (set_buf_info buf_info);;
          now <- sys sys_now_monotonic;;
          modify_picture (Buf.index buf_info) (set_grab_ts now);;
          ret (int_of_unsigned (Buf.index buf_info))
  end.

(** *** device_release_buffer

    The request is made on [&hw_buffers[index].buf_info] itself: what the
    kernel leaves in the descriptor is what the slot holds afterwards. *)

Definition device_release_buffer (index : Z) : M Z :=
  r <- get_run;;
  b <- hw_buffer_at index;;
  res <- xioctl (Run.fd r) (VIDIOC_QBUF (buf_info b));;
  match res with
  | None => ret (-1)
  | Some buf_info =>
      modify_hw_buffer index (set_buf_info buf_info);;
      modify_hw_buffer index (set_grabbed false);;
      modify_hw_buffer index (set_used 0);;
      ret 0
  end.

(** *** device_consume_event *)

Definition device_consume_event : M Z :=
  r <- get_run;;
  res <- xioctl (Run.fd r) VIDIOC_DQEVENT;;
  match res with
  | Some event =>
      if event_type event =? V4L2_EVENT_SOURCE_CHANGE then ret (-1)
      else if event_type event =? V4L2_EVENT_EOS then ret 0
      else ret 0
  | None => ret 0
  end.

(** *** _device_apply_resolution *)

Definition _device_apply_resolution (width height : Z) : M Z :=
  if (width =? 0) || (width >? VIDEO_MAX_WIDTH)
     || (height =? 0) || (height >? VIDEO_MAX_HEIGHT)
  then ret (-1)
  else
    modify_run (Run.set_width width);;
    modify_run (Run.set_height height);;
    ret 0.

(** *** _device_open_check_cap *)

Definition _device_open_check_cap : M Z :=
  d <- get_dev;;
  let input := int_of_unsigned (input d) in
  res <- xioctl (Run.fd (run d)) VIDIOC_QUERYCAP;;
  match res with
  | None => ret (-1)
  | Some cap =>
      if Z.land (capabilities cap) V4L2_CAP_VIDEO_CAPTURE =? 0 then ret (-1)
      else if Z.land (capabilities cap) V4L2_CAP_STREAMING =? 0 then ret (-1)
      else
        res <- xioctl (Run.fd (run d)) (VIDIOC_S_INPUT input);;
        match res with
        | None => ret (-1)
        | Some _ =>
            if negb (standard d =? V4L2_STD_UNKNOWN) then
              res <- xioctl (Run.fd (run d)) (VIDIOC_S_STD (standard d));;
              match res with
              | None => ret (-1)
              | Some _ => ret 0
              end
            else ret 0
        end
  end.

(** *** _device_apply_dv_timings

    Both timing requests work on the same local [dv]: the resolution
    applied is the one [VIDIOC_S_DV_TIMINGS] leaves in it. *)

Definition _device_apply_dv_timings : M Z :=
  r <- get_run;;
  res <- xioctl (Run.fd r) VIDIOC_QUERY_DV_TIMINGS;;
  match res with
  | Some dv =>
      res <- xioctl (Run.fd r) (VIDIOC_S_DV_TIMINGS dv);;
      match res with
      | None => ret (-1)
      | Some dv =>
          rc <- _device_apply_resolution (bt_width dv) (bt_height dv);;
          if rc <? 0 then ret (-1) else ret 0
      end
  | None =>
      res <- xioctl (Run.fd r) VIDIOC_QUERYSTD;;
      match res with
      | Some std =>
          modify_dev (set_standard std);;
          res <- xioctl (Run.fd r) (VIDIOC_S_STD std);;
          match res with
          | None => ret (-1)
          | Some _ => ret 0
          end
      | None => ret 0
      end
  end.

(** *** _device_open_dv_timings

    The result of the first [_device_apply_resolution] is not looked at. *)

Definition _device_open_dv_timings : M Z :=
  d <- get_dev;;
  _device_apply_resolution (width d) (height d);;
  if dv_timings d then
    rc <- _device_apply_dv_timings;;
    if rc <? 0 then ret (-1)
    else
      r <- get_run;;
      res <- xioctl (Run.fd r) (VIDIOC_SUBSCRIBE_EVENT V4L2_EVENT_SOURCE_CHANGE);;
      match res with
      | None => ret (-1)
      | Some _ => ret 0
      end
  else ret 0.

(** *** _device_open_format *)

Definition _device_open_format : M Z :=
  d <- get_dev;;
  let fmt :=
    {| Pix.width := Run.width (run d); Pix.height := Run.height (run d);
       Pix.pixelformat := format d; Pix.field := V4L2_FIELD_ANY;
       Pix.sizeimage := 0 |} in
  res <- xioctl (Run.fd (run d)) (VIDIOC_S_FMT fmt);;
  match res with
  | None => ret (-1)
  | Some fmt =>
      rc <- _device_apply_resolution (Pix.width fmt) (Pix.height fmt);;
      if rc <? 0 then ret (-1)
      else
        let unsupported :=
          if negb (Pix.pixelformat fmt =? format d) then
            match _format_to_string_nullable (Pix.pixelformat fmt) with
            | Some _ => false
            | None => true
            end
          else false in
        if unsupported then ret (-1)
        else
          modify_run (Run.set_format (Pix.pixelformat fmt));;
          modify_run (Run.set_raw_size (Pix.sizeimage fmt));;
          ret 0
  end.

(** *** _device_open_hw_fps *)

Definition _device_open_hw_fps : M unit :=
  modify_run (Run.set_hw_fps 0);;
  d <- get_dev;;
  res <- xioctl (Run.fd (run d)) VIDIOC_G_PARM;;
  match res with
  | None => ret tt
  | Some setfps =>
      if Z.land (capability setfps) V4L2_CAP_TIMEPERFRAME =? 0 then ret tt
      else
        let setfps :=
          {| capability := 0; numerator := 1;
             denominator := if desired_fps d =? 0 then 255 else desired_fps d |} in
        res <- xioctl (Run.fd (run d)) (VIDIOC_S_PARM setfps);;
        match res with
        | None => ret tt
        | Some setfps =>
            if negb (numerator setfps =? 1) then ret tt
            else if denominator setfps =? 0 then ret tt
            else modify_run (Run.set_hw_fps (denominator setfps))
        end
  end.

(** *** _device_open_io_method_mmap *)

Definition _device_open_io_method_mmap : M Z :=
  d <- get_dev;;
  res <- xioctl (Run.fd (run d))
           (VIDIOC_REQBUFS (n_buffers d) V4L2_MEMORY_MMAP);;
  match res with
  | None => ret (-1)
  | Some count =>
      if count <? 1 then ret (-1)
      else
        modify_run (Run.set_hw_buffers
                      (Some (replicate (Z.to_nat count) zero_hw_buffer)));;
        for_n_buffers count (
          r <- get_run;;
          let buf_info :=
            {| Buf.index := Run.n_buffers r;
               Buf.type := V4L2_BUF_TYPE_VIDEO_CAPTURE;
               Buf.bytesused := 0; Buf.memory := V4L2_MEMORY_MMAP;
               Buf.m_offset := 0; Buf.m_userptr := NullPtr;
               Buf.length := 0 |} in
          res <- xioctl (Run.fd r) (VIDIOC_QUERYBUF buf_info);;
          match res with
          | None => ret (-1)
          | Some buf_info =>
              p <- sys (sys_mmap (Buf.length buf_info) (Run.fd r)
                          (Buf.m_offset buf_info));;
              modify_hw_buffer (Run.n_buffers r) (set_data p);;
              if is_map_failed p then ret (-1)
              else
                modify_hw_buffer (Run.n_buffers r)
                  (set_allocated (Buf.length buf_info));;
                ret 0
          end)
  end.

(** *** _device_open_io_method_userptr

    [page_size] and [buf_size] are [unsigned] variables.  A [NULL] from
    [aligned_alloc] fails the [assert]. *)

Definition _device_open_io_method_userptr : M Z :=
  d <- get_dev;;
  page_size <- sys sys_getpagesize;;
  let page_size := to_unsigned page_size in
  let buf_size := to_unsigned (align_size (Run.raw_size (run d)) page_size) in
  res <- xioctl (Run.fd (run d))
           (VIDIOC_REQBUFS (n_buffers d) V4L2_MEMORY_USERPTR);;
  match res with
  | None => ret (-1)
  | Some count =>
      if count <? 1 then ret (-1)
      else
        modify_run (Run.set_hw_buffers
                      (Some (replicate (Z.to_nat count) zero_hw_buffer)));;
        for_n_buffers count (
          r <- get_run;;
          p <- sys (sys_aligned_alloc page_size buf_size);;
          if is_null p then undefined
          else
            modify_hw_buffer (Run.n_buffers r) (set_data p);;
            modify_hw_buffer (Run.n_buffers r) (set_allocated buf_size);;
            ret 0)
  end.

(** *** _device_open_io_method

    Any other method fails the [assert]. *)

Definition _device_open_io_method : M Z :=
  d <- get_dev;;
  if io_method d =? V4L2_MEMORY_MMAP then _device_open_io_method_mmap
  else if io_method d =? V4L2_MEMORY_USERPTR then _device_open_io_method_userptr
  else undefined.

(** *** _device_open_queue_buffers *)

Definition _device_open_queue_buffers : M Z :=
  r <- get_run;;
  for_index (Run.n_buffers r) (fun index =>
    d <- get_dev;;
    buf_info <-
      (if io_method d =? V4L2_MEMORY_USERPTR then
         b <- hw_buffer_at index;;
         ret {| Buf.index := index; Buf.type := V4L2_BUF_TYPE_VIDEO_CAPTURE;
                Buf.bytesused := 0; Buf.memory := io_method d;
                Buf.m_offset := 0; Buf.m_userptr := data b;
                Buf.length := allocated b |}
       else
         ret {| Buf.index := index; Buf.type := V4L2_BUF_TYPE_VIDEO_CAPTURE;
                Buf.bytesused := 0; Buf.memory := io_method d;
                Buf.m_offset := 0; Buf.m_userptr := NullPtr;
                Buf.length := 0 |});;
    res <- xioctl (Run.fd (run d)) (VIDIOC_QBUF buf_info);;
    match res with
    | None => ret (-1)
    | Some _ => ret 0
    end).

(** *** _device_open_alloc_picbufs *)

Definition _device_open_alloc_picbufs : M unit :=
  r <- get_run;;
  let picture_size := picture_get_generous_size (Run.width r) (Run.height r) in
  modify_run (Run.set_pictures
                (Some (replicate (Z.to_nat (Run.n_buffers r)) None)));;
  for_index (Run.n_buffers r) (fun index =>
    store_picture_ptr index (Some picture_init);;
    modify_picture index (fun p => picture_realloc_data p picture_size);;
    ret 0);;
  ret tt.

(** *** _device_query_control

    The answer is the return code together with [*query]. *)

Definition _device_query_control (cid : Z) (quiet : bool) : M (Z * v4l2_queryctrl) :=
  r <- get_run;;
  let query :=
    {| Query.id := cid; Query.minimum := 0; Query.maximum := 0;
       Query.step := 0; Query.default_value := 0; Query.flags := 0 |} in
  res <- xioctl (Run.fd r) (VIDIOC_QUERYCTRL cid);;
  match res with
  | None => ret (-1, query)
  | Some query =>
      if negb (Z.land (Query.flags query) V4L2_CTRL_FLAG_DISABLED =? 0)
      then ret (-1, query)
      else ret (0, query)
  end.

(** *** _device_set_control

    The condition of the [if], with the short-circuit of [||]: the
    remainder is computed only for a value inside the range. *)

Definition control_value_invalid (query : v4l2_queryctrl) (value : Z) : option bool :=
  if value <? Query.minimum query then Some true
  else if value >? Query.maximum query then Some true
  else match c_rem value (Query.step query) with
       | Some rem => Some (negb (rem =? 0))
       | None => None
       end.

Definition _device_set_control (query : v4l2_queryctrl) (cid value : Z) (quiet : bool) : M unit :=
  match control_value_invalid query value with
  | None => undefined
  | Some true => ret tt
  | Some false =>
      r <- get_run;;
      let ctl := {| ctl_id := cid; ctl_value := value |} in
      xioctl (Run.fd r) (VIDIOC_S_CTRL ctl);;
      ret tt
  end.

(** *** _device_apply_controls, macro by macro *)

Definition SET_CID_VALUE (cid value : Z) (quiet : bool) : M unit :=
  q <- _device_query_control cid quiet;;
  if fst q =? 0 then _device_set_control (snd q) cid value quiet
  else ret tt.

Definition SET_CID_DEFAULT (cid : Z) (quiet : bool) : M unit :=
  q <- _device_query_control cid quiet;;
  if fst q =? 0 then
    _device_set_control (snd q) cid (Query.default_value (snd q)) quiet
  else ret tt.

Definition CONTROL_MANUAL_CID (cid : Z) (field : controls_t -> control_t) : M unit :=
  d <- get_dev;;
  match mode (field (ctl d)) with
  | CTL_MODE_VALUE => SET_CID_VALUE cid (value (field (ctl d))) false
  | CTL_MODE_DEFAULT => SET_CID_DEFAULT cid false
  | _ => ret tt
  end.

Definition CONTROL_AUTO_CID (cid_auto cid_manual : Z) (field : controls_t -> control_t) : M unit :=
  d <- get_dev;;
  match mode (field (ctl d)) with
  | CTL_MODE_VALUE =>
      SET_CID_VALUE cid_auto 0 true;;
      SET_CID_VALUE cid_manual (value (field (ctl d))) false
  | CTL_MODE_AUTO => SET_CID_VALUE cid_auto 1 false
  | CTL_MODE_DEFAULT =>
      SET_CID_VALUE cid_auto 0 true;;
      SET_CID_DEFAULT cid_manual false;;
      SET_CID_DEFAULT cid_auto false
  | CTL_MODE_NONE => ret tt
  end.

Definition _device_apply_controls : M unit :=
  CONTROL_AUTO_CID V4L2_CID_AUTOBRIGHTNESS V4L2_CID_BRIGHTNESS brightness;;
  CONTROL_MANUAL_CID V4L2_CID_CONTRAST contrast;;
  CONTROL_MANUAL_CID V4L2_CID_SATURATION saturation;;
  CONTROL_AUTO_CID V4L2_CID_HUE_AUTO V4L2_CID_HUE hue;;
  CONTROL_MANUAL_CID V4L2_CID_GAMMA gamma;;
  CONTROL_MANUAL_CID V4L2_CID_SHARPNESS sharpness;;
  CONTROL_MANUAL_CID V4L2_CID_BACKLIGHT_COMPENSATION backlight_compensation;;
  CONTROL_AUTO_CID V4L2_CID_AUTO_WHITE_BALANCE
    V4L2_CID_WHITE_BALANCE_TEMPERATURE white_balance;;
  CONTROL_AUTO_CID V4L2_CID_AUTOGAIN V4L2_CID_GAIN gain;;
  CONTROL_MANUAL_CID V4L2_CID_COLORFX color_effect;;
  CONTROL_MANUAL_CID V4L2_CID_VFLIP flip_vertical;;
  CONTROL_MANUAL_CID V4L2_CID_HFLIP flip_horizontal.

(** *** device_open

    [goto error] is [device_open_error]. *)

Definition device_open_error : M Z :=
  device_close;;
  ret (-1).

Definition device_open : M Z :=
  d <- get_dev;;
  fd <- sys (sys_open (path d) (Z.lor O_RDWR O_NONBLOCK));;
  modify_run (Run.set_fd fd);;
  if fd <? 0 then device_open_error
  else
    rc <- _device_open_check_cap;;
    if rc <? 0 then device_open_error
    else
      rc <- _device_open_dv_timings;;
      if rc <? 0 then device_open_error
      else
        rc <- _device_open_format;;
        if rc <? 0 then device_open_error
        else
          _device_open_hw_fps;;
          rc <- _device_open_io_method;;
          if rc <? 0 then device_open_error
          else
            rc <- _device_open_queue_buffers;;
            if rc <? 0 then device_open_error
            else
              _device_open_alloc_picbufs;;
              _device_apply_controls;;
              d <- get_dev;;
              modify_run (Run.set_n_workers
                            (min_u (Run.n_buffers (run d)) (n_workers d)));;
              ret 0.

End Device.

(** ** A scripted device

    A kernel whose answers are fixed in advance, to run the functions
    above on concrete inputs. *)

Record fake_device : Type := {
  fake_fd : Z;
  fake_capabilities : option Z;
  fake_dv : option v4l2_dv_timings;
  fake_std : option Z;
  fake_s_fmt : v4l2_pix_format -> option v4l2_pix_format;
  fake_reqbufs : Z -> option Z;
  fake_queryctrl : Z -> option v4l2_queryctrl;
  fake_dqbuf : option v4l2_buffer;
  fake_qbuf : v4l2_buffer -> option v4l2_buffer;
  fake_stream : option unit;
  fake_event : option v4l2_event;
  fake_clock : timestamp;
  fake_g_parm : option v4l2_captureparm;
  fake_s_parm : v4l2_captureparm -> option v4l2_captureparm
}.

Definition fake_ioctl (k : fake_device) {R : Type} (req : request R) : option R :=
  match req in request T return option T with
  | VIDIOC_QUERYCAP =>
      option_map (fun c => {| capabilities := c |}) (fake_capabilities k)
  | VIDIOC_S_INPUT _ => Some tt
  | VIDIOC_S_STD _ => Some tt
  | VIDIOC_QUERY_DV_TIMINGS => fake_dv k
  | VIDIOC_S_DV_TIMINGS dv => Some dv
  | VIDIOC_QUERYSTD => fake_std k
  | VIDIOC_SUBSCRIBE_EVENT _ => Some tt
  | VIDIOC_S_FMT fmt => fake_s_fmt k fmt
  | VIDIOC_G_PARM => fake_g_parm k
  | VIDIOC_S_PARM parm => fake_s_parm k parm
  | VIDIOC_REQBUFS count _ => fake_reqbufs k count
  | VIDIOC_QUERYBUF buf =>
      Some {| Buf.index := Buf.index buf; Buf.type := Buf.type buf;
              Buf.bytesused := 0; Buf.memory := Buf.memory buf;
              Buf.m_offset := 4096 * Buf.index buf;
              Buf.m_userptr := NullPtr; Buf.length := 4096 |}
  | VIDIOC_QBUF buf => fake_qbuf k buf
  | VIDIOC_DQBUF _ => fake_dqbuf k
  | VIDIOC_DQEVENT => fake_event k
  | VIDIOC_STREAMON _ => fake_stream k
  | VIDIOC_STREAMOFF _ => fake_stream k
  | VIDIOC_QUERYCTRL cid => fake_queryctrl k cid
  | VIDIOC_S_CTRL _ => Some tt
  end.

#[export] Instance fake_kernel : Kernel fake_device :=
  fun R s k =>
    (match s in syscall T return T with
     | sys_open _ _ => fake_fd k
     | sys_close _ => 0
     | sys_ioctl _ req => fake_ioctl k req
     | sys_mmap _ _ offset => Region (0x10000 + offset)
     | sys_munmap _ _ => 0
     | sys_aligned_alloc _ _ => Region 0x20000
     | sys_free _ => tt
     | sys_getpagesize => 4096
     | sys_now_monotonic => fake_clock k
     end, k).

(** The limits of upstream device.h, and sizes chosen for the runs. *)
#[export] Instance fake_externals : Externals :=
  {| VIDEO_MAX_WIDTH := 10240;
     VIDEO_MAX_HEIGHT := 4320;
     align_size := fun size to => (size + (to - 1)) / to * to;
     picture_get_generous_size := fun w h => w * h * 4 |}.

Definition no_control : control_t := {| mode := CTL_MODE_NONE; value := 0 |}.

Definition no_controls : controls_t :=
  {| brightness := no_control; contrast := no_control;
     saturation := no_control; hue := no_control; gamma := no_control;
     sharpness := no_control; backlight_compensation := no_control;
     white_balance := no_control; gain := no_control;
     color_effect := no_control; flip_vertical := no_control;
     flip_horizontal := no_control |}.

(** The runtime as [device_init] leaves it: zeroed, with [fd = -1]. *)
Definition init_run : device_runtime_t :=
  {| Run.fd := -1; Run.width := 0; Run.height := 0; Run.format := 0;
     Run.hw_fps := 0; Run.raw_size := 0; Run.n_buffers := 0;
     Run.n_workers := 0; Run.hw_buffers := None; Run.pictures := None;
     Run.capturing := false |}.

(** A configuration asking for [w]x[h] YUYV, [buffers] buffers and
    [workers] workers, by memory mapping. *)
Definition config (w h buffers workers : Z) : device_t :=
  {| path := "/dev/video0"; input := 0; width := w; height := h;
     format := V4L2_PIX_FMT_YUYV; standard := V4L2_STD_UNKNOWN;
     dv_timings := false; n_buffers := buffers; n_workers := workers;
     desired_fps := 0; io_method := V4L2_MEMORY_MMAP; ctl := no_controls;
     run := init_run |}.

(** A device that grants [granted] buffers and answers every format
    request with [fmt]. *)
Definition camera (fmt : v4l2_pix_format) (granted : Z) : fake_device :=
  {| fake_fd := 3;
     fake_capabilities := Some (Z.lor V4L2_CAP_VIDEO_CAPTURE V4L2_CAP_STREAMING);
     fake_dv := None; fake_std := None;
     fake_s_fmt := fun _ => Some fmt;
     fake_reqbufs := fun _ => Some granted;
     fake_queryctrl := fun _ => None;
     fake_dqbuf := None; fake_qbuf := Some; fake_stream := Some tt;
     fake_event := None; fake_clock := 1000;
     fake_g_parm := None; fake_s_parm := fun _ => None |}.

Definition start {K : Type} (d : device_t) (k : K) : world K :=
  {| w_dev := d; w_kernel := k; w_calls := [] |}.

Definition result {K A : Type} (o : option (A * world K)) : option A :=
  option_map fst o.

(** The world a run ends in ([w] itself if the run has no result). *)
Definition final_world {K A : Type} (o : option (A * world K)) (w : world K) : world K :=
  match o with
  | Some (_, w') => w'
  | None => w
  end.

Definition yuyv_640x480 : v4l2_pix_format :=
  {| Pix.width := 640; Pix.height := 480; Pix.pixelformat := V4L2_PIX_FMT_YUYV;
     Pix.field := 1; Pix.sizeimage := 614400 |}.



(** A frame of 1000 bytes completed in buffer 1. *)
Definition frame_in_buffer_1 : v4l2_buffer :=
  {| Buf.index := 1; Buf.type := V4L2_BUF_TYPE_VIDEO_CAPTURE;
     Buf.bytesused := 1000; Buf.memory := V4L2_MEMORY_MMAP;
     Buf.m_offset := 4096; Buf.m_userptr := NullPtr; Buf.length := 4096 |}.

(** A descriptor as a driver hands it back once queued again: the byte
    count of the frame is cleared. *)
Definition requeued (buf : v4l2_buffer) : v4l2_buffer :=
  {| Buf.index := Buf.index buf; Buf.type := Buf.type buf;
     Buf.bytesused := 0; Buf.memory := Buf.memory buf;
     Buf.m_offset := Buf.m_offset buf; Buf.m_userptr := Buf.m_userptr buf;
     Buf.length := Buf.length buf |}.

(** [camera] with a frame ready to be dequeued. *)
Definition streaming_camera : fake_device :=
  {| fake_fd := 3;
     fake_capabilities := Some (Z.lor V4L2_CAP_VIDEO_CAPTURE V4L2_CAP_STREAMING);
     fake_dv := None; fake_std := None;
     fake_s_fmt := fun _ => Some yuyv_640x480;
     fake_reqbufs := fun _ => Some 2;
     fake_queryctrl := fun _ => None;
     fake_dqbuf := Some frame_in_buffer_1;
     fake_qbuf := fun buf => Some (requeued buf); fake_stream := Some tt;
     fake_event := None; fake_clock := 1000;
     fake_g_parm := None; fake_s_parm := fun _ => None |}.

(** An open session on [streaming_camera]: two buffers, none grabbed. *)
Definition session : world fake_device :=
  final_world (device_open (start (config 640 480 3 4) streaming_camera))
    (start (config 640 480 3 4) streaming_camera).

(** Controls as a device may report them: range 1..9 with step 2, range
    0..10 with step 2, the negative half of [int] with step -1, and range
    0..10 with step 0. *)
Definition odd_range_query : v4l2_queryctrl :=
  {| Query.id := V4L2_CID_BRIGHTNESS; Query.minimum := 1; Query.maximum := 9;
     Query.step := 2; Query.default_value := 5; Query.flags := 0 |}.

Definition even_range_query : v4l2_queryctrl :=
  {| Query.id := V4L2_CID_BRIGHTNESS; Query.minimum := 0; Query.maximum := 10;
     Query.step := 2; Query.default_value := 4; Query.flags := 0 |}.

Definition negative_step_query : v4l2_queryctrl :=
  {| Query.id := V4L2_CID_BRIGHTNESS; Query.minimum := INT_MIN;
     Query.maximum := 0; Query.step := -1; Query.default_value := 0;
     Query.flags := 0 |}.

Definition zero_step_query : v4l2_queryctrl :=
  {| Query.id := V4L2_CID_BRIGHTNESS; Query.minimum := 0; Query.maximum := 10;
     Query.step := 0; Query.default_value := 0; Query.flags := 0 |}.

(** ** Names and defaults: the rest of device.c

    The parsers and printers over the tables [_STANDARDS], [_FORMATS] and
    [_IO_METHODS], the fourcc printer, and [device_init]. *)

Definition V4L2_STD_PAL : Z := 0xFF.
Definition V4L2_STD_NTSC : Z := 0xB000.
Definition V4L2_STD_SECAM : Z := 0xFF0000.

Definition _STANDARDS : list (string * Z) :=
  [ ("UNKNOWN"%string, V4L2_STD_UNKNOWN);
    ("PAL"%string, V4L2_STD_PAL);
    ("NTSC"%string, V4L2_STD_NTSC);
    ("SECAM"%string, V4L2_STD_SECAM) ].

Definition _IO_METHODS : list (string * Z) :=
  [ ("MMAP"%string, V4L2_MEMORY_MMAP);
    ("USERPTR"%string, V4L2_MEMORY_USERPTR) ].

(** The sentinels of device.h that the parsers answer when nothing
    matches. *)
Class Sentinels : Type := {
  FORMAT_UNKNOWN : Z;
  STANDARD_UNKNOWN : Z;
  IO_METHOD_UNKNOWN : Z
}.

(** [strcasecmp] of <strings.h>, in the C locale: the strings are compared
    byte by byte through [tolower], up to the first difference or the
    terminating NUL; the answer is the difference of the two bytes. *)
Definition char_code (c : ascii) : Z := Z.of_N (N_of_ascii c).

Definition tolower (c : Z) : Z :=
  if (65 <=? c) && (c <=? 90) then c + 32 else c.

Fixpoint strcasecmp (s1 s2 : string) : Z :=
  match s1, s2 with
  | EmptyString, EmptyString => 0
  | EmptyString, String c2 _ => 0 - tolower (char_code c2)
  | String c1 _, EmptyString => tolower (char_code c1) - 0
  | String c1 r1, String c2 r2 =>
      if tolower (char_code c1) =? tolower (char_code c2) then
        if char_code c1 =? 0 then 0 else strcasecmp r1 r2
      else tolower (char_code c1) - tolower (char_code c2)
  end.

(** The loop shared by the three parsers: the value of the first entry
    whose name matches [str] without regard to case. *)
Fixpoint parse_table (table : list (string * Z)) (str : string) : option Z :=
  match table with
  | [] => None
  | (name, v) :: rest =>
      if strcasecmp str name =? 0 then Some v else parse_table rest str
  end.

Section Parsers.
Context {sentinels : Sentinels}.

(** [device_parse_format]; the [unsigned] format leaves as an [int]. *)
Definition device_parse_format (str : string) : Z :=
  match parse_table _FORMATS str with
  | Some fmt => int_of_unsigned fmt
  | None => FORMAT_UNKNOWN
  end.

(** [device_parse_standard]; its loop starts at index 1. *)
Definition device_parse_standard (str : string) : Z :=
  match parse_table (tail _STANDARDS) str with
  | Some std => std
  | None => STANDARD_UNKNOWN
  end.

Definition device_parse_io_method (str : string) : Z :=
  match parse_table _IO_METHODS str with
  | Some io_method => io_method
  | None => IO_METHOD_UNKNOWN
  end.

End Parsers.

(** [_standard_to_string]: the name of the first entry with this id,
    [_STANDARDS[0].name] when there is none. *)
Definition _standard_to_string (std : Z) : string :=
  match format_lookup _STANDARDS std with
  | Some name => name
  | None => "UNKNOWN"%string
  end.

Definition _io_method_to_string_supported (io_method : Z) : string :=
  match format_lookup _IO_METHODS io_method with
  | Some name => name
  | None => "unsupported"%string
  end.

(** [_format_to_string_fourcc]: the bytes written to [buf], up to and
    including the terminating NUL; [None] when the [assert] on [size]
    fails. *)
Definition _format_to_string_fourcc (size : Z) (fmt : Z) : option (list Z) :=
  if size <? 8 then None
  else
    let b0 := Z.land fmt 0x7F in
    let b1 := Z.land (Z.shiftr fmt 8) 0x7F in
    let b2 := Z.land (Z.shiftr fmt 16) 0x7F in
    let b3 := Z.land (Z.shiftr fmt 24) 0x7F in
    if negb (Z.land fmt (Z.shiftl 1 31) =? 0)
    then Some [b0; b1; b2; b3; char_code "-"; char_code "B"; char_code "E"; 0]
    else Some [b0; b1; b2; b3; 0].

(** The C string a buffer holds: its bytes before the first NUL. *)
Fixpoint c_string (bytes : list Z) : list Z :=
  match bytes with
  | [] => []
  | b :: rest => if b =? 0 then [] else b :: c_string rest
  end.

(** Modelled from the spec: [max_u] of tools.h, which is not among the
    sources; with [min_u] it clamps the core count to 1..4. *)
Definition max_u (a b : Z) : Z := Z.max a b.

(** A [long] passed where an [unsigned] is expected. *)
Definition unsigned_of_long (z : Z) : Z := z mod 2 ^ 32.

(** The fields of [struct device_t] that only [device_init] and
    [device_select] touch. *)
Record device_timing_t : Type := {
  min_frame_size : Z;
  timeout : Z;
  error_delay : Z
}.

(** [device_init], given what [sysconf(_SC_NPROCESSORS_ONLN)] answers;
    [A_CALLOC] zeroes every field that is not assigned. *)
Definition device_init (cores_sysconf : Z) : device_t * device_timing_t :=
  let cores_sysconf := if cores_sysconf <? 0 then 0 else cores_sysconf in
  let cores_available := max_u (min_u (unsigned_of_long cores_sysconf) 4) 1 in
  let n_buffers := cores_available + 1 in
  ({| path := "/dev/video0"; input := 0; width := 640; height := 480;
      format := V4L2_PIX_FMT_YUYV; standard := V4L2_STD_UNKNOWN;
      dv_timings := false; n_buffers := n_buffers;
      n_workers := min_u cores_available n_buffers;
      desired_fps := 0; io_method := V4L2_MEMORY_MMAP; ctl := no_controls;
      run := init_run |},
   {| min_frame_size := 128; timeout := 1; error_delay := 1 |}).

(** The bytes of a string constant, and what [strcasecmp] sees of a
    string: its bytes up to the terminating NUL, in lower case. *)
Definition codes (s : string) : list Z := map char_code (list_ascii_of_string s).

Definition casefold (s : string) : list Z := map tolower (c_string (codes s)).

(** The byte a [char] constant stands for, as [v4l2_fourcc] takes it. *)
Definition byte_of (c : ascii) : Z := Z.of_nat (nat_of_ascii c).

(** The sentinels of upstream device.h, for the runs. *)
#[export] Instance fake_sentinels : Sentinels :=
  {| FORMAT_UNKNOWN := -1; STANDARD_UNKNOWN := V4L2_STD_UNKNOWN;
     IO_METHOD_UNKNOWN := -1 |}.

(** ** More scripted devices *)

(** [camera] refusing every buffer it is offered. *)
Definition refusing_camera : fake_device :=
  {| fake_fd := 3;
     fake_capabilities := Some (Z.lor V4L2_CAP_VIDEO_CAPTURE V4L2_CAP_STREAMING);
     fake_dv := None; fake_std := None;
     fake_s_fmt := fun _ => Some yuyv_640x480;
     fake_reqbufs := fun _ => Some 2;
     fake_queryctrl := fun _ => None;
     fake_dqbuf := None; fake_qbuf := fun _ => None; fake_stream := Some tt;
     fake_event := None; fake_clock := 1000;
     fake_g_parm := None; fake_s_parm := fun _ => None |}.

(** A capture bridge that reports 1280x720 timings. *)
Definition timings_720p : v4l2_dv_timings :=
  {| bt_width := 1280; bt_height := 720; bt_pixelclock := 74250000 |}.

Definition capture_bridge : fake_device :=
  {| fake_fd := 3;
     fake_capabilities := Some (Z.lor V4L2_CAP_VIDEO_CAPTURE V4L2_CAP_STREAMING);
     fake_dv := Some timings_720p; fake_std := None;
     fake_s_fmt := fun _ => Some yuyv_640x480;
     fake_reqbufs := fun _ => Some 2;
     fake_queryctrl := fun _ => None;
     fake_dqbuf := None; fake_qbuf := Some; fake_stream := Some tt;
     fake_event := None; fake_clock := 1000;
     fake_g_parm := None; fake_s_parm := fun _ => None |}.

Definition bridge_config : device_t :=
  {| path := "/dev/video0"; input := 0; width := 640; height := 480;
     format := V4L2_PIX_FMT_YUYV; standard := V4L2_STD_UNKNOWN;
     dv_timings := true; n_buffers := 3; n_workers := 4;
     desired_fps := 0; io_method := V4L2_MEMORY_MMAP; ctl := no_controls;
     run := init_run |}.

(** [camera] with every control reported as [even_range_query], and a
    configuration that sets the brightness to 4 and asks for the default
    contrast. *)
Definition tunable_camera : fake_device :=
  {| fake_fd := 3;
     fake_capabilities := Some (Z.lor V4L2_CAP_VIDEO_CAPTURE V4L2_CAP_STREAMING);
     fake_dv := None; fake_std := None;
     fake_s_fmt := fun _ => Some yuyv_640x480;
     fake_reqbufs := fun _ => Some 2;
     fake_queryctrl := fun _ => Some even_range_query;
     fake_dqbuf := None; fake_qbuf := Some; fake_stream := Some tt;
     fake_event := None; fake_clock := 1000;
     fake_g_parm := None; fake_s_parm := fun _ => None |}.

Definition tuned_controls : controls_t :=
  {| brightness := {| mode := CTL_MODE_VALUE; value := 4 |};
     contrast := {| mode := CTL_MODE_DEFAULT; value := 0 |};
     saturation := no_control; hue := no_control; gamma := no_control;
     sharpness := no_control; backlight_compensation := no_control;
     white_balance := no_control; gain := no_control;
     color_effect := no_control; flip_vertical := no_control;
     flip_horizontal := no_control |}.

Definition tuned_config : device_t :=
  {| path := "/dev/video0"; input := 0; width := 640; height := 480;
     format := V4L2_PIX_FMT_YUYV; standard := V4L2_STD_UNKNOWN;
     dv_timings := false; n_buffers := 3; n_workers := 4;
     desired_fps := 0; io_method := V4L2_MEMORY_MMAP; ctl := tuned_controls;
     run := init_run |}.

(** An analog grabber: no DV timings, but a detected standard, PAL. *)
Definition analog_grabber : fake_device :=
  {| fake_fd := 3;
     fake_capabilities := Some (Z.lor V4L2_CAP_VIDEO_CAPTURE V4L2_CAP_STREAMING);
     fake_dv := None; fake_std := Some V4L2_STD_PAL;
     fake_s_fmt := fun _ => Some yuyv_640x480;
     fake_reqbufs := fun _ => Some 2;
     fake_queryctrl := fun _ => None;
     fake_dqbuf := None; fake_qbuf := Some; fake_stream := Some tt;
     fake_event := None; fake_clock := 1000;
     fake_g_parm := None; fake_s_parm := fun _ => None |}.

(** [camera] with a frame rate that can be set, up to 30 frames per
    second. *)
Definition paced_camera : fake_device :=
  {| fake_fd := 3;
     fake_capabilities := Some (Z.lor V4L2_CAP_VIDEO_CAPTURE V4L2_CAP_STREAMING);
     fake_dv := None; fake_std := None;
     fake_s_fmt := fun _ => Some yuyv_640x480;
     fake_reqbufs := fun _ => Some 2;
     fake_queryctrl := fun _ => None;
     fake_dqbuf := None; fake_qbuf := Some; fake_stream := Some tt;
     fake_event := None; fake_clock := 1000;
     fake_g_parm := Some {| capability := V4L2_CAP_TIMEPERFRAME;
                            numerator := 1; denominator := 25 |};
     fake_s_parm := fun parm =>
       Some {| capability := V4L2_CAP_TIMEPERFRAME; numerator := 1;
               denominator := Z.min 30 (denominator parm) |} |}.

(** [config] with the buffers handed to the driver as user pointers. *)
Definition userptr_config : device_t :=
  {| path := "/dev/video0"; input := 0; width := 640; height := 480;
     format := V4L2_PIX_FMT_YUYV; standard := V4L2_STD_UNKNOWN;
     dv_timings := false; n_buffers := 3; n_workers := 4;
     desired_fps := 0; io_method := V4L2_MEMORY_USERPTR; ctl := no_controls;
     run := init_run |}.

(** A driver with a single state, answering as [tunable_camera] does. *)
Inductive steady_device : Type :=
| Steady.

#[export] Instance steady_kernel : Kernel steady_device :=
  fun R s _ => (fst (kernel_step R s tunable_camera), Steady).

(** * Vocabulary of the statements *)

Section Vocabulary.
Context {K : Type} {kernel : Kernel K} {ext : Externals}.
Local Abbreviation M := (prog K).
Local Open Scope prog_scope.

(** What the kernel answers to call [s] in world [w], and the world
    after that call. *)
Definition answer {R : Type} (s : syscall R) (w : world K) : R :=
  fst (kernel_step R s (w_kernel w)).

Definition after {R : Type} (s : syscall R) (w : world K) : world K :=
  {| w_dev := w_dev w;
     w_kernel := snd (kernel_step R s (w_kernel w));
     w_calls := Call s (answer s w) :: w_calls w |}.

Definition with_dev (d : device_t) (w : world K) : world K :=
  {| w_dev := d; w_kernel := w_kernel w; w_calls := w_calls w |}.

Definition with_run (r : device_runtime_t) (w : world K) : world K :=
  with_dev (set_run r (w_dev w)) w.

(** The resolution guard of [_device_apply_resolution]. *)
Definition forbidden_resolution (width height : Z) : bool :=
  (width =? 0) || (width >? VIDEO_MAX_WIDTH)
  || (height =? 0) || (height >? VIDEO_MAX_HEIGHT).

Definition with_resolution (width height : Z) (w : world K) : world K :=
  {| w_dev := set_run (Run.set_height height (Run.set_width width (run (w_dev w))))
                (w_dev w);
     w_kernel := w_kernel w; w_calls := w_calls w |}.

(** Slot [index] of the pool and picture [index], when they exist. *)
Definition slot (w : world K) (index : Z) : option hw_buffer_t :=
  match Run.hw_buffers (run (w_dev w)), nat_index index with
  | Some bufs, Some i => bufs !! i
  | _, _ => None
  end.

Definition picture (w : world K) (index : Z) : option picture_t :=
  match Run.pictures (run (w_dev w)), nat_index index with
  | Some pics, Some i => mjoin (pics !! i)
  | _, _ => None
  end.

(** The pool of an open session: [n_buffers] slots, each with its
    picture. *)
Definition open_session (w : world K) : Prop :=
  forall index, 0 <= index < Run.n_buffers (run (w_dev w)) ->
    is_Some (slot w index) /\ is_Some (picture w index).

Definition put_slot (index : Z) (b : hw_buffer_t) (w : world K) : world K :=
  with_run
    (Run.set_hw_buffers
       (option_map (fun bufs => <[Z.to_nat index := b]> bufs)
          (Run.hw_buffers (run (w_dev w))))
       (run (w_dev w))) w.

Definition put_picture (index : Z) (p : picture_t) (w : world K) : world K :=
  with_run
    (Run.set_pictures
       (option_map (fun pics => <[Z.to_nat index := Some p]> pics)
          (Run.pictures (run (w_dev w))))
       (run (w_dev w))) w.

(** The slot a release leaves behind, [buf] being the descriptor as the
    kernel returned it. *)
Definition released (buf : v4l2_buffer) (b : hw_buffer_t) : hw_buffer_t :=
  set_used 0 (set_grabbed false (set_buf_info buf b)).

(** The descriptor [device_grab_buffer] hands to [VIDIOC_DQBUF]. *)
Definition dqbuf_request (w : world K) : syscall (option v4l2_buffer) :=
  sys_ioctl (Run.fd (run (w_dev w)))
    (VIDIOC_DQBUF
       {| Buf.index := 0; Buf.type := V4L2_BUF_TYPE_VIDEO_CAPTURE;
          Buf.bytesused := 0; Buf.memory := io_method (w_dev w);
          Buf.m_offset := 0; Buf.m_userptr := NullPtr; Buf.length := 0 |}).

(** The request [_device_set_control] issues for an accepted value. *)
Definition s_ctrl_request (cid value : Z) (w : world K) : syscall (option unit) :=
  sys_ioctl (Run.fd (run (w_dev w)))
    (VIDIOC_S_CTRL {| ctl_id := cid; ctl_value := value |}).

(** [value % step] has a result. *)
Definition rem_defined (value step : Z) : Prop :=
  step <> 0 /\ ~ (value = INT_MIN /\ step = -1).

(** The value is in the reported range and a multiple of the step. *)
Definition control_value_valid (query : v4l2_queryctrl) (value : Z) : Prop :=
  Query.minimum query <= value <= Query.maximum query /\
  (Query.step query | value).

Definition control_value_ok (query : v4l2_queryctrl) (value : Z) : bool :=
  (Query.minimum query <=? value) && (value <=? Query.maximum query)
  && (Z.rem value (Query.step query) =? 0).

(** [keeps P obs c]: when [c] returns, it has only added calls satisfying
    [P] to the log, and the observation [obs] of the device structure is
    what it was. *)
Definition keeps {A B : Type} (P : call -> bool) (obs : device_t -> A)
    (c : M B) : Prop :=
  forall w b w', c w = Some (b, w') ->
    exists new, w_calls w' = new ++ w_calls w /\
                forallb P new = true /\
                obs (w_dev w') = obs (w_dev w).

(** Calls other than the buffer request and the format request. *)
Definition not_reqbufs (c : call) : bool :=
  match c with
  | Call s _ =>
      match s with
      | sys_ioctl _ req =>
          match req with VIDIOC_REQBUFS _ _ => false | _ => true end
      | _ => true
      end
  end.

Definition not_s_fmt (c : call) : bool :=
  match c with
  | Call s _ =>
      match s with
      | sys_ioctl _ req =>
          match req with VIDIOC_S_FMT _ => false | _ => true end
      | _ => true
      end
  end.

Definition plain_call (c : call) : bool := not_reqbufs c && not_s_fmt c.

(** The configuration fields the theorems below follow, and the runtime
    fields fixed once negotiated. *)
Definition cfg_obs (d : device_t) : Z * Z * Z * Z :=
  (n_workers d, n_buffers d, format d, io_method d).

Definition run_obs (d : device_t) : Z * Z * Z * Z * Z * Z :=
  (n_workers d, n_buffers d, format d, io_method d,
   Run.format (run d), Run.n_buffers (run d)).

(** The answer to a [VIDIOC_REQBUFS] call of the log. *)
Definition reqbufs_reply (c : call) : option (option Z) :=
  match c with
  | Call s r =>
      match s in syscall T return T -> option (option Z) with
      | sys_ioctl _ req =>
          match req in request T return option T -> option (option Z) with
          | VIDIOC_REQBUFS _ _ => fun r => Some r
          | _ => fun _ => None
          end
      | _ => fun _ => None
      end r
  end.


(** The successful answers a log holds for one kind of request. *)
Fixpoint collect {A : Type} (reply : call -> option (option A))
    (log : list call) : list A :=
  match log with
  | [] => []
  | c :: rest =>
      match reply c with
      | Some (Some a) => a :: collect reply rest
      | _ => collect reply rest
      end
  end.

(** The buffer counts granted by the [VIDIOC_REQBUFS] calls of a log, and
    the formats granted by its [VIDIOC_S_FMT] calls. *)
Definition grants (log : list call) : list Z := collect reqbufs_reply log.


(** [reaches P obs w w']: from [w] to [w'] the log grew by calls
    satisfying [P], and [obs] of the device structure is the same. *)
Definition reaches {A : Type} (P : call -> bool) (obs : device_t -> A)
    (w w' : world K) : Prop :=
  exists new, w_calls w' = new ++ w_calls w /\
              forallb P new = true /\
              obs (w_dev w') = obs (w_dev w).

(** The request [_device_open_format] makes: the resolution held by the
    runtime and the configured pixel format. *)
Definition s_fmt_request (w : world K) : syscall (option v4l2_pix_format) :=
  sys_ioctl (Run.fd (run (w_dev w)))
    (VIDIOC_S_FMT
       {| Pix.width := Run.width (run (w_dev w));
          Pix.height := Run.height (run (w_dev w));
          Pix.pixelformat := format (w_dev w);
          Pix.field := V4L2_FIELD_ANY; Pix.sizeimage := 0 |}).

(** A granted format the code refuses: not the requested one and not in
    [_FORMATS]. *)
Definition unsupported_format (requested granted : Z) : bool :=
  if negb (granted =? requested) then
    match _format_to_string_nullable granted with
    | Some _ => false
    | None => true
    end
  else false.

Definition with_format (fmt : v4l2_pix_format) (w : world K) : world K :=
  with_run
    (Run.set_raw_size (Pix.sizeimage fmt)
       (Run.set_format (Pix.pixelformat fmt) (run (w_dev w)))) w.

Definition any_call (c : call) : bool := true.

(** The resolution the runtime holds. *)
Definition res_obs (d : device_t) : Z * Z :=
  (Run.width (run d), Run.height (run d)).

(** The requests of [_device_apply_dv_timings]. *)
Definition query_dv_request (w : world K) : syscall (option v4l2_dv_timings) :=
  sys_ioctl (Run.fd (run (w_dev w))) VIDIOC_QUERY_DV_TIMINGS.

(** The number of slots of the pool array. *)
Definition pool_size (d : device_t) : option nat :=
  option_map List.length (Run.hw_buffers (run d)).

(** Every pointer of the picture array below [k] is set. *)
Definition pictures_set (pics : list (option picture_t)) (k : nat) : Prop :=
  forall i, (i < k)%nat -> exists p, pics !! i = Some (Some p).


(** The slot and the world a successful grab of [buf] leaves. *)
Definition grabbed_slot (buf : v4l2_buffer) (b : hw_buffer_t) : hw_buffer_t :=
  set_buf_info buf (set_used (Buf.bytesused buf) (set_grabbed true b)).

Definition after_grab (buf : v4l2_buffer) (b : hw_buffer_t) (p : picture_t)
    (w : world K) : world K :=
  let w1 := after sys_now_monotonic
              (put_slot (Buf.index buf) (grabbed_slot buf b)
                 (after (dqbuf_request w) w)) in
  put_picture (Buf.index buf)
    (set_grab_ts (answer sys_now_monotonic (after (dqbuf_request w) w)) p) w1.

(** The runtime [device_close] leaves: no workers, no pictures, no pool
    (and then no buffers), no descriptor. *)
Definition closed_run (r : device_runtime_t) : device_runtime_t :=
  let r1 := Run.set_n_workers 0 r in
  let r2 := match Run.pictures r1 with
            | Some _ => Run.set_pictures None r1
            | None => r1
            end in
  let r3 := match Run.hw_buffers r2 with
            | Some _ => Run.set_hw_buffers None (Run.set_n_buffers 0 r2)
            | None => r2
            end in
  if Run.fd r3 >=? 0 then Run.set_fd (-1) r3 else r3.

(** The requests of [_device_open_check_cap]. *)
Definition querycap_request (w : world K) : syscall (option v4l2_capability) :=
  sys_ioctl (Run.fd (run (w_dev w))) VIDIOC_QUERYCAP.

Definition s_input_request (w : world K) : syscall (option unit) :=
  sys_ioctl (Run.fd (run (w_dev w)))
    (VIDIOC_S_INPUT (int_of_unsigned (input (w_dev w)))).

Definition s_std_request (w : world K) : syscall (option unit) :=
  sys_ioctl (Run.fd (run (w_dev w))) (VIDIOC_S_STD (standard (w_dev w))).

(** The device can capture video and stream. *)
Definition can_capture (cap : v4l2_capability) : Prop :=
  Z.land (capabilities cap) V4L2_CAP_VIDEO_CAPTURE <> 0 /\
  Z.land (capabilities cap) V4L2_CAP_STREAMING <> 0.

(** The requests of [_device_open_hw_fps]: what it asks for is one frame
    per [desired_fps]-th of a second, 255 standing in for zero. *)
Definition g_parm_request (w : world K) : syscall (option v4l2_captureparm) :=
  sys_ioctl (Run.fd (run (w_dev w))) VIDIOC_G_PARM.

Definition s_parm_request (w : world K) : syscall (option v4l2_captureparm) :=
  sys_ioctl (Run.fd (run (w_dev w)))
    (VIDIOC_S_PARM
       {| capability := 0; numerator := 1;
          denominator := if desired_fps (w_dev w) =? 0 then 255
                         else desired_fps (w_dev w) |}).

(** The requests of the DV timings path. *)
Definition s_dv_request (dv : v4l2_dv_timings) (w : world K)
  : syscall (option v4l2_dv_timings) :=
  sys_ioctl (Run.fd (run (w_dev w))) (VIDIOC_S_DV_TIMINGS dv).

Definition subscribe_request (w : world K) : syscall (option unit) :=
  sys_ioctl (Run.fd (run (w_dev w)))
    (VIDIOC_SUBSCRIBE_EVENT V4L2_EVENT_SOURCE_CHANGE).

(** The requests of the control code. *)
Definition queryctrl_request (cid : Z) (w : world K) : syscall (option v4l2_queryctrl) :=
  sys_ioctl (Run.fd (run (w_dev w))) (VIDIOC_QUERYCTRL cid).

(** The control is there to be set: the query succeeded and the control
    is not disabled. *)
Definition control_available (res : option v4l2_queryctrl) : option v4l2_queryctrl :=
  match res with
  | Some query =>
      if Z.land (Query.flags query) V4L2_CTRL_FLAG_DISABLED =? 0
      then Some query else None
  | None => None
  end.

(** The slot and the outcome of a [VIDIOC_QBUF] call of the log. *)
Definition qbuf_reply (c : call) : option (Z * bool) :=
  match c with
  | Call s r =>
      match s in syscall T return T -> option (Z * bool) with
      | sys_ioctl _ req =>
          match req in request T return option T -> option (Z * bool) with
          | VIDIOC_QBUF buf =>
              fun r => Some (Buf.index buf,
                             match r with Some _ => true | None => false end)
          | _ => fun _ => None
          end
      | _ => fun _ => None
      end r
  end.

Definition queued_ok (index : Z) : option (Z * bool) := Some (index, true).

(** Calls that query or write a control. *)
Definition ctrl_call (c : call) : bool :=
  match c with
  | Call s _ =>
      match s with
      | sys_ioctl _ req =>
          match req with
          | VIDIOC_QUERYCTRL _ => true
          | VIDIOC_S_CTRL _ => true
          | _ => false
          end
      | _ => false
      end
  end.

(** The twelve controls of [struct controls_t]. *)
Definition control_fields : list (controls_t -> control_t) :=
  [brightness; contrast; saturation; hue; gamma; sharpness;
   backlight_compensation; white_balance; gain; color_effect;
   flip_vertical; flip_horizontal].

(** The memory calls of a log, newest first as the log is: the regions
    mapped, the address and the length of every [mmap] that did not
    fail; the regions unmapped, the arguments of every [munmap]; the
    blocks allocated, what every [aligned_alloc] returned; the blocks
    freed, the argument of every [free]. *)
Definition mmap_reply (c : call) : option (data_ptr * Z) :=
  match c with
  | Call s r =>
      match s in syscall T return T -> option (data_ptr * Z) with
      | sys_mmap len _ _ =>
          fun p => if is_map_failed p then None else Some (p, len)
      | _ => fun _ => None
      end r
  end.

Definition munmap_reply (c : call) : option (data_ptr * Z) :=
  match c with
  | Call s _ =>
      match s with
      | sys_munmap ptr len => Some (ptr, len)
      | _ => None
      end
  end.

Definition alloc_reply (c : call) : option data_ptr :=
  match c with
  | Call s r =>
      match s in syscall T return T -> option data_ptr with
      | sys_aligned_alloc _ _ => fun p => Some p
      | _ => fun _ => None
      end r
  end.

Definition free_reply (c : call) : option data_ptr :=
  match c with
  | Call s _ =>
      match s with
      | sys_free ptr => Some ptr
      | _ => None
      end
  end.

Definition mapped (log : list call) : list (data_ptr * Z) := omap mmap_reply log.

Definition unmapped (log : list call) : list (data_ptr * Z) :=
  omap munmap_reply log.

Definition allocs (log : list call) : list data_ptr := omap alloc_reply log.

Definition frees (log : list call) : list data_ptr := omap free_reply log.

Definition no_memory_call (c : call) : bool :=
  match c with
  | Call s _ =>
      match s with
      | sys_mmap _ _ _ => false
      | sys_munmap _ _ => false
      | sys_aligned_alloc _ _ => false
      | sys_free _ => false
      | _ => true
      end
  end.

(** The memory of a slot, and the tests [device_close] makes before it
    unmaps or frees it. *)
Definition region (b : hw_buffer_t) : data_ptr * Z := (data b, allocated b).

Definition unmappable (r : data_ptr * Z) : bool :=
  (snd r >? 0) && negb (is_map_failed (fst r)).

Definition nonnull (p : data_ptr) : bool := negb (is_null p).

(** The slots below [n_buffers], those [device_close] walks over, each
    seen through [key]: their regions, and their addresses. *)
Definition walked {X : Type} (key : hw_buffer_t -> X) (d : device_t) : list X :=
  match Run.hw_buffers (run d) with
  | Some bufs => map key (take (Z.to_nat (Run.n_buffers (run d))) bufs)
  | None => []
  end.

Definition held (d : device_t) : list (data_ptr * Z) := walked region d.

Definition owned (d : device_t) : list data_ptr := walked data d.

(** What the steps around the buffer step leave alone. *)
Definition pool_obs (d : device_t)
  : option (list hw_buffer_t) * Z * Z * option (list (option picture_t)) * Z :=
  (Run.hw_buffers (run d), Run.n_buffers (run d), io_method d,
   Run.pictures (run d), Run.fd (run d)).

Definition slots_obs (d : device_t) : option (list hw_buffer_t) * Z * Z * Z :=
  (Run.hw_buffers (run d), Run.n_buffers (run d), io_method d, Run.fd (run d)).

Definition frame_obs (d : device_t) : Z * option (list (option picture_t)) * Z :=
  (io_method d, Run.pictures (run d), Run.fd (run d)).

(** The arrays reach as far as [n_buffers]: what [device_close] needs
    to walk over them. *)
Definition closable (d : device_t) : Prop :=
  match Run.pictures (run d) with
  | Some pics => (Z.to_nat (Run.n_buffers (run d)) <= List.length pics)%nat
  | None => True
  end /\
  match Run.hw_buffers (run d) with
  | Some bufs => (Z.to_nat (Run.n_buffers (run d)) <= List.length bufs)%nat
  | None => True
  end.

(** A buffer strategy seen through the log: [acq] reads what a call
    acquired, [rel] what a call released, [key] what a slot holds of it.

    One turn of the loop that fills the pool: it releases nothing, keeps
    the slots below [n_buffers], and either fails having acquired
    nothing, or has acquired what slot [n_buffers] now holds. *)
Definition acquires_one {X : Type} (acq rel : call -> option X)
    (key : hw_buffer_t -> X) (body : M Z) : Prop :=
  forall (k : nat) (bufs : list hw_buffer_t) (w w1 : world K) (r : Z),
    Run.hw_buffers (run (w_dev w)) = Some bufs ->
    Run.n_buffers (run (w_dev w)) = Z.of_nat k ->
    body w = Some (r, w1) ->
    exists new bufs',
      w_calls w1 = new ++ w_calls w /\
      omap rel new = [] /\
      Run.hw_buffers (run (w_dev w1)) = Some bufs' /\
      Run.n_buffers (run (w_dev w1)) = Z.of_nat k /\
      List.length bufs' = List.length bufs /\
      take k bufs' = take k bufs /\
      ((r = -1 /\ omap acq new = []) \/
       (r = 0 /\ exists b, bufs' !! k = Some b /\ omap acq new = [key b])).

(** The buffer step of the strategy [method]: it releases nothing, and
    either fails before it has a pool, having acquired nothing, or the
    slots below [n_buffers] hold, in order, exactly what it acquired. *)
Definition step_acquires {X : Type} (acq rel : call -> option X)
    (key : hw_buffer_t -> X) (method : Z) : Prop :=
  forall (w w' : world K) (rc : Z),
    io_method (w_dev w) = method ->
    _device_open_io_method w = Some (rc, w') ->
    exists new,
      w_calls w' = new ++ w_calls w /\
      omap rel new = [] /\
      frame_obs (w_dev w') = frame_obs (w_dev w) /\
      ((rc = -1 /\ omap acq new = [] /\
        Run.hw_buffers (run (w_dev w')) = Run.hw_buffers (run (w_dev w)) /\
        Run.n_buffers (run (w_dev w')) = Run.n_buffers (run (w_dev w))) \/
       (exists bufs,
          Run.hw_buffers (run (w_dev w')) = Some bufs /\
          (Z.to_nat (Run.n_buffers (run (w_dev w'))) <= List.length bufs)%nat /\
          walked key (w_dev w') = rev (omap acq new))).

(** [device_close] by the strategy [method]: on arrays that reach as far
    as [n_buffers] it returns, acquires nothing, and releases, in the
    order of the slots, what the slots that pass [test] hold. *)
Definition close_releases {X : Type} (acq rel : call -> option X)
    (key : hw_buffer_t -> X) (test : X -> bool) (method : Z) : Prop :=
  forall w : world K,
    closable (w_dev w) ->
    io_method (w_dev w) = method ->
    exists w' new,
      device_close w = Some (tt, w') /\
      w_calls w' = new ++ w_calls w /\
      omap acq new = [] /\
      omap rel new = rev (List.filter test (walked key (w_dev w))).

(** The memory of every slot, the number of slots and the strategy. *)
Definition regions_obs (d : device_t)
  : option (list (data_ptr * Z)) * Z * Z :=
  (option_map (map region) (Run.hw_buffers (run d)),
   Run.n_buffers (run d), io_method d).

(** The configuration: the device structure without what [run] points
    to; the settings: the configuration without the standard; and the
    standard of a configuration that does not ask for DV timings. *)
Definition config_of (d : device_t) : device_t := set_run init_run d.

Definition settings_of (d : device_t) : device_t :=
  set_standard V4L2_STD_UNKNOWN (set_run init_run d).

Definition fixed_standard (d : device_t) : option Z :=
  if dv_timings d then None else Some (standard d).

(** The standard is the one field of the configuration the open
    sequence writes, and only on the DV timings path. *)
Definition settings_obs (d : device_t) : device_t * option Z :=
  (settings_of d, fixed_standard d).

(** A driver whose controls never report the step 0 or -1. *)
Definition sane_steps : Prop :=
  forall (fd cid : Z) (k : K) (query : v4l2_queryctrl),
    fst (kernel_step _ (sys_ioctl fd (VIDIOC_QUERYCTRL cid)) k) = Some query ->
    Query.step query <> 0 /\ Query.step query <> -1.

(** [returns c]: the call [c] has a result from every state. *)
Definition returns {A : Type} (c : M A) : Prop :=
  forall w, exists a w', c w = Some (a, w').

End Vocabulary.

(** * Properties *)

Section Properties.
Context {K : Type} {kernel : Kernel K} {ext : Externals}.
Local Abbreviation M := (prog K).
Local Abbreviation keeps := (@keeps K _ _).
Local Open Scope prog_scope.

Lemma sys_run {R : Type} (s : syscall R) (w : world K) :
  sys s w = Some (answer s w, after s w).
Proof.
  unfold sys, after, answer. destruct (kernel_step R s (w_kernel w)); reflexivity.
Qed.

Lemma bind_run {A B : Type} (c : M A) (f : A -> M B) (w w1 : world K) (a : A) :
  c w = Some (a, w1) -> bind c f w = f a w1.
Proof. unfold bind. intros ->. reflexivity. Qed.

Lemma bind_inv {A B : Type} (c : M A) (f : A -> M B) (w w' : world K) (b : B) :
  bind c f w = Some (b, w') ->
  exists a w1, c w = Some (a, w1) /\ f a w1 = Some (b, w').
Proof.
  unfold bind. destruct (c w) as [[a w1]|]; [|discriminate].
  intros H. exists a, w1. split; [reflexivity|exact H].
Qed.

(** Symbolic execution: how each primitive runs under [bind]. *)
Lemma bind_get_dev {B : Type} (f : device_t -> M B) (w : world K) :
  bind get_dev f w = f (w_dev w) w.
Proof. reflexivity. Qed.

Lemma bind_get_run {B : Type} (f : device_runtime_t -> M B) (w : world K) :
  bind get_run f w = f (run (w_dev w)) w.
Proof. reflexivity. Qed.

Lemma bind_modify_run {B : Type} (g : device_runtime_t -> device_runtime_t)
    (f : unit -> M B) (w : world K) :
  bind (modify_run g) f w = f tt (with_run (g (run (w_dev w))) w).
Proof. reflexivity. Qed.

Lemma bind_sys {R B : Type} (s : syscall R) (f : R -> M B) (w : world K) :
  bind (sys s) f w = f (answer s w) (after s w).
Proof. apply bind_run, sys_run. Qed.

Lemma bind_xioctl {R B : Type} (fd : Z) (req : request R) (f : option R -> M B)
    (w : world K) :
  bind (xioctl fd req) f w =
  f (answer (sys_ioctl fd req) w) (after (sys_ioctl fd req) w).
Proof. apply bind_sys. Qed.

Lemma bind_bind {A B C : Type} (c : M A) (f : A -> M B) (g : B -> M C)
    (w : world K) :
  bind (bind c f) g w = bind c (fun a => bind (f a) g) w.
Proof. unfold bind. destruct (c w) as [[a w1]|]; reflexivity. Qed.

Lemma ret_run {A : Type} (a : A) (w : world K) : ret a w = Some (a, w).
Proof. reflexivity. Qed.

Lemma apply_resolution_run (width height : Z) (w : world K) :
  _device_apply_resolution width height w =
  if forbidden_resolution width height then Some (-1, w)
  else Some (0, with_resolution width height w).
Proof.
  unfold _device_apply_resolution, forbidden_resolution.
  destruct (_ || _); reflexivity.
Qed.

Lemma forbidden_resolution_spec (width height : Z) :
  forbidden_resolution width height = true <->
  width = 0 \/ width > VIDEO_MAX_WIDTH \/ height = 0 \/ height > VIDEO_MAX_HEIGHT.
Proof.
  unfold forbidden_resolution. rewrite !orb_true_iff.
  rewrite !Z.eqb_eq, !Z.gtb_gt. tauto.
Qed.

(** C10.  [_device_apply_resolution] always returns, with 0 or -1; when it
    rejects the pair (returns -1) the whole world, and so the width and the
    height negotiated before, is as it was; the two fields are written only
    on the accepting path. *)
Theorem apply_resolution_rejected_keeps_runtime (width height : Z) (w : world K) :
  exists rc w',
    _device_apply_resolution width height w = Some (rc, w') /\
    (rc = -1 \/ rc = 0) /\
    (rc = -1 ->
       w' = w /\
       Run.width (run (w_dev w')) = Run.width (run (w_dev w)) /\
       Run.height (run (w_dev w')) = Run.height (run (w_dev w))) /\
    (rc = 0 ->
       forbidden_resolution width height = false /\
       Run.width (run (w_dev w')) = width /\
       Run.height (run (w_dev w')) = height).
Proof.
  rewrite apply_resolution_run.
  destruct (forbidden_resolution width height) eqn:Hf.
  - exists (-1), w. repeat split; auto; discriminate.
  - exists 0, (with_resolution width height w).
    repeat split; auto; discriminate.
Qed.

(** C6.  [device_switch_capturing]: asked for the state the device is
    already in, it returns 0 and touches nothing, the kernel included;
    otherwise it issues one stream-on or stream-off request, and
    - enabling sets [capturing] and returns 0 when the request succeeds,
      returns -1 with the device structure unchanged (still stopped) when
      it fails;
    - disabling clears [capturing] and returns 0 whatever the request
      answers. *)
Theorem switch_capturing_state_machine (enable : bool) (w : world K) :
  let r := run (w_dev w) in
  let on := sys_ioctl (Run.fd r) (VIDIOC_STREAMON V4L2_BUF_TYPE_VIDEO_CAPTURE) in
  let off := sys_ioctl (Run.fd r) (VIDIOC_STREAMOFF V4L2_BUF_TYPE_VIDEO_CAPTURE) in
  (enable = Run.capturing r ->
     device_switch_capturing enable w = Some (0, w)) /\
  (enable = true -> Run.capturing r = false ->
     exists rc w',
       device_switch_capturing enable w = Some (rc, w') /\
       w_kernel w' = w_kernel (after on w) /\
       w_calls w' = w_calls (after on w) /\
       match answer on w with
       | Some _ => rc = 0 /\ Run.capturing (run (w_dev w')) = true
       | None => rc = -1 /\ w_dev w' = w_dev w
       end) /\
  (enable = false -> Run.capturing r = true ->
     exists w',
       device_switch_capturing enable w = Some (0, w') /\
       w_kernel w' = w_kernel (after off w) /\
       w_calls w' = w_calls (after off w) /\
       Run.capturing (run (w_dev w')) = false).
Proof.
  intros r on off. unfold device_switch_capturing.
  rewrite bind_get_run. fold r.
  repeat split.
  - intros ->. rewrite eqb_reflx. reflexivity.
  - intros -> Hc. rewrite Hc. cbn [eqb negb].
    rewrite bind_xioctl. fold on.
    destruct (answer on w) eqn:Ha.
    + eexists _, _. split; [reflexivity|]. cbn. auto.
    + eexists _, _. split; [reflexivity|]. cbn. auto.
  - intros -> Hc. rewrite Hc. cbn [eqb negb].
    rewrite bind_xioctl. fold off.
    destruct (answer off w) eqn:Ha.
    + eexists. split; [reflexivity|]. cbn. auto.
    + eexists. split; [reflexivity|]. cbn. auto.
Qed.

(** C7.  [device_consume_event] always returns, 0 or -1, and leaves the
    device structure alone; it returns -1 exactly when an event was
    dequeued and its type is [V4L2_EVENT_SOURCE_CHANGE].  So an
    end-of-stream event, any other event, and a failed dequeue all give
    0. *)
Theorem consume_event_error_iff_source_change (w : world K) :
  let dq := sys_ioctl (Run.fd (run (w_dev w))) VIDIOC_DQEVENT in
  exists rc,
    device_consume_event w = Some (rc, after dq w) /\
    (rc = 0 \/ rc = -1) /\
    (rc = -1 <->
     exists event, answer dq w = Some event /\
                   event_type event = V4L2_EVENT_SOURCE_CHANGE).
Proof.
  intros dq. unfold device_consume_event.
  rewrite bind_get_run, bind_xioctl. fold dq.
  destruct (answer dq w) as [event|] eqn:Ha.
  - destruct (event_type event =? V4L2_EVENT_SOURCE_CHANGE) eqn:Hs.
    + exists (-1). split; [reflexivity|]. split; [auto|].
      split; [|reflexivity]. intros _. exists event.
      apply Z.eqb_eq in Hs. auto.
    + exists 0. split; [destruct (_ =? V4L2_EVENT_EOS); reflexivity|].
      split; [auto|]. split; [discriminate|].
      intros (e & He & Hty). injection He as <-.
      apply Z.eqb_neq in Hs. contradiction.
  - exists 0. split; [reflexivity|]. split; [auto|].
    split; [discriminate|]. intros (e & He & _). discriminate.
Qed.

(** ** The buffer pool of an open session *)

Lemma hw_buffer_at_run (index : Z) (w : world K) (b : hw_buffer_t) :
  slot w index = Some b -> hw_buffer_at index w = Some (b, w).
Proof.
  unfold slot, hw_buffer_at. rewrite bind_get_run.
  destruct (Run.hw_buffers _); [|discriminate].
  destruct (nat_index index); [|discriminate].
  intros ->. reflexivity.
Qed.

Lemma modify_hw_buffer_run (index : Z) (f : hw_buffer_t -> hw_buffer_t)
    (w : world K) (b : hw_buffer_t) :
  slot w index = Some b ->
  modify_hw_buffer index f w = Some (tt, put_slot index (f b) w).
Proof.
  intros H. unfold modify_hw_buffer.
  rewrite (bind_run _ _ _ _ _ (hw_buffer_at_run _ _ _ H)). reflexivity.
Qed.

Lemma picture_ptr_at_run (index : Z) (w : world K) (p : picture_t) :
  picture w index = Some p -> picture_ptr_at index w = Some (Some p, w).
Proof.
  unfold picture, picture_ptr_at. rewrite bind_get_run.
  destruct (Run.pictures _) as [pics|]; [|discriminate].
  destruct (nat_index index) as [i|]; [|discriminate].
  destruct (pics !! i) as [[q|]|]; cbn; try discriminate.
  intros [= ->]. reflexivity.
Qed.

Lemma modify_picture_run (index : Z) (f : picture_t -> picture_t)
    (w : world K) (p : picture_t) :
  picture w index = Some p ->
  modify_picture index f w = Some (tt, put_picture index (f p) w).
Proof.
  intros H. unfold modify_picture, store_picture_ptr.
  rewrite (bind_run _ _ _ _ _ (picture_ptr_at_run _ _ _ H)).
  rewrite (bind_run _ _ _ _ _ (picture_ptr_at_run _ _ _ H)).
  reflexivity.
Qed.

Lemma nat_index_Some (index : Z) (i : nat) :
  nat_index index = Some i <-> 0 <= index /\ i = Z.to_nat index.
Proof.
  unfold nat_index. destruct (0 <=? index) eqn:H.
  - apply Z.leb_le in H. split; [intros [= <-]; auto|intros [_ ->]; auto].
  - apply Z.leb_gt in H. split; [discriminate|lia].
Qed.

Lemma slot_put_slot (index : Z) (b b0 : hw_buffer_t) (w : world K) :
  slot w index = Some b0 -> slot (put_slot index b w) index = Some b.
Proof.
  unfold slot, put_slot. cbn.
  destruct (Run.hw_buffers _) as [bufs|]; [|discriminate].
  destruct (nat_index index) as [i|] eqn:Hi; [|discriminate].
  apply nat_index_Some in Hi as [_ ->]. cbn. intros H.
  apply list_lookup_insert_eq. eapply lookup_lt_Some, H.
Qed.

Lemma slot_put_slot_ne (index j : Z) (b : hw_buffer_t) (w : world K) :
  0 <= index -> j <> index -> slot (put_slot index b w) j = slot w j.
Proof.
  intros Hi Hne. unfold slot, put_slot. cbn.
  destruct (Run.hw_buffers _) as [bufs|]; [|reflexivity]. cbn.
  destruct (nat_index j) as [i|] eqn:Hj; [|reflexivity].
  apply nat_index_Some in Hj as [Hj ->].
  apply list_lookup_insert_ne. lia.
Qed.

Lemma slot_put_picture (index j : Z) (p : picture_t) (w : world K) :
  slot (put_picture index p w) j = slot w j.
Proof. reflexivity. Qed.

Lemma picture_put_picture (index : Z) (p p0 : picture_t) (w : world K) :
  picture w index = Some p0 -> picture (put_picture index p w) index = Some p.
Proof.
  unfold picture, put_picture. cbn.
  destruct (Run.pictures _) as [pics|]; [|discriminate].
  destruct (nat_index index) as [i|] eqn:Hi; [|discriminate].
  apply nat_index_Some in Hi as [_ ->]. cbn. intros H.
  rewrite list_lookup_insert_eq; [reflexivity|].
  destruct (pics !! Z.to_nat index) eqn:E; [|discriminate].
  eapply lookup_lt_Some, E.
Qed.

Lemma picture_put_picture_ne (index j : Z) (p : picture_t) (w : world K) :
  0 <= index -> j <> index -> picture (put_picture index p w) j = picture w j.
Proof.
  intros Hi Hne. unfold picture, put_picture. cbn.
  destruct (Run.pictures _) as [pics|]; [|reflexivity]. cbn.
  destruct (nat_index j) as [i|] eqn:Hj; [|reflexivity].
  apply nat_index_Some in Hj as [Hj ->].
  rewrite list_lookup_insert_ne; [reflexivity|lia].
Qed.

Lemma slot_nonneg (w : world K) (index : Z) (b : hw_buffer_t) :
  slot w index = Some b -> 0 <= index.
Proof.
  unfold slot. destruct (Run.hw_buffers _); [|discriminate].
  destruct (nat_index index) eqn:Hi; [|discriminate].
  apply nat_index_Some in Hi. tauto.
Qed.

(** Writing back what a slot already holds changes nothing. *)
Lemma put_slot_same (index : Z) (b : hw_buffer_t) (w : world K) :
  slot w index = Some b -> w_dev (put_slot index b w) = w_dev w.
Proof.
  unfold slot, put_slot. cbn.
  destruct (w_dev w) as [? ? ? ? ? ? ? ? ? ? ? ? r]. cbn.
  destruct r as [? ? ? ? ? ? ? ? bufs ? ?]. cbn.
  destruct bufs as [bufs|]; [|discriminate].
  destruct (nat_index index) as [i|] eqn:Hi; [|discriminate].
  apply nat_index_Some in Hi as [_ ->]. intros H. cbn.
  unfold set_run, Run.set_hw_buffers. cbn. rewrite list_insert_id by exact H.
  reflexivity.
Qed.

Lemma slot_after {R : Type} (s : syscall R) (w : world K) (index : Z) :
  slot (after s w) index = slot w index.
Proof. reflexivity. Qed.

Lemma put_slot_put_slot (index : Z) (b b' : hw_buffer_t) (w : world K) :
  put_slot index b (put_slot index b' w) = put_slot index b w.
Proof.
  unfold put_slot, with_run, with_dev. cbn.
  destruct (Run.hw_buffers (run (w_dev w))) as [bufs|]; cbn; [|reflexivity].
  rewrite list_insert_insert_eq. reflexivity.
Qed.

Lemma released_clear (b : hw_buffer_t) :
  grabbed b = false -> used b = 0 -> released (buf_info b) b = b.
Proof. destruct b. cbn. intros -> ->. reflexivity. Qed.

Lemma release_buffer_run (index : Z) (w : world K) (b : hw_buffer_t) :
  slot w index = Some b ->
  let qbuf := sys_ioctl (Run.fd (run (w_dev w))) (VIDIOC_QBUF (buf_info b)) in
  device_release_buffer index w =
  match answer qbuf w with
  | None => Some (-1, after qbuf w)
  | Some buf => Some (0, put_slot index (released buf b) (after qbuf w))
  end.
Proof.
  intros Hb qbuf. unfold device_release_buffer.
  rewrite bind_get_run.
  rewrite (bind_run _ _ _ _ _ (hw_buffer_at_run _ _ _ Hb)).
  rewrite bind_xioctl. fold qbuf.
  destruct (answer qbuf w) as [buf|]; [|reflexivity].
  assert (H1 : slot (after qbuf w) index = Some b) by exact Hb.
  rewrite (bind_run _ _ _ _ _ (modify_hw_buffer_run _ _ _ _ H1)).
  pose proof (slot_put_slot index (set_buf_info buf b) b _ H1) as H2.
  rewrite (bind_run _ _ _ _ _ (modify_hw_buffer_run _ _ _ _ H2)).
  pose proof (slot_put_slot index (set_grabbed false (set_buf_info buf b)) _ _ H2)
    as H3.
  rewrite (bind_run _ _ _ _ _ (modify_hw_buffer_run _ _ _ _ H3)).
  rewrite ret_run, !put_slot_put_slot. reflexivity.
Qed.

(** C2.  [device_release_buffer] on a slot of the pool; the request is
    made on the descriptor the slot holds.
    - When the kernel refuses to re-enqueue the descriptor, the call
      returns -1 and the device structure, so the slot's [grabbed] flag and
      [used], is unchanged.
    - When the kernel accepts, the call returns 0 whatever the flag was;
      the slot then has [grabbed = false] and [used = 0], its descriptor is
      the one the kernel left, its other fields and the other slots are as
      before; for a slot that was already clear the descriptor is all that
      may differ in the device structure, which is unchanged when the
      kernel left the descriptor as it was.
    - Two releases in a row that both succeed: the slot is clear after the
      first, and the second changes nothing in the device structure but,
      again, that descriptor. *)
Theorem release_buffer_requeue (index : Z) (w : world K) :
  open_session w ->
  0 <= index < Run.n_buffers (run (w_dev w)) ->
  exists b,
    slot w index = Some b /\
    let qbuf := sys_ioctl (Run.fd (run (w_dev w))) (VIDIOC_QBUF (buf_info b)) in
    (answer qbuf w = None ->
       device_release_buffer index w = Some (-1, after qbuf w) /\
       w_dev (after qbuf w) = w_dev w /\
       slot (after qbuf w) index = Some b) /\
    (forall buf, answer qbuf w = Some buf ->
       exists w',
         device_release_buffer index w = Some (0, w') /\
         w_kernel w' = w_kernel (after qbuf w) /\
         w_calls w' = w_calls (after qbuf w) /\
         slot w' index =
           Some {| data := data b; used := 0; allocated := allocated b;
                   grabbed := false; buf_info := buf |} /\
         (forall j, j <> index -> slot w' j = slot w j) /\
         (grabbed b = false -> used b = 0 ->
            w_dev w' = w_dev (put_slot index (set_buf_info buf b) w) /\
            (buf = buf_info b -> w_dev w' = w_dev w))) /\
    (forall w1 w2,
       device_release_buffer index w = Some (0, w1) ->
       device_release_buffer index w1 = Some (0, w2) ->
       exists b1 b2,
         slot w1 index = Some b1 /\ grabbed b1 = false /\ used b1 = 0 /\
         slot w2 index = Some b2 /\ grabbed b2 = false /\ used b2 = 0 /\
         w_dev w2 = w_dev (put_slot index (set_buf_info (buf_info b2) b1) w1)).
Proof.
  intros Hs Hi. destruct (Hs index Hi) as [[b Hb] _].
  exists b. split; [exact Hb|]. intros qbuf.
  pose proof (release_buffer_run index w b Hb) as Hrun. cbv zeta in Hrun.
  fold qbuf in Hrun.
  assert (H1 : slot (after qbuf w) index = Some b) by exact Hb.
  pose proof (slot_nonneg _ _ _ Hb) as Hnn.
  split; [|split].
  - intros Ha. rewrite Hrun, Ha. repeat split. exact Hb.
  - intros buf Ha. rewrite Ha in Hrun.
    eexists. split; [exact Hrun|].
    split; [reflexivity|]. split; [reflexivity|].
    split; [exact (slot_put_slot index (released buf b) b _ H1)|]. split.
    + intros j Hj. rewrite slot_put_slot_ne by assumption. reflexivity.
    + intros Hg Hu. split.
      * destruct b. cbn in Hg, Hu. subst. reflexivity.
      * intros ->. rewrite (released_clear b Hg Hu).
        apply (put_slot_same index b (after qbuf w) H1).
  - intros w1 w2 Hr1 Hr2. rewrite Hrun in Hr1.
    destruct (answer qbuf w) as [buf|]; [|discriminate].
    injection Hr1 as <-.
    pose proof (slot_put_slot index (released buf b) b _ H1) as H3.
    pose proof (release_buffer_run index _ _ H3) as Hrun2. cbv zeta in Hrun2.
    rewrite Hrun2 in Hr2.
    match type of Hr2 with
    | match answer ?q ?w with _ => _ end = _ =>
        destruct (answer q w) as [buf2|]; [|discriminate];
        set (wq := after q w) in *
    end.
    injection Hr2 as <-.
    assert (Hq : slot wq index = Some (released buf b)) by exact H3.
    exists (released buf b), (released buf2 (released buf b)).
    split; [exact H3|]. split; [reflexivity|]. split; [reflexivity|].
    split; [exact (slot_put_slot index _ _ _ Hq)|].
    split; [reflexivity|]. split; [reflexivity|]. reflexivity.
Qed.

Lemma int_of_unsigned_small (u : Z) : u <= INT_MAX -> int_of_unsigned u = u.
Proof.
  intros H. unfold int_of_unsigned.
  destruct (u <=? INT_MAX) eqn:E; [reflexivity|].
  apply Z.leb_gt in E. lia.
Qed.

(** C1.  [device_grab_buffer] in an open session whose pool has
    [n_buffers] slots (a count that fits [int], the type of the result).
    It returns -1, the device structure untouched,
    - when the dequeue fails,
    - when the dequeued index is [>= n_buffers],
    - when the slot of that index is already grabbed.
    Otherwise it returns the dequeued index; the slot then has
    [grabbed = true], [used] equal to the bytes used of the dequeued
    descriptor and [buf_info] equal to that descriptor; the picture of
    that index carries the clock reading taken after the dequeue; every
    other slot and picture is as before. *)
Theorem grab_buffer_dequeue (w : world K) :
  open_session w ->
  Run.n_buffers (run (w_dev w)) <= INT_MAX ->
  let dqbuf := dqbuf_request w in
  w_dev (after dqbuf w) = w_dev w /\
  (answer dqbuf w = None ->
     device_grab_buffer w = Some (-1, after dqbuf w)) /\
  (forall buf, answer dqbuf w = Some buf ->
     (Buf.index buf >= Run.n_buffers (run (w_dev w)) ->
        device_grab_buffer w = Some (-1, after dqbuf w)) /\
     (0 <= Buf.index buf < Run.n_buffers (run (w_dev w)) ->
        exists b p,
          slot w (Buf.index buf) = Some b /\
          picture w (Buf.index buf) = Some p /\
          (grabbed b = true ->
             device_grab_buffer w = Some (-1, after dqbuf w)) /\
          (grabbed b = false ->
             exists w',
               device_grab_buffer w = Some (Buf.index buf, w') /\
               slot w' (Buf.index buf) =
                 Some {| data := data b; used := Buf.bytesused buf;
                         allocated := allocated b; grabbed := true;
                         buf_info := buf |} /\
               picture w' (Buf.index buf) =
                 Some {| picture_allocated := picture_allocated p;
                         grab_ts := answer sys_now_monotonic (after dqbuf w) |} /\
               (forall j, j <> Buf.index buf ->
                  slot w' j = slot w j /\ picture w' j = picture w j)))).
Proof.
  intros Hs Hmax dqbuf.
  assert (Hrun : device_grab_buffer w =
    match answer dqbuf w with
    | None => Some (-1, after dqbuf w)
    | Some buf_info =>
        (if Buf.index buf_info >=? Run.n_buffers (run (w_dev w)) then ret (-1)
         else
           b <- hw_buffer_at (Buf.index buf_info);;
           if grabbed b then ret (-1)
           else
             modify_hw_buffer (Buf.index buf_info) (set_grabbed true);;
             modify_hw_buffer (Buf.index buf_info)
               (set_used (Buf.bytesused buf_info));;
             modify_hw_buffer (Buf.index buf_info) (set_buf_info buf_info);;
             now <- sys sys_now_monotonic;;
             modify_picture (Buf.index buf_info) (set_grab_ts now);;
             ret (int_of_unsigned (Buf.index buf_info))) (after dqbuf w)
    end).
  { unfold device_grab_buffer. rewrite bind_get_dev, bind_xioctl.
    fold (dqbuf_request w). fold dqbuf.
    destruct (answer dqbuf w); reflexivity. }
  split; [reflexivity|]. split.
  { intros Ha. rewrite Hrun, Ha. reflexivity. }
  intros buf Ha. rewrite Ha in Hrun. split.
  { intros Hge. rewrite Hrun.
    destruct (Buf.index buf >=? _) eqn:E; [reflexivity|].
    rewrite Z.geb_leb in E. apply Z.leb_gt in E. lia. }
  intros Hi. destruct (Hs _ Hi) as [[b Hb] [p Hp]].
  exists b, p. split; [exact Hb|]. split; [exact Hp|].
  destruct (Buf.index buf >=? _) eqn:E in Hrun.
  { rewrite Z.geb_leb in E. apply Z.leb_le in E. lia. }
  assert (H0 : slot (after dqbuf w) (Buf.index buf) = Some b) by exact Hb.
  rewrite (bind_run _ _ _ _ _ (hw_buffer_at_run _ _ _ H0)) in Hrun.
  split.
  { intros Hg. rewrite Hg in Hrun. exact Hrun. }
  intros Hg. rewrite Hg in Hrun.
  rewrite (bind_run _ _ _ _ _ (modify_hw_buffer_run _ _ _ _ H0)) in Hrun.
  pose proof (slot_put_slot _ (set_grabbed true b) _ _ H0) as H1.
  rewrite (bind_run _ _ _ _ _ (modify_hw_buffer_run _ _ _ _ H1)) in Hrun.
  pose proof (slot_put_slot _ (set_used (Buf.bytesused buf) (set_grabbed true b))
                _ _ H1) as H2.
  rewrite (bind_run _ _ _ _ _ (modify_hw_buffer_run _ _ _ _ H2)) in Hrun.
  rewrite bind_sys in Hrun.
  match type of Hrun with
  | context [after sys_now_monotonic ?w0] => set (w3 := w0) in *
  end.
  assert (Hp3 : picture (after sys_now_monotonic w3) (Buf.index buf) = Some p)
    by exact Hp.
  rewrite (bind_run _ _ _ _ _ (modify_picture_run _ _ _ _ Hp3)) in Hrun.
  rewrite ret_run, int_of_unsigned_small in Hrun by lia.
  eexists. split; [exact Hrun|]. split; [|split].
  - rewrite slot_put_picture, slot_after. subst w3.
    erewrite slot_put_slot by exact H2. reflexivity.
  - erewrite picture_put_picture by exact Hp3. reflexivity.
  - intros j Hj. split.
    + rewrite slot_put_picture, slot_after. subst w3.
      rewrite !slot_put_slot_ne by lia. reflexivity.
    + rewrite picture_put_picture_ne by lia. reflexivity.
Qed.

(** ** Control values *)

Lemma c_rem_defined (a b : Z) : rem_defined a b -> c_rem a b = Some (Z.rem a b).
Proof.
  intros [Hb Ho]. unfold c_rem.
  destruct (b =? 0) eqn:E; [apply Z.eqb_eq in E; contradiction|].
  destruct ((a =? INT_MIN) && (b =? -1)) eqn:E2; [|reflexivity].
  apply andb_true_iff in E2 as [E3 E4].
  apply Z.eqb_eq in E3, E4. tauto.
Qed.

Lemma c_rem_undefined (a b : Z) :
  c_rem a b = None <-> b = 0 \/ (a = INT_MIN /\ b = -1).
Proof.
  unfold c_rem. destruct (b =? 0) eqn:E.
  - apply Z.eqb_eq in E. tauto.
  - apply Z.eqb_neq in E.
    destruct ((a =? INT_MIN) && (b =? -1)) eqn:E2.
    + apply andb_true_iff in E2 as [E3 E4]. apply Z.eqb_eq in E3, E4. tauto.
    + apply andb_false_iff in E2. split; [discriminate|].
      intros [H|[H1 H2]]; [contradiction|].
      destruct E2 as [E2|E2]; apply Z.eqb_neq in E2; contradiction.
Qed.

Lemma control_value_ok_spec (query : v4l2_queryctrl) (value : Z) :
  Query.step query <> 0 ->
  control_value_ok query value = true <-> control_value_valid query value.
Proof.
  intros Hstep. unfold control_value_ok, control_value_valid.
  rewrite !andb_true_iff, !Z.leb_le, Z.eqb_eq, (Z.rem_divide _ _ Hstep).
  tauto.
Qed.

Lemma control_value_invalid_defined (query : v4l2_queryctrl) (value : Z) :
  rem_defined value (Query.step query) ->
  control_value_invalid query value = Some (negb (control_value_ok query value)).
Proof.
  intros Hd. unfold control_value_invalid, control_value_ok.
  destruct (value <? Query.minimum query) eqn:E1.
  { apply Z.ltb_lt in E1. apply Z.leb_gt in E1. rewrite E1. reflexivity. }
  destruct (value >? Query.maximum query) eqn:E2.
  { apply Z.gtb_gt in E2.
    assert (E3 : (value <=? Query.maximum query) = false)
      by (apply Z.leb_gt; lia).
    rewrite E3, andb_false_r. reflexivity. }
  apply Z.ltb_ge, Z.leb_le in E1. rewrite Z.gtb_ltb in E2.
  apply Z.ltb_ge, Z.leb_le in E2. rewrite E1, E2.
  rewrite (c_rem_defined _ _ Hd). reflexivity.
Qed.

Lemma control_value_invalid_undefined (query : v4l2_queryctrl) (value : Z) :
  control_value_invalid query value = None <->
  Query.minimum query <= value <= Query.maximum query /\
  (Query.step query = 0 \/ (value = INT_MIN /\ Query.step query = -1)).
Proof.
  unfold control_value_invalid.
  destruct (value <? Query.minimum query) eqn:E1.
  { apply Z.ltb_lt in E1. split; [discriminate|lia]. }
  destruct (value >? Query.maximum query) eqn:E2.
  { apply Z.gtb_gt in E2. split; [discriminate|lia]. }
  apply Z.ltb_ge in E1. rewrite Z.gtb_ltb in E2. apply Z.ltb_ge in E2.
  destruct (c_rem value (Query.step query)) eqn:E3.
  - split; [discriminate|]. intros [_ H].
    apply c_rem_undefined in H. congruence.
  - apply c_rem_undefined in E3. split; [intros _; split; [lia|exact E3]|reflexivity].
Qed.

Lemma set_control_run (query : v4l2_queryctrl) (cid value : Z) (quiet : bool)
    (w : world K) :
  _device_set_control query cid value quiet w =
  match control_value_invalid query value with
  | None => None
  | Some true => Some (tt, w)
  | Some false => Some (tt, after (s_ctrl_request cid value w) w)
  end.
Proof.
  unfold _device_set_control.
  destruct (control_value_invalid query value) as [[|]|]; try reflexivity.
  rewrite bind_get_run, bind_xioctl. reflexivity.
Qed.

Lemma after_neq {R : Type} (s : syscall R) (w : world K) : after s w <> w.
Proof.
  intros H. apply (f_equal (fun x => List.length (w_calls x))) in H.
  cbn in H. lia.
Qed.

(** C4, as the code has it.  For a device-reported step other than zero
    (and a remainder that does not overflow), [_device_set_control]
    issues [VIDIOC_S_CTRL] for the value exactly when the value lies in
    [minimum, maximum] and is a multiple of [step]; otherwise it returns
    with the world untouched: no request reaches the device.  The values
    [minimum], [maximum] and [minimum + step] get no special treatment:
    each is written exactly when it is itself in the range and a multiple
    of [step]. *)
Theorem set_control_writes_iff_valid (query : v4l2_queryctrl) (cid value : Z)
    (quiet : bool) (w : world K) :
  rem_defined value (Query.step query) ->
  let written := Some (tt, after (s_ctrl_request cid value w) w) in
  let skipped := Some (tt, w) in
  (control_value_valid query value <->
     _device_set_control query cid value quiet w = written) /\
  (~ control_value_valid query value <->
     _device_set_control query cid value quiet w = skipped) /\
  (value = Query.minimum query \/ value = Query.maximum query \/
   value = Query.minimum query + Query.step query ->
     (_device_set_control query cid value quiet w = written <->
        Query.minimum query <= value <= Query.maximum query /\
        (Query.step query | value))).
Proof.
  intros Hd written skipped.
  rewrite set_control_run, (control_value_invalid_defined _ _ Hd).
  assert (Hne : written <> skipped).
  { unfold written, skipped. intros [= H]. exact (after_neq _ _ H). }
  pose proof (control_value_ok_spec query value (proj1 Hd)) as Hok.
  destruct (control_value_ok query value) eqn:E; cbn [negb].
  - assert (Hv : control_value_valid query value) by (apply Hok; reflexivity).
    fold written. split; [tauto|]. split.
    + split; [contradiction|]. intros Hw. contradiction.
    + intros _. split; [intros _; exact Hv|reflexivity].
  - assert (Hv : ~ control_value_valid query value).
    { intros Hc. apply Hok in Hc. discriminate. }
    fold skipped. split; [|split].
    + split; [contradiction|]. intros Hw. symmetry in Hw. contradiction.
    + tauto.
    + intros _. split; [intros Hw; symmetry in Hw; contradiction|].
      intros Hc. contradiction.
Qed.

(** C9, as the code has it.  [_device_set_control] computes
    [value % step] for every value inside the reported range, with no
    guard on [step]: the call has no defined result exactly when the value
    is in the range and either [step] is zero or the remainder overflows
    ([INT_MIN % -1]).  When neither is the case the call returns, and
    skipping the value is the only alternative to writing it; the same
    holds of every call that has a defined result, a value outside the
    range being skipped whatever the step. *)
Theorem set_control_defined_iff (query : v4l2_queryctrl) (cid value : Z)
    (quiet : bool) (w : world K) :
  (_device_set_control query cid value quiet w = None <->
     Query.minimum query <= value <= Query.maximum query /\
     (Query.step query = 0 \/ (value = INT_MIN /\ Query.step query = -1))) /\
  (Query.step query <> 0 ->
   ~ (value = INT_MIN /\ Query.step query = -1) ->
     _device_set_control query cid value quiet w = Some (tt, w) \/
     _device_set_control query cid value quiet w =
       Some (tt, after (s_ctrl_request cid value w) w)) /\
  (_device_set_control query cid value quiet w <> None ->
     _device_set_control query cid value quiet w = Some (tt, w) \/
     _device_set_control query cid value quiet w =
       Some (tt, after (s_ctrl_request cid value w) w)) /\
  (value < Query.minimum query \/ Query.maximum query < value ->
     _device_set_control query cid value quiet w = Some (tt, w)).
Proof.
  split; [|split; [|split]].
  - rewrite set_control_run, <- control_value_invalid_undefined.
    destruct (control_value_invalid query value) as [[|]|];
      split; intros; try discriminate; reflexivity.
  - intros H1 H2. rewrite set_control_run.
    rewrite (control_value_invalid_defined _ _ (conj H1 H2)).
    destruct (negb _); auto.
  - rewrite set_control_run.
    destruct (control_value_invalid query value) as [[|]|]; auto.
    intros H. contradiction.
  - intros Hout. rewrite set_control_run. unfold control_value_invalid.
    destruct (Z.ltb_spec value (Query.minimum query)); [reflexivity|].
    destruct (value >? Query.maximum query) eqn:E; [reflexivity|].
    rewrite Z.gtb_ltb in E. apply Z.ltb_ge in E. lia.
Qed.

(** ** What a step of the open sequence leaves alone *)

Section Keeps.
Context {A : Type} (P : call -> bool) (obs : device_t -> A).

Lemma keeps_ret {B : Type} (b : B) : keeps P obs (ret b).
Proof. intros w b' w' [= <- <-]. exists []. auto. Qed.

Lemma keeps_undefined {B : Type} : keeps P obs (@undefined K B).
Proof. intros w b w' [=]. Qed.

Lemma keeps_get_dev : keeps P obs get_dev.
Proof. intros w b' w' [= <- <-]. exists []. auto. Qed.

Lemma keeps_get_run : keeps P obs get_run.
Proof. intros w b' w' [= <- <-]. exists []. auto. Qed.

Lemma keeps_modify_dev (g : device_t -> device_t) :
  (forall d, obs (g d) = obs d) -> keeps P obs (modify_dev g).
Proof. intros H w b' w' [= <- <-]. exists []. cbn. auto. Qed.

Lemma keeps_modify_run (g : device_runtime_t -> device_runtime_t) :
  (forall d, obs (set_run (g (run d)) d) = obs d) -> keeps P obs (modify_run g).
Proof. intros H. apply keeps_modify_dev. exact H. Qed.

Lemma keeps_sys {R : Type} (s : syscall R) :
  (forall r, P (Call s r) = true) -> keeps P obs (sys s).
Proof.
  intros H w b w'. rewrite sys_run. intros [= <- <-].
  exists [Call s (answer s w)]. cbn. rewrite H. auto.
Qed.

Lemma keeps_bind {B C : Type} (c : M B) (f : B -> M C) :
  keeps P obs c -> (forall b, keeps P obs (f b)) -> keeps P obs (bind c f).
Proof.
  intros Hc Hf w x w' H.
  apply bind_inv in H as (b & w1 & H1 & H2).
  apply Hc in H1 as (new1 & E1 & F1 & O1).
  apply Hf in H2 as (new2 & E2 & F2 & O2).
  exists (new2 ++ new1). rewrite E2, E1, <- app_assoc.
  split; [reflexivity|]. split; [|congruence].
  rewrite forallb_app, F1, F2. reflexivity.
Qed.

Lemma keeps_for_each (indices : list Z) (body : Z -> M Z) :
  (forall index, keeps P obs (body index)) ->
  keeps P obs (for_each indices body).
Proof.
  intros Hb. induction indices as [|index rest IH]; cbn [for_each].
  - apply keeps_ret.
  - apply keeps_bind; [apply Hb|]. intros r.
    destruct (r <? 0); [apply keeps_ret|exact IH].
Qed.

Lemma keeps_for_n_buffers_loop (iterations : nat) (body : M Z) :
  (forall d v, obs (set_run (Run.set_n_buffers v (run d)) d) = obs d) ->
  keeps P obs body ->
  keeps P obs (for_n_buffers_loop iterations body).
Proof.
  intros Ho Hb. induction iterations as [|n IH]; cbn [for_n_buffers_loop].
  - apply keeps_ret.
  - apply keeps_bind; [exact Hb|]. intros r.
    destruct (r <? 0); [apply keeps_ret|].
    apply keeps_bind; [|intros _; exact IH].
    apply keeps_modify_run. intros d. apply Ho.
Qed.

End Keeps.

Lemma keeps_weaken {A A' B : Type} (P P' : call -> bool) (obs : device_t -> A)
    (obs' : device_t -> A') (c : M B) :
  (forall x, P x = true -> P' x = true) ->
  (forall d d', obs d' = obs d -> obs' d' = obs' d) ->
  keeps P obs c -> keeps P' obs' c.
Proof.
  intros HP Ho Hk w b w' H. apply Hk in H as (new & E & F & O).
  exists new. split; [exact E|]. split; [|apply Ho, O].
  rewrite forallb_forall in *. auto.
Qed.

(** Goals [keeps P obs c] for a concrete [c], by following its code. *)
Ltac keeps_step :=
  lazymatch goal with
  | |- keeps _ _ (bind _ _) => apply keeps_bind; [|intros]
  | |- keeps _ _ (ret _) => apply keeps_ret
  | |- keeps _ _ undefined => apply keeps_undefined
  | |- keeps _ _ get_dev => apply keeps_get_dev
  | |- keeps _ _ get_run => apply keeps_get_run
  | |- keeps _ _ (modify_dev _) =>
      apply keeps_modify_dev; intros; reflexivity
  | |- keeps _ _ (modify_run _) =>
      apply keeps_modify_run; intros; reflexivity
  | |- keeps _ _ (sys _) => apply keeps_sys; intros; reflexivity
  | |- keeps _ _ (xioctl _ _) => apply keeps_sys; intros; reflexivity
  | |- keeps _ _ (for_each _ _) => apply keeps_for_each; intros
  | |- keeps _ _ (for_n_buffers_loop _ _) =>
      apply keeps_for_n_buffers_loop; [intros; reflexivity|]
  | |- keeps _ _ (if ?b then _ else _) => destruct b
  | |- keeps _ _ (match ?x with _ => _ end) => destruct x
  end.

Ltac keeps_auto :=
  unfold for_index, for_n_buffers, modify_picture, store_picture_ptr,
    modify_hw_buffer, hw_buffer_at, picture_ptr_at;
  cbv zeta;
  repeat keeps_step.

Lemma keeps_apply_resolution (width height : Z) :
  keeps plain_call cfg_obs (_device_apply_resolution width height).
Proof. unfold _device_apply_resolution. keeps_auto. Qed.

Lemma keeps_open_check_cap : keeps plain_call cfg_obs _device_open_check_cap.
Proof. unfold _device_open_check_cap. keeps_auto. Qed.

Lemma keeps_apply_dv_timings : keeps plain_call cfg_obs _device_apply_dv_timings.
Proof.
  unfold _device_apply_dv_timings. keeps_auto.
  apply keeps_apply_resolution.
Qed.

Lemma keeps_open_dv_timings : keeps plain_call cfg_obs _device_open_dv_timings.
Proof.
  unfold _device_open_dv_timings. keeps_auto;
    first [apply keeps_apply_resolution | apply keeps_apply_dv_timings].
Qed.

Lemma keeps_open_format : keeps not_reqbufs cfg_obs _device_open_format.
Proof.
  unfold _device_open_format. keeps_auto.
  eapply keeps_weaken; [| |apply keeps_apply_resolution]; [|auto].
  intros x Hx. apply andb_true_iff in Hx. tauto.
Qed.

Lemma keeps_open_hw_fps : keeps plain_call run_obs _device_open_hw_fps.
Proof. unfold _device_open_hw_fps. keeps_auto. Qed.

Lemma keeps_open_alloc_picbufs :
  keeps plain_call run_obs _device_open_alloc_picbufs.
Proof. unfold _device_open_alloc_picbufs. keeps_auto. Qed.

(** The steps that only read the device structure keep any observation
    of it. *)
Lemma keeps_open_queue_buffers {A : Type} (obs : device_t -> A) :
  keeps plain_call obs _device_open_queue_buffers.
Proof. unfold _device_open_queue_buffers. keeps_auto. Qed.

Lemma keeps_query_control {A : Type} (obs : device_t -> A) (cid : Z)
    (quiet : bool) :
  keeps plain_call obs (_device_query_control cid quiet).
Proof. unfold _device_query_control. keeps_auto. Qed.

Lemma keeps_set_control {A : Type} (obs : device_t -> A)
    (query : v4l2_queryctrl) (cid value : Z) (quiet : bool) :
  keeps plain_call obs (_device_set_control query cid value quiet).
Proof. unfold _device_set_control. keeps_auto. Qed.

Lemma keeps_SET_CID_VALUE {A : Type} (obs : device_t -> A) (cid value : Z)
    (quiet : bool) :
  keeps plain_call obs (SET_CID_VALUE cid value quiet).
Proof.
  unfold SET_CID_VALUE. keeps_auto;
    first [apply keeps_query_control | apply keeps_set_control].
Qed.

Lemma keeps_SET_CID_DEFAULT {A : Type} (obs : device_t -> A) (cid : Z)
    (quiet : bool) :
  keeps plain_call obs (SET_CID_DEFAULT cid quiet).
Proof.
  unfold SET_CID_DEFAULT. keeps_auto;
    first [apply keeps_query_control | apply keeps_set_control].
Qed.

Lemma keeps_CONTROL_MANUAL_CID {A : Type} (obs : device_t -> A) (cid : Z)
    (field : controls_t -> control_t) :
  keeps plain_call obs (CONTROL_MANUAL_CID cid field).
Proof.
  unfold CONTROL_MANUAL_CID. keeps_auto;
    first [apply keeps_SET_CID_VALUE | apply keeps_SET_CID_DEFAULT].
Qed.

Lemma keeps_CONTROL_AUTO_CID {A : Type} (obs : device_t -> A)
    (cid_auto cid_manual : Z) (field : controls_t -> control_t) :
  keeps plain_call obs (CONTROL_AUTO_CID cid_auto cid_manual field).
Proof.
  unfold CONTROL_AUTO_CID. keeps_auto;
    first [apply keeps_SET_CID_VALUE | apply keeps_SET_CID_DEFAULT].
Qed.

Lemma keeps_apply_controls {A : Type} (obs : device_t -> A) :
  keeps plain_call obs _device_apply_controls.
Proof.
  unfold _device_apply_controls. keeps_auto;
    first [apply keeps_CONTROL_MANUAL_CID | apply keeps_CONTROL_AUTO_CID].
Qed.

Lemma keeps_close : keeps plain_call cfg_obs device_close.
Proof. unfold device_close. keeps_auto. Qed.

(** ** The buffers the device grants *)

Lemma collect_app {A : Type} (reply : call -> option (option A))
    (l1 l2 : list call) :
  collect reply (l1 ++ l2) = collect reply l1 ++ collect reply l2.
Proof.
  induction l1 as [|c l1 IH]; [reflexivity|]. cbn.
  destruct (reply c) as [[a|]|]; rewrite IH; reflexivity.
Qed.

Lemma collect_quiet {A : Type} (reply : call -> option (option A))
    (P : call -> bool) (log : list call) :
  (forall c, P c = true -> reply c = None) ->
  forallb P log = true -> collect reply log = [].
Proof.
  intros HP. induction log as [|c rest IH]; [reflexivity|]. cbn.
  intros H. apply andb_true_iff in H as [Hc Hr].
  rewrite (HP c Hc). auto.
Qed.

Lemma grants_app (l1 l2 : list call) : grants (l1 ++ l2) = grants l1 ++ grants l2.
Proof. apply collect_app. Qed.

Lemma not_reqbufs_reply (c : call) : not_reqbufs c = true -> reqbufs_reply c = None.
Proof.
  destruct c as [R s r]. destruct s; try reflexivity.
  destruct req; try reflexivity. discriminate.
Qed.


Lemma grants_quiet (log : list call) :
  forallb not_reqbufs log = true -> grants log = [].
Proof. apply collect_quiet, not_reqbufs_reply. Qed.


(** The allocation loop: it answers 0 or -1, and 0 only after all its
    iterations, each of which moved [n_buffers] by one. *)
Lemma for_n_buffers_loop_count (body : M Z) :
  keeps (fun _ => true) (fun d => Run.n_buffers (run d)) body ->
  forall (iterations : nat) (w w' : world K) (rc : Z),
    for_n_buffers_loop iterations body w = Some (rc, w') ->
    (rc = 0 \/ rc = -1) /\
    (rc = 0 ->
       Run.n_buffers (run (w_dev w')) =
       Run.n_buffers (run (w_dev w)) + Z.of_nat iterations).
Proof.
  intros Hb. induction iterations as [|n IH]; intros w w' rc H;
    cbn [for_n_buffers_loop] in H.
  - injection H as <- <-. split; [auto|]. intros _. lia.
  - apply bind_inv in H as (r & w1 & H1 & H2).
    apply Hb in H1 as (_ & _ & _ & O1).
    destruct (r <? 0).
    + injection H2 as <- <-. split; [auto|]. discriminate.
    + rewrite bind_modify_run in H2. apply IH in H2 as [Hrc Hn].
      split; [exact Hrc|]. intros E. rewrite (Hn E). cbn. lia.
Qed.

(** What follows the answer [res] of [VIDIOC_REQBUFS], for either
    memory strategy. *)
Lemma reqbufs_tail (res : option Z) (body : M Z) (w w' : world K) (rc : Z) :
  keeps not_s_fmt cfg_obs body ->
  keeps not_reqbufs (fun d => (cfg_obs d, Run.format (run d))) body ->
  keeps (fun _ => true) (fun d => Run.n_buffers (run d)) body ->
  match res with
  | None => ret (-1)
  | Some count =>
      if count <? 1 then ret (-1)
      else
        (modify_run (Run.set_hw_buffers
                       (Some (replicate (Z.to_nat count) zero_hw_buffer)));;
         for_n_buffers count body)%prog
  end w = Some (rc, w') ->
  exists new,
    w_calls w' = new ++ w_calls w /\
    forallb not_reqbufs new = true /\
    forallb not_s_fmt new = true /\
    cfg_obs (w_dev w') = cfg_obs (w_dev w) /\
    Run.format (run (w_dev w')) = Run.format (run (w_dev w)) /\
    (rc = 0 \/ rc = -1) /\
    (rc = 0 -> exists count,
       res = Some count /\ 1 <= count /\
       Run.n_buffers (run (w_dev w')) = count) /\
    (forall count, res = Some count -> count < 1 -> rc = -1).
Proof.
  intros Hf Hq Hn H.
  assert (Hfail : forall w0 : world K, Some (-1, w0) = Some (rc, w') ->
    exists new,
      w_calls w' = new ++ w_calls w0 /\ forallb not_reqbufs new = true /\
      forallb not_s_fmt new = true /\
      cfg_obs (w_dev w') = cfg_obs (w_dev w0) /\
      Run.format (run (w_dev w')) = Run.format (run (w_dev w0)) /\
      (rc = 0 \/ rc = -1) /\ rc = -1).
  { intros w0 [= <- <-]. exists []. repeat split; auto. }
  destruct res as [count|].
  - destruct (count <? 1) eqn:E.
    + apply Hfail in H as (new & ? & ? & ? & ? & ? & ? & Hrc).
      exists new. repeat split; auto; intros; subst; discriminate.
    + apply Z.ltb_ge in E.
      rewrite bind_modify_run in H. unfold for_n_buffers in H.
      rewrite bind_modify_run in H.
      pose proof H as H'. pose proof H as H''.
      apply (keeps_for_n_buffers_loop not_reqbufs
               (fun d => (cfg_obs d, Run.format (run d)))
               (Z.to_nat count) body (fun _ _ => eq_refl) Hq)
        in H as (new & E1 & F1 & O1).
      apply (keeps_for_n_buffers_loop not_s_fmt cfg_obs
               (Z.to_nat count) body (fun _ _ => eq_refl) Hf)
        in H'' as (new' & E1' & F1' & _).
      cbn in E1, E1'. rewrite E1 in E1'. apply app_inv_tail in E1'. subst new'.
      apply (for_n_buffers_loop_count _ Hn) in H' as [Hrc Hcount].
      exists new. split; [exact E1|]. split; [exact F1|]. split; [exact F1'|].
      split; [exact (f_equal fst O1)|]. split; [exact (f_equal snd O1)|].
      split; [exact Hrc|]. split.
      * intros Hz. exists count. split; [reflexivity|]. split; [lia|].
        rewrite (Hcount Hz). cbn. lia.
      * intros c [= <-] Hlt. lia.
  - apply Hfail in H as (new & ? & ? & ? & ? & ? & ? & Hrc).
    exists new. repeat split; auto; intros; subst; discriminate.
Qed.

Lemma grants_reqbufs_tail (new : list call) (fd count memory : Z)
    (res : option Z) :
  forallb not_reqbufs new = true ->
  grants (new ++ [Call (sys_ioctl fd (VIDIOC_REQBUFS count memory)) res]) =
  match res with Some granted => [granted] | None => [] end.
Proof.
  intros H. rewrite grants_app, (grants_quiet _ H). cbn.
  destruct res; reflexivity.
Qed.

(** The buffer strategy step: one [VIDIOC_REQBUFS], and success only with
    a grant of at least one buffer, all of them set up. *)
Lemma open_io_method_grant (w w' : world K) (rc : Z) :
  _device_open_io_method w = Some (rc, w') ->
  exists new,
    w_calls w' = new ++ w_calls w /\
    forallb not_s_fmt new = true /\
    cfg_obs (w_dev w') = cfg_obs (w_dev w) /\
    Run.format (run (w_dev w')) = Run.format (run (w_dev w)) /\
    (rc = 0 \/ rc = -1) /\
    (rc = 0 ->
       grants new = [Run.n_buffers (run (w_dev w'))] /\
       1 <= Run.n_buffers (run (w_dev w'))) /\
    (forall granted, In granted (grants new) -> granted < 1 -> rc = -1).
Proof.
  unfold _device_open_io_method. rewrite bind_get_dev.
  destruct (io_method (w_dev w) =? V4L2_MEMORY_MMAP);
    [|destruct (io_method (w_dev w) =? V4L2_MEMORY_USERPTR); [|discriminate]].
  - unfold _device_open_io_method_mmap.
    rewrite bind_get_dev, bind_xioctl. intros H.
    apply reqbufs_tail in H; [|keeps_auto..].
    destruct H as (new & E & F1 & F2 & O1 & O2 & Hrc & Hok & Hzero).
    exists (new ++ [Call (sys_ioctl (Run.fd (run (w_dev w)))
                       (VIDIOC_REQBUFS (n_buffers (w_dev w)) V4L2_MEMORY_MMAP))
                     (answer (sys_ioctl (Run.fd (run (w_dev w)))
                       (VIDIOC_REQBUFS (n_buffers (w_dev w)) V4L2_MEMORY_MMAP))
                       w)]).
    split; [rewrite E; cbn [after w_calls]; rewrite <- !app_assoc; reflexivity|].
    rewrite forallb_app, F2, grants_reqbufs_tail by exact F1.
    split; [reflexivity|]. split; [exact O1|]. split; [exact O2|].
    split; [exact Hrc|]. split.
    + intros Hz. destruct (Hok Hz) as (count & -> & Hc & <-). auto.
    + intros granted Hin Hlt. destruct (answer _ w) as [count|] eqn:Ha;
        [|contradiction].
      destruct Hin as [<-|[]]. eapply Hzero; [reflexivity|exact Hlt].
  - unfold _device_open_io_method_userptr.
    rewrite bind_get_dev, bind_sys, bind_xioctl. intros H.
    apply reqbufs_tail in H; [|keeps_auto..].
    destruct H as (new & E & F1 & F2 & O1 & O2 & Hrc & Hok & Hzero).
    exists ((new ++ [Call (sys_ioctl (Run.fd (run (w_dev w)))
                        (VIDIOC_REQBUFS (n_buffers (w_dev w)) V4L2_MEMORY_USERPTR))
                      (answer (sys_ioctl (Run.fd (run (w_dev w)))
                        (VIDIOC_REQBUFS (n_buffers (w_dev w)) V4L2_MEMORY_USERPTR))
                        (after sys_getpagesize w))])
            ++ [Call sys_getpagesize (answer sys_getpagesize w)]).
    split; [rewrite E; cbn [after w_calls]; rewrite <- !app_assoc; reflexivity|].
    rewrite !forallb_app, F2, grants_app, grants_reqbufs_tail by exact F1.
    cbn. rewrite app_nil_r.
    split; [reflexivity|]. split; [exact O1|]. split; [exact O2|].
    split; [exact Hrc|]. split.
    + intros Hz. destruct (Hok Hz) as (count & -> & Hc & <-). auto.
    + intros granted Hin Hlt.
      destruct (answer _ (after sys_getpagesize w)) as [count|] eqn:Ha;
        [|contradiction].
      destruct Hin as [<-|[]]. eapply Hzero; [reflexivity|exact Hlt].
Qed.

(** ** The open sequence, step by step *)

Lemma keeps_reaches {A B : Type} (P : call -> bool) (obs : device_t -> A)
    (c : M B) (w w' : world K) (b : B) :
  keeps P obs c -> c w = Some (b, w') -> reaches P obs w w'.
Proof. intros Hk H. exact (Hk _ _ _ H). Qed.

Lemma reaches_trans {A : Type} (P : call -> bool) (obs : device_t -> A)
    (w1 w2 w3 : world K) :
  reaches P obs w1 w2 -> reaches P obs w2 w3 -> reaches P obs w1 w3.
Proof.
  intros (n1 & E1 & F1 & O1) (n2 & E2 & F2 & O2).
  exists (n2 ++ n1). rewrite E2, E1, <- app_assoc, forallb_app, F1, F2.
  split; [reflexivity|]. split; [reflexivity|congruence].
Qed.

Lemma reaches_weaken {A A' : Type} (P P' : call -> bool)
    (obs : device_t -> A) (obs' : device_t -> A') (w w' : world K) :
  (forall x, P x = true -> P' x = true) ->
  (forall d d', obs d' = obs d -> obs' d' = obs' d) ->
  reaches P obs w w' -> reaches P' obs' w w'.
Proof.
  intros HP Ho (new & E & F & O). exists new.
  split; [exact E|]. split; [|apply Ho, O].
  rewrite forallb_forall in *. auto.
Qed.

Lemma run_obs_cfg (d d' : device_t) : run_obs d' = run_obs d -> cfg_obs d' = cfg_obs d.
Proof. unfold run_obs, cfg_obs. intros [= -> -> -> -> _ _]. reflexivity. Qed.

Lemma open_format_run (w : world K) :
  _device_open_format w =
  match answer (s_fmt_request w) w with
  | None => Some (-1, after (s_fmt_request w) w)
  | Some fmt =>
      if forbidden_resolution (Pix.width fmt) (Pix.height fmt)
      then Some (-1, after (s_fmt_request w) w)
      else if unsupported_format (format (w_dev w)) (Pix.pixelformat fmt)
      then Some (-1, with_resolution (Pix.width fmt) (Pix.height fmt)
                       (after (s_fmt_request w) w))
      else Some (0, with_format fmt
                      (with_resolution (Pix.width fmt) (Pix.height fmt)
                         (after (s_fmt_request w) w)))
  end.
Proof.
  unfold _device_open_format. rewrite bind_get_dev. cbv zeta.
  rewrite bind_xioctl. fold (s_fmt_request w).
  destruct (answer (s_fmt_request w) w) as [fmt|]; [|reflexivity].
  unfold bind at 1. rewrite apply_resolution_run.
  destruct (forbidden_resolution _ _); [reflexivity|].
  cbn [Z.ltb Z.compare]. unfold unsupported_format.
  cbn [w_dev after with_resolution format set_run].
  destruct (if negb _ then _ else false); reflexivity.
Qed.

Lemma device_open_error_run (w w' : world K) (rc : Z) :
  device_open_error w = Some (rc, w') ->
  rc = -1 /\ reaches plain_call cfg_obs w w'.
Proof.
  unfold device_open_error. intros H.
  apply bind_inv in H as (u & w1 & H1 & [= <- <-]).
  split; [reflexivity|]. exact (keeps_reaches _ _ _ _ _ _ keeps_close H1).
Qed.

Lemma device_open_error_fails (w w' : world K) :
  device_open_error w = Some (0, w') -> False.
Proof. intros H. apply device_open_error_run in H as [H _]. discriminate. Qed.

(** A successful open went through every step, each returning without
    an error. *)
Lemma device_open_steps (w w' : world K) :
  device_open w = Some (0, w') ->
  exists w3 w4 w5 w6 w7 w8 w9 rc7,
    reaches plain_call cfg_obs w w3 /\
    _device_open_format w3 = Some (0, w4) /\
    _device_open_hw_fps w4 = Some (tt, w5) /\
    _device_open_io_method w5 = Some (0, w6) /\
    _device_open_queue_buffers w6 = Some (rc7, w7) /\
    _device_open_alloc_picbufs w7 = Some (tt, w8) /\
    _device_apply_controls w8 = Some (tt, w9) /\
    w' = with_run
           (Run.set_n_workers
              (min_u (Run.n_buffers (run (w_dev w9))) (n_workers (w_dev w9)))
              (run (w_dev w9))) w9.
Proof.
  unfold device_open. rewrite bind_get_dev, bind_sys, bind_modify_run.
  match goal with
  | |- context [with_run ?r ?w0] => set (w1 := with_run r w0)
  end.
  assert (R1 : reaches plain_call cfg_obs w w1).
  { exists [Call (sys_open (path (w_dev w)) (Z.lor O_RDWR O_NONBLOCK))
              (answer (sys_open (path (w_dev w)) (Z.lor O_RDWR O_NONBLOCK)) w)].
    repeat split. }
  destruct (_ <? 0); [intros H; destruct (device_open_error_fails _ _ H)|].
  intros H.
  apply bind_inv in H as (rc2 & w2 & H2 & H).
  destruct (rc2 <? 0); [destruct (device_open_error_fails _ _ H)|].
  apply (keeps_reaches _ _ _ _ _ _ keeps_open_check_cap) in H2.
  apply bind_inv in H as (rc3 & w3 & H3 & H).
  destruct (rc3 <? 0); [destruct (device_open_error_fails _ _ H)|].
  apply (keeps_reaches _ _ _ _ _ _ keeps_open_dv_timings) in H3.
  apply bind_inv in H as (rc4 & w4 & H4 & H).
  destruct (rc4 <? 0) eqn:E4; [destruct (device_open_error_fails _ _ H)|].
  assert (rc4 = 0) as ->.
  { rewrite open_format_run in H4.
    destruct (answer _ w3); [|injection H4 as <- _; discriminate].
    destruct (forbidden_resolution _ _); [injection H4 as <- _; discriminate|].
    destruct (unsupported_format _ _); injection H4 as <- _;
      [discriminate|reflexivity]. }
  apply bind_inv in H as ([] & w5 & H5 & H).
  apply bind_inv in H as (rc6 & w6 & H6 & H).
  destruct (rc6 <? 0) eqn:E6; [destruct (device_open_error_fails _ _ H)|].
  assert (rc6 = 0) as ->.
  { destruct (open_io_method_grant _ _ _ H6) as (_ & _ & _ & _ & _ & [->| ->] & _);
      [reflexivity|discriminate]. }
  apply bind_inv in H as (rc7 & w7 & H7 & H).
  destruct (rc7 <? 0); [destruct (device_open_error_fails _ _ H)|].
  apply bind_inv in H as ([] & w8 & H8 & H).
  apply bind_inv in H as ([] & w9 & H9 & H).
  rewrite bind_get_dev, bind_modify_run in H. injection H as <-.
  exists w3, w4, w5, w6, w7, w8, w9, rc7.
  split; [exact (reaches_trans _ _ _ _ _ R1 (reaches_trans _ _ _ _ _ H2 H3))|].
  repeat (split; [assumption|]). reflexivity.
Qed.

(** The same, keeping only the worlds around the format step and the
    buffer step. *)
Lemma device_open_success (w w' : world K) :
  device_open w = Some (0, w') ->
  exists w3 w4 w5 w6 w9,
    reaches plain_call cfg_obs w w3 /\
    _device_open_format w3 = Some (0, w4) /\
    reaches plain_call run_obs w4 w5 /\
    _device_open_io_method w5 = Some (0, w6) /\
    reaches plain_call run_obs w6 w9 /\
    w' = with_run
           (Run.set_n_workers
              (min_u (Run.n_buffers (run (w_dev w9))) (n_workers (w_dev w9)))
              (run (w_dev w9))) w9.
Proof.
  intros H. apply device_open_steps in H
    as (w3 & w4 & w5 & w6 & w7 & w8 & w9 & rc7
        & R3 & H4 & H5 & H6 & H7 & H8 & H9 & ->).
  apply (keeps_reaches _ _ _ _ _ _ keeps_open_hw_fps) in H5.
  exists w3, w4, w5, w6, w9.
  repeat (split; [assumption|]). split; [|reflexivity].
  apply (keeps_reaches _ _ _ _ _ _ (keeps_open_queue_buffers run_obs)) in H7.
  apply (keeps_reaches _ _ _ _ _ _ keeps_open_alloc_picbufs) in H8.
  apply (keeps_reaches _ _ _ _ _ _ (keeps_apply_controls run_obs)) in H9.
  exact (reaches_trans _ _ _ _ _ H7 (reaches_trans _ _ _ _ _ H8 H9)).
Qed.

Lemma keeps_open_io_method : keeps any_call cfg_obs _device_open_io_method.
Proof.
  intros w rc w' H.
  apply open_io_method_grant in H as (new & E & _ & O & _).
  exists new. split; [exact E|]. split; [|exact O].
  apply forallb_forall. reflexivity.
Qed.

(** [device_open] returns 0 or -1, only adds to the log, and leaves the
    configuration it was given. *)
Lemma keeps_device_open : keeps any_call cfg_obs device_open.
Proof.
  assert (W : forall (B : Type) (P : call -> bool) (c : M B),
             keeps P cfg_obs c -> keeps any_call cfg_obs c).
  { intros B P c. apply keeps_weaken; auto. }
  assert (W' : forall (B : Type) (P : call -> bool) (c : M B),
             keeps P run_obs c -> keeps any_call cfg_obs c).
  { intros B P c. apply keeps_weaken; [auto|apply run_obs_cfg]. }
  assert (Hclose : keeps any_call cfg_obs device_open_error).
  { unfold device_open_error. keeps_auto. exact (W _ _ _ keeps_close). }
  unfold device_open. keeps_auto; try exact Hclose.
  - exact (W _ _ _ keeps_open_check_cap).
  - exact (W _ _ _ keeps_open_dv_timings).
  - exact (W _ _ _ keeps_open_format).
  - exact (W' _ _ _ keeps_open_hw_fps).
  - exact keeps_open_io_method.
  - exact (W' _ _ _ (keeps_open_queue_buffers run_obs)).
  - exact (W' _ _ _ keeps_open_alloc_picbufs).
  - exact (W' _ _ _ (keeps_apply_controls run_obs)).
Qed.

Lemma device_open_rc (w w' : world K) (rc : Z) :
  device_open w = Some (rc, w') -> rc = 0 \/ rc = -1.
Proof.
  unfold device_open. rewrite bind_get_dev, bind_sys, bind_modify_run.
  intros H.
  repeat lazymatch type of H with
  | (if ?b then device_open_error else _) _ = _ =>
      destruct b; [apply device_open_error_run in H as [-> _]; auto|]
  | bind _ _ _ = _ =>
      let H' := fresh "Hs" in
      apply bind_inv in H as (? & ? & H' & H)
  end.
  injection H as <- _. auto.
Qed.




Lemma reaches_plain_reqbufs {A : Type} (obs : device_t -> A) (w w' : world K) :
  reaches plain_call obs w w' -> reaches not_reqbufs obs w w'.
Proof.
  apply reaches_weaken; [|auto].
  intros x Hx. apply andb_true_iff in Hx. tauto.
Qed.


(** C8.  Whatever [device_open] returns is 0 or -1.  When it returns 0,
    the log of this open holds exactly one successful buffer request; the
    count [G] the device granted there is the runtime's [n_buffers], it is
    at least 1, and the runtime's worker count is
    [min (configured workers) G], so at most [G].  A grant below one
    buffer anywhere in the log of this open means the open returned -1. *)
Theorem open_effective_workers (w w' : world K) (rc : Z) :
  device_open w = Some (rc, w') ->
  exists new,
    w_calls w' = new ++ w_calls w /\
    (rc = 0 \/ rc = -1) /\
    (rc = 0 ->
       let granted := Run.n_buffers (run (w_dev w')) in
       grants new = [granted] /\
       1 <= granted /\
       Run.n_workers (run (w_dev w')) = Z.min (n_workers (w_dev w)) granted /\
       Run.n_workers (run (w_dev w')) <= granted) /\
    (forall granted, In granted (grants new) -> granted < 1 -> rc = -1).
Proof.
  intros H. destruct (device_open_rc _ _ _ H) as [-> | ->].
  - apply device_open_success in H
      as (w3 & w4 & w5 & w6 & w9 & R3 & H4 & R5 & H6 & R9 & ->).
    apply (keeps_reaches _ _ _ _ _ _ keeps_open_format) in H4.
    apply reaches_plain_reqbufs in R3, R5, R9.
    apply (reaches_weaken _ not_reqbufs _ cfg_obs _ _ (fun _ h => h) run_obs_cfg)
      in R5.
    pose proof (reaches_trans _ _ _ _ _ R3 (reaches_trans _ _ _ _ _ H4 R5))
      as (n1 & E1 & F1 & O1).
    apply open_io_method_grant in H6
      as (n2 & E2 & _ & O2 & _ & _ & Hok & _).
    destruct (Hok eq_refl) as [G2 G1].
    destruct R9 as (n3 & E3 & F3 & O3).
    exists (n3 ++ n2 ++ n1).
    split; [cbn [with_run with_dev w_calls]; rewrite E3, E2, E1, <- !app_assoc;
            reflexivity|].
    assert (Hn : Run.n_buffers (run (w_dev w9)) = Run.n_buffers (run (w_dev w6))).
    { unfold run_obs in O3. congruence. }
    assert (Hw : n_workers (w_dev w9) = n_workers (w_dev w)).
    { apply run_obs_cfg in O3. unfold cfg_obs in *. congruence. }
    assert (Hg : grants (n3 ++ n2 ++ n1) = [Run.n_buffers (run (w_dev w9))]).
    { rewrite !grants_app, (grants_quiet _ F1), (grants_quiet _ F3), G2, Hn.
      reflexivity. }
    split; [auto|]. split.
    + intros _. cbn. rewrite Hg, Hw, Hn. unfold min_u.
      split; [reflexivity|]. split; [exact G1|]. split; lia.
    + intros granted Hin Hlt. rewrite Hg in Hin.
      destruct Hin as [<-|[]]. rewrite Hn in Hlt. lia.
  - apply keeps_device_open in H as (new & E & _).
    exists new. split; [exact E|]. split; [auto|]. split; [discriminate|auto].
Qed.


(** ** The session an open leaves *)

Lemma keeps_modify_hw_buffer_size (P : call -> bool) (index : Z)
    (f : hw_buffer_t -> hw_buffer_t) :
  keeps P pool_size (modify_hw_buffer index f).
Proof.
  unfold modify_hw_buffer. apply keeps_bind.
  - unfold hw_buffer_at. keeps_auto.
  - intros b. apply keeps_modify_run. intros d. unfold pool_size. cbn.
    destruct (Run.hw_buffers (run d)); cbn; [|reflexivity].
    rewrite length_insert. reflexivity.
Qed.

Ltac keeps_pool :=
  cbv zeta;
  repeat first [apply keeps_modify_hw_buffer_size | keeps_step].

Lemma reqbufs_tail_pool (res : option Z) (body : M Z) (w w' : world K) :
  keeps any_call pool_size body ->
  keeps any_call (fun d => Run.n_buffers (run d)) body ->
  match res with
  | None => ret (-1)
  | Some count =>
      if count <? 1 then ret (-1)
      else
        (modify_run (Run.set_hw_buffers
                       (Some (replicate (Z.to_nat count) zero_hw_buffer)));;
         for_n_buffers count body)%prog
  end w = Some (0, w') ->
  exists bufs,
    Run.hw_buffers (run (w_dev w')) = Some bufs /\
    Z.of_nat (List.length bufs) = Run.n_buffers (run (w_dev w')).
Proof.
  intros Hp Hn H. destruct res as [count|]; [|discriminate].
  destruct (count <? 1) eqn:E; [discriminate|]. apply Z.ltb_ge in E.
  rewrite bind_modify_run in H. unfold for_n_buffers in H.
  rewrite bind_modify_run in H. pose proof H as H'.
  apply (keeps_for_n_buffers_loop any_call pool_size (Z.to_nat count) body
           (fun _ _ => eq_refl) Hp) in H as (_ & _ & _ & O).
  apply (for_n_buffers_loop_count _ Hn) in H' as [_ Hcount].
  specialize (Hcount eq_refl). cbn in Hcount, O.
  unfold pool_size in O. cbn in O. rewrite length_replicate in O.
  destruct (Run.hw_buffers (run (w_dev w'))) as [bufs|]; [|discriminate].
  injection O as O. exists bufs. split; [reflexivity|]. lia.
Qed.

Lemma open_io_method_pool (w w' : world K) :
  _device_open_io_method w = Some (0, w') ->
  exists bufs,
    Run.hw_buffers (run (w_dev w')) = Some bufs /\
    Z.of_nat (List.length bufs) = Run.n_buffers (run (w_dev w')).
Proof.
  unfold _device_open_io_method. rewrite bind_get_dev.
  destruct (io_method (w_dev w) =? V4L2_MEMORY_MMAP);
    [|destruct (io_method (w_dev w) =? V4L2_MEMORY_USERPTR); [|discriminate]].
  - unfold _device_open_io_method_mmap.
    rewrite bind_get_dev, bind_xioctl. intros H.
    apply reqbufs_tail_pool in H; [exact H|keeps_pool|keeps_auto].
  - unfold _device_open_io_method_userptr.
    rewrite bind_get_dev, bind_sys, bind_xioctl. intros H.
    apply reqbufs_tail_pool in H; [exact H|keeps_pool|keeps_auto].
Qed.

Lemma picture_ptr_at_lookup (index : Z) (w : world K)
    (pics : list (option picture_t)) (x : option picture_t) :
  Run.pictures (run (w_dev w)) = Some pics ->
  0 <= index ->
  pics !! Z.to_nat index = Some x ->
  picture_ptr_at index w = Some (x, w).
Proof.
  intros Hp Hi Hx. unfold picture_ptr_at. rewrite bind_get_run, Hp.
  unfold nat_index. destruct (0 <=? index) eqn:E; [|apply Z.leb_gt in E; lia].
  rewrite Hx. reflexivity.
Qed.

(** One iteration of the loop of [_device_open_alloc_picbufs]. *)
Lemma alloc_picbuf_run (index size : Z) (w : world K)
    (pics : list (option picture_t)) :
  Run.pictures (run (w_dev w)) = Some pics ->
  0 <= index ->
  (Z.to_nat index < List.length pics)%nat ->
  (store_picture_ptr index (Some picture_init);;
   modify_picture index (fun p => picture_realloc_data p size);;
   ret 0)%prog w =
  Some (0, with_run
             (Run.set_pictures
                (Some (<[Z.to_nat index :=
                         Some (picture_realloc_data picture_init size)]> pics))
                (run (w_dev w))) w).
Proof.
  intros Hp Hi Hlt.
  destruct (lookup_lt_is_Some_2 pics _ Hlt) as [x Hx].
  unfold modify_picture, store_picture_ptr. rewrite !bind_bind.
  rewrite (bind_run _ _ _ _ _ (picture_ptr_at_lookup _ _ _ _ Hp Hi Hx)).
  rewrite bind_modify_run.
  match goal with
  | |- context [with_run ?r w] => set (w1 := with_run r w)
  end.
  assert (Hp1 : Run.pictures (run (w_dev w1)) =
                Some (<[Z.to_nat index := Some picture_init]> pics)).
  { subst w1. cbn. rewrite Hp. reflexivity. }
  assert (Hx1 : <[Z.to_nat index := Some picture_init]> pics !! Z.to_nat index
                = Some (Some picture_init)).
  { apply list_lookup_insert_eq. exact Hlt. }
  rewrite bind_bind.
  rewrite (bind_run _ _ _ _ _ (picture_ptr_at_lookup _ _ _ _ Hp1 Hi Hx1)).
  rewrite !bind_bind.
  rewrite (bind_run _ _ _ _ _ (picture_ptr_at_lookup _ _ _ _ Hp1 Hi Hx1)).
  rewrite bind_modify_run, ret_run. f_equal. f_equal.
  subst w1. unfold with_run, with_dev. cbn. rewrite Hp. cbn.
  rewrite list_insert_insert_eq. reflexivity.
Qed.

Lemma alloc_picbufs_loop (size : Z) (m : nat) :
  forall (k : nat) (w : world K) (pics : list (option picture_t)),
    Run.pictures (run (w_dev w)) = Some pics ->
    List.length pics = (k + m)%nat ->
    pictures_set pics k ->
    exists w' pics',
      for_each (seqZ (Z.of_nat k) (Z.of_nat m))
        (fun index =>
           store_picture_ptr index (Some picture_init);;
           modify_picture index (fun p => picture_realloc_data p size);;
           ret 0)%prog w = Some (0, w') /\
      Run.pictures (run (w_dev w')) = Some pics' /\
      List.length pics' = (k + m)%nat /\
      pictures_set pics' (k + m) /\
      Run.hw_buffers (run (w_dev w')) = Run.hw_buffers (run (w_dev w)) /\
      Run.n_buffers (run (w_dev w')) = Run.n_buffers (run (w_dev w)).
Proof.
  induction m as [|m IH]; intros k w pics Hp Hlen Hset.
  - exists w, pics. cbn. rewrite Nat.add_0_r in *. repeat split; auto.
  - rewrite seqZ_cons by lia. cbn [for_each].
    assert (Hk : Z.to_nat (Z.of_nat k) = k) by lia.
    erewrite bind_run; cycle 1.
    { apply (alloc_picbuf_run _ _ _ pics Hp); lia. }
    cbn [Z.ltb Z.compare]. rewrite Hk.
    match goal with
    | |- context [with_run ?r w] => set (w1 := with_run r w)
    end.
    set (pics1 := <[k := Some (picture_realloc_data picture_init size)]> pics).
    assert (Hp1 : Run.pictures (run (w_dev w1)) = Some pics1) by reflexivity.
    assert (Hlen1 : List.length pics1 = (S k + m)%nat).
    { subst pics1. rewrite length_insert. lia. }
    assert (Hset1 : pictures_set pics1 (S k)).
    { intros i Hi. subst pics1. destruct (decide (i = k)) as [->|Hne].
      - eexists. apply list_lookup_insert_eq. lia.
      - rewrite list_lookup_insert_ne by auto. apply Hset. lia. }
    destruct (IH (S k) w1 pics1 Hp1 Hlen1 Hset1)
      as (w' & pics' & Hrun & Hp' & Hlen' & Hset' & Hb & Hn).
    exists w', pics'.
    replace (Z.succ (Z.of_nat k)) with (Z.of_nat (S k)) by lia.
    replace (Z.pred (Z.of_nat (S m))) with (Z.of_nat m) by lia.
    split; [exact Hrun|]. split; [exact Hp'|].
    replace (k + S m)%nat with (S k + m)%nat by lia.
    repeat split; auto.
Qed.

Lemma open_alloc_picbufs_run (w : world K) :
  0 <= Run.n_buffers (run (w_dev w)) ->
  exists w' pics,
    _device_open_alloc_picbufs w = Some (tt, w') /\
    Run.pictures (run (w_dev w')) = Some pics /\
    pictures_set pics (Z.to_nat (Run.n_buffers (run (w_dev w)))) /\
    Run.hw_buffers (run (w_dev w')) = Run.hw_buffers (run (w_dev w)) /\
    Run.n_buffers (run (w_dev w')) = Run.n_buffers (run (w_dev w)).
Proof.
  intros Hn. unfold _device_open_alloc_picbufs.
  rewrite bind_get_run. cbv zeta. rewrite bind_modify_run.
  match goal with
  | |- context [with_run ?r w] => set (w1 := with_run r w)
  end.
  set (n := Z.to_nat (Run.n_buffers (run (w_dev w)))).
  assert (Hp1 : Run.pictures (run (w_dev w1)) = Some (replicate n None))
    by reflexivity.
  assert (Hlen : List.length (replicate n (@None picture_t)) = (0 + n)%nat)
    by (rewrite length_replicate; reflexivity).
  assert (Hset : pictures_set (replicate n (@None picture_t)) 0).
  { intros i Hi. lia. }
  destruct (alloc_picbufs_loop
              (picture_get_generous_size (Run.width (run (w_dev w)))
                 (Run.height (run (w_dev w))))
              n 0%nat w1 _ Hp1 Hlen Hset)
    as (w' & pics' & Hrun & Hp' & _ & Hset' & Hb & Hnb).
  exists w', pics'. unfold for_index.
  replace (Run.n_buffers (run (w_dev w))) with (Z.of_nat n) at 1 by lia.
  change (seqZ 0) with (seqZ (Z.of_nat 0)).
  rewrite (bind_run _ _ _ _ _ Hrun), ret_run.
  repeat split; auto.
Qed.

(** A successful [device_open] leaves an open session: a pool of
    [n_buffers] slots, and a picture behind every slot. *)
Lemma open_establishes_session (w w' : world K) :
  device_open w = Some (0, w') -> open_session w'.
Proof.
  intros H. apply device_open_steps in H
    as (w3 & w4 & w5 & w6 & w7 & w8 & w9 & rc7
        & _ & _ & _ & H6 & H7 & H8 & H9 & ->).
  apply open_io_method_pool in H6 as (bufs & Hb & Hlen).
  apply (keeps_open_queue_buffers (fun d => d)) in H7 as (_ & _ & _ & O7).
  apply (keeps_apply_controls (fun d => d)) in H9 as (_ & _ & _ & O9).
  rewrite <- O7 in Hb, Hlen.
  destruct (open_alloc_picbufs_run w7) as (w8' & pics & H8' & Hp & Hset & Hb8 & Hn8);
    [lia|].
  rewrite H8 in H8'. injection H8' as <-.
  rewrite <- Hn8 in Hset, Hlen. rewrite <- Hb8 in Hb.
  rewrite <- O9 in Hp, Hset, Hlen, Hb.
  intros index Hi. unfold slot, picture. cbn in Hi |- *.
  rewrite Hb, Hp. unfold nat_index.
  destruct (0 <=? index) eqn:E; [|apply Z.leb_gt in E; lia].
  split.
  - apply lookup_lt_is_Some_2. lia.
  - destruct (Hset (Z.to_nat index)) as [p Hpic]; [lia|].
    rewrite Hpic. eexists. reflexivity.
Qed.

(** ** The three resolutions of an open *)

(** The configured resolution: [_device_open_dv_timings] passes it to
    [_device_apply_resolution] and goes on whatever the answer; without DV
    timings it returns 0, the runtime resolution untouched when the pair
    was refused. *)
Lemma open_dv_timings_desired_unchecked (w : world K) :
  dv_timings (w_dev w) = false ->
  _device_open_dv_timings w =
  Some (0, if forbidden_resolution (width (w_dev w)) (height (w_dev w))
           then w
           else with_resolution (width (w_dev w)) (height (w_dev w)) w).
Proof.
  intros Hdv. unfold _device_open_dv_timings.
  rewrite bind_get_dev. unfold bind. rewrite apply_resolution_run, Hdv.
  destruct (forbidden_resolution _ _); reflexivity.
Qed.

(** The resolution of the DV timings, as [VIDIOC_S_DV_TIMINGS] leaves
    them: refused, it makes [_device_apply_dv_timings] return -1. *)
Lemma apply_dv_timings_checked (w : world K) (dv : v4l2_dv_timings) :
  answer (query_dv_request w) w = Some dv ->
  (forall set,
     answer (s_dv_request dv w) (after (query_dv_request w) w) = Some set ->
     forbidden_resolution (bt_width set) (bt_height set) = true) ->
  exists w', _device_apply_dv_timings w = Some (-1, w') /\
             res_obs (w_dev w') = res_obs (w_dev w).
Proof.
  intros Ha Hf. unfold _device_apply_dv_timings.
  rewrite bind_get_run, bind_xioctl. fold (query_dv_request w). rewrite Ha.
  rewrite bind_xioctl.
  change (sys_ioctl (Run.fd (run (w_dev w))) (VIDIOC_S_DV_TIMINGS dv))
    with (s_dv_request dv w) in *.
  destruct (answer (s_dv_request dv w) (after (query_dv_request w) w))
    as [set|].
  - unfold bind. rewrite apply_resolution_run, (Hf set eq_refl). cbn.
    eexists. split; reflexivity.
  - eexists. split; reflexivity.
Qed.

(** The resolution the driver grants: refused, it makes
    [_device_open_format] return -1. *)
Lemma open_format_checked (w : world K) (fmt : v4l2_pix_format) :
  answer (s_fmt_request w) w = Some fmt ->
  forbidden_resolution (Pix.width fmt) (Pix.height fmt) = true ->
  _device_open_format w = Some (-1, after (s_fmt_request w) w).
Proof. intros Ha Hf. rewrite open_format_run, Ha, Hf. reflexivity. Qed.

Lemma keeps_res_open_hw_fps : keeps any_call res_obs _device_open_hw_fps.
Proof. unfold _device_open_hw_fps. keeps_auto. Qed.

Lemma keeps_res_open_io_method : keeps any_call res_obs _device_open_io_method.
Proof.
  unfold _device_open_io_method, _device_open_io_method_mmap,
    _device_open_io_method_userptr.
  keeps_auto.
Qed.

Lemma keeps_res_open_alloc_picbufs :
  keeps any_call res_obs _device_open_alloc_picbufs.
Proof. unfold _device_open_alloc_picbufs. keeps_auto. Qed.

(** Whatever the configuration asked for, the resolution a successful
    open leaves in the runtime passed the check. *)
Lemma open_negotiated_resolution (w w' : world K) :
  device_open w = Some (0, w') ->
  forbidden_resolution (Run.width (run (w_dev w')))
    (Run.height (run (w_dev w'))) = false.
Proof.
  intros H. apply device_open_steps in H
    as (w3 & w4 & w5 & w6 & w7 & w8 & w9 & rc7
        & _ & H4 & H5 & H6 & H7 & H8 & H9 & ->).
  apply keeps_res_open_hw_fps in H5 as (_ & _ & _ & O5).
  apply keeps_res_open_io_method in H6 as (_ & _ & _ & O6).
  apply (keeps_open_queue_buffers res_obs) in H7 as (_ & _ & _ & O7).
  apply keeps_res_open_alloc_picbufs in H8 as (_ & _ & _ & O8).
  apply (keeps_apply_controls res_obs) in H9 as (_ & _ & _ & O9).
  assert (O : res_obs (w_dev w9) = res_obs (w_dev w4)) by congruence.
  rewrite open_format_run in H4.
  destruct (answer (s_fmt_request w3) w3) as [fmt|]; [|discriminate].
  destruct (forbidden_resolution (Pix.width fmt) (Pix.height fmt)) eqn:Hf;
    [discriminate|].
  destruct (unsupported_format _ _); [discriminate|].
  injection H4 as <-. unfold res_obs in O. cbn in O |- *.
  injection O as -> ->. exact Hf.
Qed.

(** * Further properties of the code *)

(** ** Grab and release together *)

Lemma grab_buffer_success (w : world K) (buf : v4l2_buffer) (b : hw_buffer_t)
    (p : picture_t) :
  answer (dqbuf_request w) w = Some buf ->
  0 <= Buf.index buf < Run.n_buffers (run (w_dev w)) ->
  slot w (Buf.index buf) = Some b ->
  grabbed b = false ->
  picture w (Buf.index buf) = Some p ->
  device_grab_buffer w =
  Some (int_of_unsigned (Buf.index buf), after_grab buf b p w).
Proof.
  intros Ha Hi Hb Hg Hp. unfold device_grab_buffer.
  rewrite bind_get_dev, bind_xioctl. fold (dqbuf_request w). rewrite Ha.
  destruct (Buf.index buf >=? _) eqn:E.
  { rewrite Z.geb_leb in E. apply Z.leb_le in E. lia. }
  set (w0 := after (dqbuf_request w) w).
  assert (H0 : slot w0 (Buf.index buf) = Some b) by exact Hb.
  rewrite (bind_run _ _ _ _ _ (hw_buffer_at_run _ _ _ H0)), Hg.
  rewrite (bind_run _ _ _ _ _ (modify_hw_buffer_run _ _ _ _ H0)).
  pose proof (slot_put_slot _ (set_grabbed true b) _ _ H0) as H1.
  rewrite (bind_run _ _ _ _ _ (modify_hw_buffer_run _ _ _ _ H1)).
  pose proof (slot_put_slot _ (set_used (Buf.bytesused buf) (set_grabbed true b))
                _ _ H1) as H2.
  rewrite (bind_run _ _ _ _ _ (modify_hw_buffer_run _ _ _ _ H2)).
  rewrite !put_slot_put_slot, bind_sys.
  match goal with
  | |- context [after sys_now_monotonic ?w3] =>
      assert (Hp3 : picture (after sys_now_monotonic w3) (Buf.index buf) = Some p)
        by exact Hp
  end.
  rewrite (bind_run _ _ _ _ _ (modify_picture_run _ _ _ _ Hp3)).
  reflexivity.
Qed.

Lemma slot_after_grab (buf : v4l2_buffer) (b : hw_buffer_t) (p : picture_t)
    (w : world K) :
  slot w (Buf.index buf) = Some b ->
  slot (after_grab buf b p w) (Buf.index buf) = Some (grabbed_slot buf b) /\
  forall j, j <> Buf.index buf -> slot (after_grab buf b p w) j = slot w j.
Proof.
  intros Hb. unfold after_grab. cbv zeta.
  rewrite slot_put_picture, slot_after. split.
  - eapply slot_put_slot. exact Hb.
  - intros j Hj. rewrite slot_put_picture, slot_after.
    rewrite slot_put_slot_ne; [reflexivity| |exact Hj].
    eapply slot_nonneg, Hb.
Qed.

(** X1.  Grab, then release: the release hands back to the kernel the very
    descriptor the grab dequeued; accepted, it returns 0 and the slot is
    free again, holding the descriptor as the kernel returned it, every
    other slot as before the grab; refused, it returns -1 and the slot
    stays grabbed, with the bytes used and the descriptor of the grab. *)
Theorem grab_release_round_trip (w : world K) (buf : v4l2_buffer)
    (b : hw_buffer_t) (p : picture_t) :
  answer (dqbuf_request w) w = Some buf ->
  0 <= Buf.index buf < Run.n_buffers (run (w_dev w)) ->
  Run.n_buffers (run (w_dev w)) <= INT_MAX ->
  slot w (Buf.index buf) = Some b ->
  grabbed b = false ->
  picture w (Buf.index buf) = Some p ->
  exists w1,
    device_grab_buffer w = Some (Buf.index buf, w1) /\
    let qbuf := sys_ioctl (Run.fd (run (w_dev w))) (VIDIOC_QBUF buf) in
    match answer qbuf w1 with
    | Some back =>
        exists w2,
          device_release_buffer (Buf.index buf) w1 = Some (0, w2) /\
          w_calls w2 = Call qbuf (Some back) :: w_calls w1 /\
          slot w2 (Buf.index buf) =
            Some {| data := data b; used := 0; allocated := allocated b;
                    grabbed := false; buf_info := back |} /\
          forall j, j <> Buf.index buf -> slot w2 j = slot w j
    | None =>
        device_release_buffer (Buf.index buf) w1 = Some (-1, after qbuf w1) /\
        slot (after qbuf w1) (Buf.index buf) =
          Some {| data := data b; used := Buf.bytesused buf;
                  allocated := allocated b; grabbed := true;
                  buf_info := buf |}
    end.
Proof.
  intros Ha Hi Hmax Hb Hg Hp.
  exists (after_grab buf b p w). split.
  { rewrite (grab_buffer_success w buf b p Ha Hi Hb Hg Hp).
    rewrite int_of_unsigned_small by lia. reflexivity. }
  destruct (slot_after_grab buf b p w Hb) as [Hs Hother].
  pose proof (release_buffer_run _ _ _ Hs) as Hrun. cbv zeta in Hrun.
  cbv zeta. change (buf_info (grabbed_slot buf b)) with buf in Hrun.
  change (Run.fd (run (w_dev (after_grab buf b p w))))
    with (Run.fd (run (w_dev w))) in Hrun.
  rewrite Hrun.
  destruct (answer _ (after_grab buf b p w)) as [back|] eqn:Hq.
  - eexists. split; [reflexivity|]. split; [rewrite <- Hq; reflexivity|].
    pose proof (slot_nonneg _ _ _ Hb) as Hnn.
    split.
    + erewrite slot_put_slot; [reflexivity|exact Hs].
    + intros j Hj. rewrite slot_put_slot_ne by assumption.
      rewrite slot_after. apply Hother, Hj.
  - split; [reflexivity|]. rewrite slot_after, Hs. reflexivity.
Qed.

(** X2.  A buffer handed out twice: while a slot is grabbed, a second dequeue
    of the same index makes [device_grab_buffer] return -1 with the
    device structure untouched. *)
Theorem double_grab_rejected (w : world K) (buf : v4l2_buffer)
    (b : hw_buffer_t) (p : picture_t) :
  answer (dqbuf_request w) w = Some buf ->
  0 <= Buf.index buf < Run.n_buffers (run (w_dev w)) ->
  Run.n_buffers (run (w_dev w)) <= INT_MAX ->
  slot w (Buf.index buf) = Some b ->
  grabbed b = false ->
  picture w (Buf.index buf) = Some p ->
  exists w1,
    device_grab_buffer w = Some (Buf.index buf, w1) /\
    forall again,
      answer (dqbuf_request w1) w1 = Some again ->
      Buf.index again = Buf.index buf ->
      device_grab_buffer w1 = Some (-1, after (dqbuf_request w1) w1) /\
      w_dev (after (dqbuf_request w1) w1) = w_dev w1.
Proof.
  intros Ha Hi Hmax Hb Hg Hp.
  exists (after_grab buf b p w). split.
  { rewrite (grab_buffer_success w buf b p Ha Hi Hb Hg Hp).
    rewrite int_of_unsigned_small by lia. reflexivity. }
  intros again Hagain Hsame. split; [|reflexivity].
  destruct (slot_after_grab buf b p w Hb) as [Hs _].
  unfold device_grab_buffer.
  rewrite bind_get_dev, bind_xioctl.
  fold (dqbuf_request (after_grab buf b p w)). rewrite Hagain, Hsame.
  change (Run.n_buffers (run (w_dev (after_grab buf b p w))))
    with (Run.n_buffers (run (w_dev w))).
  destruct (Buf.index buf >=? _) eqn:E.
  { rewrite Z.geb_leb in E. apply Z.leb_le in E. lia. }
  set (w0 := after (dqbuf_request (after_grab buf b p w)) (after_grab buf b p w)).
  assert (H0 : slot w0 (Buf.index buf) = Some (grabbed_slot buf b)) by exact Hs.
  rewrite (bind_run _ _ _ _ _ (hw_buffer_at_run _ _ _ H0)). reflexivity.
Qed.

Lemma open_session_put_slot (index : Z) (b b0 : hw_buffer_t) (w : world K) :
  open_session w -> slot w index = Some b0 ->
  open_session (put_slot index b w).
Proof.
  intros Hs Hb j Hj. destruct (Hs j Hj) as [Hslot Hpic].
  split; [|exact Hpic].
  destruct (decide (j = index)) as [->|Hne].
  - erewrite slot_put_slot by exact Hb. eexists. reflexivity.
  - rewrite slot_put_slot_ne; [exact Hslot| |exact Hne].
    eapply slot_nonneg, Hb.
Qed.

Lemma open_session_put_picture (index : Z) (p p0 : picture_t) (w : world K) :
  open_session w -> picture w index = Some p0 ->
  open_session (put_picture index p w).
Proof.
  intros Hs Hp j Hj. destruct (Hs j Hj) as [Hslot Hpic].
  split; [exact Hslot|].
  destruct (decide (j = index)) as [->|Hne].
  - erewrite picture_put_picture by exact Hp. eexists. reflexivity.
  - rewrite picture_put_picture_ne; [exact Hpic| |exact Hne].
    unfold picture in Hp. destruct (Run.pictures _); [|discriminate].
    destruct (nat_index index) eqn:E; [|discriminate].
    apply nat_index_Some in E. tauto.
Qed.

(** X3.  The session through grabs and releases.  With a kernel that answers
    indices of type [unsigned], a grab in an open session returns -1 or
    the index of a slot of the pool, which is then grabbed; a release of
    a slot of the pool returns 0 or -1; after either, the session is
    still open with the same number of buffers. *)
Theorem grab_release_keep_session (w : world K) :
  open_session w ->
  Run.n_buffers (run (w_dev w)) <= INT_MAX ->
  (forall buf, answer (dqbuf_request w) w = Some buf -> 0 <= Buf.index buf) ->
  (exists rc w',
     device_grab_buffer w = Some (rc, w') /\
     open_session w' /\
     Run.n_buffers (run (w_dev w')) = Run.n_buffers (run (w_dev w)) /\
     (rc = -1 \/
      0 <= rc < Run.n_buffers (run (w_dev w)) /\
      option_map grabbed (slot w' rc) = Some true)) /\
  (forall index, 0 <= index < Run.n_buffers (run (w_dev w)) ->
     exists rc w',
       device_release_buffer index w = Some (rc, w') /\
       open_session w' /\
       Run.n_buffers (run (w_dev w')) = Run.n_buffers (run (w_dev w)) /\
       (rc = 0 \/ rc = -1)).
Proof.
  intros Hs Hmax Htyped. split.
  - destruct (answer (dqbuf_request w) w) as [buf|] eqn:Ha.
    + specialize (Htyped buf eq_refl).
      destruct (Z_lt_le_dec (Buf.index buf) (Run.n_buffers (run (w_dev w))))
        as [Hlt|Hge].
      * destruct (Hs (Buf.index buf)) as [[b Hb] [p Hp]]; [lia|].
        destruct (grabbed b) eqn:Hg.
        -- exists (-1), (after (dqbuf_request w) w).
           split; [|split; [exact Hs|split; [reflexivity|auto]]].
           unfold device_grab_buffer.
           rewrite bind_get_dev, bind_xioctl. fold (dqbuf_request w).
           rewrite Ha.
           destruct (Buf.index buf >=? _) eqn:E.
           { rewrite Z.geb_leb in E. apply Z.leb_le in E. lia. }
           assert (H0 : slot (after (dqbuf_request w) w) (Buf.index buf) = Some b)
             by exact Hb.
           rewrite (bind_run _ _ _ _ _ (hw_buffer_at_run _ _ _ H0)), Hg.
           reflexivity.
        -- exists (Buf.index buf), (after_grab buf b p w).
           split.
           { rewrite (grab_buffer_success w buf b p Ha (conj Htyped Hlt) Hb Hg Hp).
             rewrite int_of_unsigned_small by lia. reflexivity. }
           split.
           { unfold after_grab. cbv zeta.
             eapply open_session_put_picture; [|exact Hp].
             assert (Ho : open_session
                            (put_slot (Buf.index buf) (grabbed_slot buf b)
                               (after (dqbuf_request w) w))).
             { eapply open_session_put_slot; [exact Hs|exact Hb]. }
             exact Ho. }
           split; [reflexivity|]. right. split; [lia|].
           destruct (slot_after_grab buf b p w Hb) as [-> _]. reflexivity.
      * exists (-1), (after (dqbuf_request w) w).
        split; [|split; [exact Hs|split; [reflexivity|auto]]].
        unfold device_grab_buffer.
        rewrite bind_get_dev, bind_xioctl. fold (dqbuf_request w). rewrite Ha.
        destruct (Buf.index buf >=? _) eqn:E; [reflexivity|].
        rewrite Z.geb_leb in E. apply Z.leb_gt in E. lia.
    + exists (-1), (after (dqbuf_request w) w).
      split; [|split; [exact Hs|split; [reflexivity|auto]]].
      unfold device_grab_buffer.
      rewrite bind_get_dev, bind_xioctl. fold (dqbuf_request w). rewrite Ha.
      reflexivity.
  - intros index Hi. destruct (Hs index Hi) as [[b Hb] _].
    pose proof (release_buffer_run index w b Hb) as Hrun. cbv zeta in Hrun.
    rewrite Hrun.
    match goal with
    | |- context [match ?a with _ => _ end] => destruct a
    end.
    + eexists _, _. split; [reflexivity|].
      split; [|split; [reflexivity|auto]].
      eapply open_session_put_slot; [exact Hs|exact Hb].
    + eexists _, _. split; [reflexivity|].
      split; [exact Hs|split; [reflexivity|auto]].
Qed.

(** ** Closing *)

Lemma bind_ret {A B : Type} (a : A) (f : A -> M B) (w : world K) :
  bind (ret a) f w = f a w.
Proof. reflexivity. Qed.

Lemma keeps_dev_for_each (indices : list Z) (body : Z -> M Z) :
  (forall index, keeps any_call (fun d => d) (body index)) ->
  forall w rc w', for_each indices body w = Some (rc, w') -> w_dev w' = w_dev w.
Proof.
  intros Hb w rc w' H.
  apply (keeps_for_each any_call (fun d => d) indices body Hb) in H
    as (_ & _ & _ & O).
  exact O.
Qed.

Lemma device_close_dev (w w' : world K) :
  device_close w = Some (tt, w') ->
  w_dev w' = set_run (closed_run (run (w_dev w))) (w_dev w).
Proof.
  unfold device_close. rewrite bind_modify_run, bind_get_run. intros H.
  apply bind_inv in H as ([] & w2 & H2 & H).
  rewrite bind_get_run in H.
  apply bind_inv in H as ([] & w3 & H3 & H).
  rewrite bind_get_run in H.
  set (w1 := with_run (Run.set_n_workers 0 (run (w_dev w))) w) in *.
  assert (D2 : w_dev w2 =
               set_run (match Run.pictures (run (w_dev w1)) with
                        | Some _ => Run.set_pictures None (run (w_dev w1))
                        | None => run (w_dev w1)
                        end) (w_dev w1)).
  { destruct (Run.pictures (run (w_dev w1))).
    - apply bind_inv in H2 as (rc & wl & Hl & Hm).
      unfold for_index in Hl.
      apply keeps_dev_for_each in Hl; [|intros; keeps_auto].
      injection Hm as <-. cbn. rewrite Hl. reflexivity.
    - injection H2 as <-. destruct (w_dev w1); reflexivity. }
  assert (D3 : w_dev w3 =
               set_run (match Run.hw_buffers (run (w_dev w2)) with
                        | Some _ =>
                            Run.set_hw_buffers None
                              (Run.set_n_buffers 0 (run (w_dev w2)))
                        | None => run (w_dev w2)
                        end) (w_dev w2)).
  { destruct (Run.hw_buffers (run (w_dev w2))).
    - apply bind_inv in H3 as (rc & wl & Hl & Hm).
      unfold for_index in Hl.
      apply keeps_dev_for_each in Hl; [|intros; keeps_auto].
      rewrite bind_modify_run in Hm. injection Hm as <-. cbn. rewrite Hl.
      reflexivity.
    - injection H3 as <-. destruct (w_dev w2); reflexivity. }
  assert (D4 : w_dev w' =
               set_run (if Run.fd (run (w_dev w3)) >=? 0
                        then Run.set_fd (-1) (run (w_dev w3))
                        else run (w_dev w3)) (w_dev w3)).
  { destruct (Run.fd (run (w_dev w3)) >=? 0).
    - rewrite bind_sys in H. injection H as <-. reflexivity.
    - injection H as <-. destruct (w_dev w3); reflexivity. }
  rewrite D4, D3, D2. subst w1. cbn.
  unfold closed_run. cbn.
  destruct (w_dev w) as [? ? ? ? ? ? ? ? ? ? ? ? r]. cbn.
  destruct r as [? ? ? ? ? ? ? ? bufs pics ?]. cbn.
  destruct pics, bufs; cbn; destruct (_ >=? 0); reflexivity.
Qed.

Lemma closed_run_closed (r : device_runtime_t) :
  Run.n_workers (closed_run r) = 0 /\
  Run.pictures (closed_run r) = None /\
  Run.hw_buffers (closed_run r) = None /\
  Run.fd (closed_run r) < 0.
Proof.
  unfold closed_run. destruct r as [fd ? ? ? ? ? ? ? bufs pics ?]. cbn.
  destruct pics, bufs; cbn; destruct (fd >=? 0) eqn:E; cbn;
    repeat split; try reflexivity;
    rewrite Z.geb_leb in E; apply Z.leb_gt in E; lia.
Qed.

(** X4.  [device_close], whenever it returns, leaves a runtime with no
    workers, no picture array, no buffer pool and a negative descriptor;
    the negotiated resolution and format, the capturing flag and the
    whole configuration are what they were. *)
Theorem close_releases_everything (w w' : world K) :
  device_close w = Some (tt, w') ->
  let r := run (w_dev w) in
  let r' := run (w_dev w') in
  Run.n_workers r' = 0 /\
  Run.pictures r' = None /\
  Run.hw_buffers r' = None /\
  Run.fd r' < 0 /\
  (Run.width r', Run.height r', Run.format r', Run.hw_fps r', Run.raw_size r',
   Run.capturing r') =
  (Run.width r, Run.height r, Run.format r, Run.hw_fps r, Run.raw_size r,
   Run.capturing r) /\
  set_run r (w_dev w') = w_dev w.
Proof.
  intros H. apply device_close_dev in H. cbv zeta. rewrite H. cbn.
  destruct (closed_run_closed (run (w_dev w))) as (H1 & H2 & H3 & H4).
  repeat (split; [assumption|]). split.
  - unfold closed_run. destruct (run (w_dev w)) as [fd ? ? ? ? ? ? ? bufs pics ?].
    cbn. destruct pics, bufs; cbn; destruct (fd >=? 0); reflexivity.
  - destruct (w_dev w). reflexivity.
Qed.

(** X5.  Closing twice: a second [device_close] returns without a system call
    and without changing anything. *)
Theorem close_idempotent (w w1 : world K) :
  device_close w = Some (tt, w1) ->
  device_close w1 = Some (tt, w1).
Proof.
  intros H. apply device_close_dev in H.
  destruct (closed_run_closed (run (w_dev w))) as (H1 & H2 & H3 & H4).
  assert (Hr : run (w_dev w1) = closed_run (run (w_dev w)))
    by (rewrite H; reflexivity).
  rewrite <- Hr in H1, H2, H3, H4.
  unfold device_close.
  rewrite bind_modify_run, bind_get_run.
  cbn [with_run with_dev w_dev run set_run Run.pictures Run.set_n_workers].
  rewrite H2, bind_ret, bind_get_run.
  cbn [with_run with_dev w_dev run set_run Run.hw_buffers Run.set_n_workers].
  rewrite H3, bind_ret, bind_get_run.
  cbn [with_run with_dev w_dev run set_run Run.fd Run.set_n_workers].
  destruct (Run.fd (run (w_dev w1)) >=? 0) eqn:E.
  { rewrite Z.geb_leb in E. apply Z.leb_le in E. lia. }
  unfold ret. f_equal. f_equal.
  destruct w1 as [d k log]. cbn in *. unfold with_run, with_dev. cbn.
  f_equal. destruct d as [? ? ? ? ? ? ? ? ? ? ? ? r]. cbn in *.
  unfold set_run. cbn. f_equal.
  destruct r. cbn in *. subst. reflexivity.
Qed.

(** X6.  A failed [device_open] has closed what it had opened: it leaves no
    pool, no pictures, no workers and no descriptor. *)
Theorem failed_open_is_closed (w w' : world K) :
  device_open w = Some (-1, w') ->
  let r' := run (w_dev w') in
  Run.n_workers r' = 0 /\
  Run.pictures r' = None /\
  Run.hw_buffers r' = None /\
  Run.fd r' < 0.
Proof.
  intros H.
  assert (Herr : forall w0 rc, device_open_error w0 = Some (rc, w') ->
            let r' := run (w_dev w') in
            Run.n_workers r' = 0 /\ Run.pictures r' = None /\
            Run.hw_buffers r' = None /\ Run.fd r' < 0).
  { intros w0 rc He. unfold device_open_error in He.
    apply bind_inv in He as ([] & wc & Hc & [= _ <-]).
    apply device_close_dev in Hc. cbv zeta. rewrite Hc. cbn.
    apply closed_run_closed. }
  unfold device_open in H. rewrite bind_get_dev, bind_sys, bind_modify_run in H.
  repeat lazymatch type of H with
  | (if ?b then device_open_error else _) _ = _ =>
      destruct b; [exact (Herr _ _ H)|]
  | bind _ _ _ = _ =>
      let H' := fresh "Hs" in
      apply bind_inv in H as (? & ? & H' & H)
  end.
  discriminate.
Qed.

(** ** The steps of the open sequence, one by one *)

(** X7.  The capability step.  It always returns, 0 or -1, and never touches
    the device structure.  It returns 0 exactly when the device reports
    both video capture and streaming, accepts the input channel, and, if
    a standard is configured, accepts that standard; a device lacking a
    capability gets no further request after the query. *)
Theorem open_check_cap_accepts (w : world K) :
  exists rc w',
    _device_open_check_cap w = Some (rc, w') /\
    w_dev w' = w_dev w /\
    (rc = 0 \/ rc = -1) /\
    (rc = 0 <->
     exists cap,
       answer (querycap_request w) w = Some cap /\
       can_capture cap /\
       answer (s_input_request w) (after (querycap_request w) w) <> None /\
       (standard (w_dev w) <> V4L2_STD_UNKNOWN ->
        answer (s_std_request w)
          (after (s_input_request w) (after (querycap_request w) w)) <> None)) /\
    (forall cap, answer (querycap_request w) w = Some cap ->
       ~ can_capture cap -> w' = after (querycap_request w) w).
Proof.
  unfold _device_open_check_cap, can_capture.
  rewrite bind_get_dev. cbv zeta. rewrite bind_xioctl.
  fold (querycap_request w).
  destruct (answer (querycap_request w) w) as [cap|] eqn:Hcap.
  2:{ eexists _, _. split; [reflexivity|]. split; [reflexivity|].
      split; [auto|]. split; [|discriminate].
      split; [discriminate|]. intros (c & Hc & _). discriminate. }
  destruct (Z.eqb_spec (Z.land (capabilities cap) V4L2_CAP_VIDEO_CAPTURE) 0)
    as [E1|E1].
  { eexists _, _. split; [reflexivity|]. split; [reflexivity|].
    split; [auto|]. split; [|reflexivity].
    split; [discriminate|]. intros (c & [= <-] & [Hc _] & _). contradiction. }
  destruct (Z.eqb_spec (Z.land (capabilities cap) V4L2_CAP_STREAMING) 0)
    as [E2|E2].
  { eexists _, _. split; [reflexivity|]. split; [reflexivity|].
    split; [auto|]. split; [|reflexivity].
    split; [discriminate|]. intros (c & [= <-] & [_ Hc] & _). contradiction. }
  rewrite bind_xioctl. fold (s_input_request w).
  destruct (answer (s_input_request w) (after (querycap_request w) w)) eqn:Hin.
  2:{ eexists _, _. split; [reflexivity|]. split; [reflexivity|].
      split; [auto|]. split; [|intros c [= <-] Hn; exfalso; apply Hn; split; assumption].
      split; [discriminate|]. intros (c & _ & _ & Hc & _). contradiction. }
  destruct (Z.eqb_spec (standard (w_dev w)) V4L2_STD_UNKNOWN) as [E3|E3];
    cbn [negb].
  { eexists _, _. split; [reflexivity|]. split; [reflexivity|].
    split; [auto|]. split; [|intros c [= <-] Hn; exfalso; apply Hn; split; assumption].
    split; [|reflexivity]. intros _. exists cap.
    split; [reflexivity|]. split; [tauto|]. split; [discriminate|].
    intros Hc. contradiction. }
  rewrite bind_xioctl. fold (s_std_request w).
  destruct (answer (s_std_request w) _) eqn:Hstd.
  - eexists _, _. split; [reflexivity|]. split; [reflexivity|].
    split; [auto|]. split; [|intros c [= <-] Hn; exfalso; apply Hn; split; assumption].
    split; [|reflexivity]. intros _. exists cap.
    split; [reflexivity|]. split; [tauto|]. split; [discriminate|].
    intros _. discriminate.
  - eexists _, _. split; [reflexivity|]. split; [reflexivity|].
    split; [auto|]. split; [|intros c [= <-] Hn; exfalso; apply Hn; split; assumption].
    split; [discriminate|]. intros (c & _ & _ & _ & Hc).
    destruct (Hc E3 eq_refl).
Qed.

(** X8.  The frame rate step.  It always returns and changes nothing but
    [hw_fps], which never keeps an earlier value.  When the device
    announces the time-per-frame capability and answers the request for
    one frame per [desired_fps] (255 for zero) with a numerator of 1,
    [hw_fps] is the denominator of that answer; in every other case it
    is 0.  A device that announces the capability gets that one request
    after the query; a device that fails the query or lacks the
    capability gets none. *)
Theorem open_hw_fps_best_effort (w : world K) :
  let w0 := with_run (Run.set_hw_fps 0 (run (w_dev w))) w in
  let w1 := after (g_parm_request w) w0 in
  let w2 := after (s_parm_request w) w1 in
  exists w' fps,
    _device_open_hw_fps w = Some (tt, w') /\
    w_dev w' = set_run (Run.set_hw_fps fps (run (w_dev w))) (w_dev w) /\
    (forall cap parm,
       answer (g_parm_request w) w0 = Some cap ->
       Z.land (capability cap) V4L2_CAP_TIMEPERFRAME <> 0 ->
       answer (s_parm_request w) w1 = Some parm ->
       numerator parm = 1 ->
       fps = denominator parm) /\
    (fps <> 0 ->
     exists cap parm,
       answer (g_parm_request w) w0 = Some cap /\
       Z.land (capability cap) V4L2_CAP_TIMEPERFRAME <> 0 /\
       answer (s_parm_request w) w1 = Some parm /\
       numerator parm = 1 /\
       denominator parm = fps) /\
    (forall cap,
       answer (g_parm_request w) w0 = Some cap ->
       Z.land (capability cap) V4L2_CAP_TIMEPERFRAME <> 0 ->
       w_kernel w' = w_kernel w2 /\ w_calls w' = w_calls w2) /\
    ((forall cap,
        answer (g_parm_request w) w0 = Some cap ->
        Z.land (capability cap) V4L2_CAP_TIMEPERFRAME = 0) ->
     fps = 0 /\ w' = w1).
Proof.
  intros w0 w1 w2. unfold _device_open_hw_fps.
  rewrite bind_modify_run. fold w0. rewrite bind_get_dev, bind_xioctl.
  change (Run.fd (run (w_dev w0))) with (Run.fd (run (w_dev w))).
  fold (g_parm_request w). fold w1.
  assert (Hzero : w_dev w0 =
                  set_run (Run.set_hw_fps 0 (run (w_dev w))) (w_dev w))
    by reflexivity.
  destruct (answer (g_parm_request w) w0) as [cap|] eqn:Hg.
  2:{ exists w1, 0.
      split; [reflexivity|]. split; [exact Hzero|].
      split; [discriminate|]. split; [intros Hc; contradiction|].
      split; [discriminate|]. auto. }
  destruct (Z.eqb_spec (Z.land (capability cap) V4L2_CAP_TIMEPERFRAME) 0)
    as [E|E].
  { exists w1, 0.
    split; [reflexivity|]. split; [exact Hzero|].
    split; [intros c q [= <-] Hc; contradiction|].
    split; [intros Hc; contradiction|].
    split; [intros c [= <-] Hc; contradiction|]. auto. }
  cbv zeta. rewrite bind_xioctl.
  change (desired_fps (w_dev w0)) with (desired_fps (w_dev w)).
  fold (s_parm_request w). fold w1. fold w2.
  assert (Hnone : (forall c, Some cap = Some c ->
                     Z.land (capability c) V4L2_CAP_TIMEPERFRAME = 0) ->
                  forall X : Prop, X).
  { intros Hc. destruct (E (Hc cap eq_refl)). }
  destruct (answer (s_parm_request w) w1) as [parm|] eqn:Hs.
  2:{ exists w2, 0. split; [reflexivity|]. split; [exact Hzero|].
      split; [discriminate|]. split; [intros Hc; contradiction|].
      split; [auto|]. intros Hc. apply (Hnone Hc). }
  destruct (Z.eqb_spec (numerator parm) 1) as [E1|E1]; cbn [negb].
  2:{ exists w2, 0. split; [reflexivity|]. split; [exact Hzero|].
      split; [intros c q _ _ [= <-] Hc; contradiction|].
      split; [intros Hc; contradiction|].
      split; [auto|]. intros Hc. apply (Hnone Hc). }
  destruct (Z.eqb_spec (denominator parm) 0) as [E2|E2].
  { exists w2, 0. split; [reflexivity|]. split; [exact Hzero|].
    split; [intros c q _ _ [= <-] _; auto|].
    split; [intros Hc; contradiction|].
    split; [auto|]. intros Hc. apply (Hnone Hc). }
  eexists _, (denominator parm). split; [reflexivity|].
  split; [reflexivity|].
  split; [intros c q _ _ [= <-] _; reflexivity|].
  split; [intros _; exists cap, parm; auto|].
  split; [intros _ _ _; split; reflexivity|].
  intros Hc. apply (Hnone Hc).
Qed.

(** Result codes met on the way are compared with zero. *)
Ltac rc_norm :=
  cbv beta iota;
  repeat (first [ rewrite bind_ret
                | progress change (-1 <? 0) with true
                | progress change (0 <? 0) with false ];
          cbv beta iota).

(** X9.  The timings step with DV timings on and timings reported by the
    device.  It always returns; it returns 0 exactly when the device
    accepts the timings, the resolution of the timings as that request
    leaves them is allowed, and the subscription to source changes
    succeeds; the runtime resolution is then the one of those timings,
    whatever resolution was configured. *)
Theorem open_dv_timings_reported (w : world K) (dv : v4l2_dv_timings) :
  dv_timings (w_dev w) = true ->
  answer (query_dv_request w) w = Some dv ->
  let w1 := after (query_dv_request w) w in
  let w2 := after (s_dv_request dv w) w1 in
  exists rc w',
    _device_open_dv_timings w = Some (rc, w') /\
    (rc = 0 \/ rc = -1) /\
    (rc = 0 <->
     exists set,
       answer (s_dv_request dv w) w1 = Some set /\
       forbidden_resolution (bt_width set) (bt_height set) = false /\
       answer (subscribe_request w) w2 <> None) /\
    (forall set,
       rc = 0 -> answer (s_dv_request dv w) w1 = Some set ->
       Run.width (run (w_dev w')) = bt_width set /\
       Run.height (run (w_dev w')) = bt_height set).
Proof.
  intros Hdv Hq w1 w2. unfold _device_open_dv_timings.
  rewrite bind_get_dev. unfold bind at 1. rewrite apply_resolution_run, Hdv.
  set (wr := if forbidden_resolution (width (w_dev w)) (height (w_dev w))
             then w else with_resolution (width (w_dev w)) (height (w_dev w)) w).
  assert (Hk : w_kernel wr = w_kernel w /\ w_calls wr = w_calls w /\
               Run.fd (run (w_dev wr)) = Run.fd (run (w_dev w))).
  { subst wr. destruct (forbidden_resolution _ _); repeat split. }
  destruct Hk as (Hk1 & Hk2 & Hk3).
  assert (Hstart :
    (if forbidden_resolution (width (w_dev w)) (height (w_dev w))
     then Some (-1, w)
     else Some (0, with_resolution (width (w_dev w)) (height (w_dev w)) w))
    = Some ((if forbidden_resolution (width (w_dev w)) (height (w_dev w))
             then -1 else 0), wr)).
  { subst wr. destruct (forbidden_resolution _ _); reflexivity. }
  rewrite Hstart. clear Hstart.
  unfold _device_apply_dv_timings. rewrite !bind_bind, bind_get_run.
  rewrite bind_bind, bind_xioctl, Hk3.
  assert (Ha1 : answer (sys_ioctl (Run.fd (run (w_dev w))) VIDIOC_QUERY_DV_TIMINGS)
                  wr = Some dv).
  { unfold answer. rewrite Hk1. exact Hq. }
  rewrite Ha1. rewrite bind_bind, bind_xioctl.
  set (wq := after (sys_ioctl (Run.fd (run (w_dev w))) VIDIOC_QUERY_DV_TIMINGS) wr).
  assert (Ha2 : answer (sys_ioctl (Run.fd (run (w_dev w))) (VIDIOC_S_DV_TIMINGS dv))
                  wq = answer (s_dv_request dv w) w1).
  { unfold answer, wq, w1, after. cbn. rewrite Hk1. reflexivity. }
  rewrite Ha2.
  destruct (answer (s_dv_request dv w) w1) as [set|] eqn:Hs.
  2:{ rc_norm.
      eexists _, _. split; [reflexivity|]. split; [auto|].
      split; [|discriminate]. split; [discriminate|].
      intros (x & Hx & _). discriminate. }
  rewrite bind_bind. unfold bind at 1. rewrite apply_resolution_run.
  destruct (forbidden_resolution (bt_width set) (bt_height set)) eqn:Hf.
  { rc_norm.
    eexists _, _. split; [reflexivity|]. split; [auto|].
    split; [|discriminate]. split; [discriminate|].
    intros (x & [= <-] & Hc & _). congruence. }
  rc_norm. rewrite bind_get_run, bind_xioctl.
  match goal with
  | |- context [answer ?s ?w3] =>
      assert (Ha3 : answer s w3 = answer (subscribe_request w) w2)
  end.
  { unfold answer, subscribe_request, w2, w1, wq, after, with_resolution.
    cbn. rewrite Hk1, Hk3. reflexivity. }
  rewrite Ha3.
  destruct (answer (subscribe_request w) w2) eqn:Hsub.
  - eexists _, _. split; [reflexivity|]. split; [auto|].
    split; [|intros x _ [= <-]; split; reflexivity].
    split; [|reflexivity]. intros _. exists set.
    split; [reflexivity|]. split; [exact Hf|discriminate].
  - eexists _, _. split; [reflexivity|]. split; [auto|].
    split; [|discriminate]. split; [discriminate|].
    intros (x & _ & _ & Hc). contradiction.
Qed.

(** One turn of the loop of [_device_open_queue_buffers]: one
    [VIDIOC_QBUF] for the slot, and nothing else. *)
Lemma queue_buffer_turn (index : Z) (w w1 : world K) (r : Z)
    (body : Z -> M Z) :
  body = (fun index =>
    d <- get_dev;;
    buf_info <-
      (if io_method d =? V4L2_MEMORY_USERPTR then
         b <- hw_buffer_at index;;
         ret {| Buf.index := index; Buf.type := V4L2_BUF_TYPE_VIDEO_CAPTURE;
                Buf.bytesused := 0; Buf.memory := io_method d;
                Buf.m_offset := 0; Buf.m_userptr := data b;
                Buf.length := allocated b |}
       else
         ret {| Buf.index := index; Buf.type := V4L2_BUF_TYPE_VIDEO_CAPTURE;
                Buf.bytesused := 0; Buf.memory := io_method d;
                Buf.m_offset := 0; Buf.m_userptr := NullPtr;
                Buf.length := 0 |});;
    res <- xioctl (Run.fd (run d)) (VIDIOC_QBUF buf_info);;
    match res with
    | None => ret (-1)
    | Some _ => ret 0
    end)%prog ->
  body index w = Some (r, w1) ->
  exists c, w_calls w1 = c :: w_calls w /\ w_dev w1 = w_dev w /\
            qbuf_reply c = Some (index, negb (r <? 0)) /\
            (r = 0 \/ r = -1).
Proof.
  intros -> H. rewrite bind_get_dev in H.
  apply bind_inv in H as (buf & wb & Hb & H).
  assert (Hbuf : wb = w /\ Buf.index buf = index).
  { destruct (io_method (w_dev w) =? V4L2_MEMORY_USERPTR).
    - apply bind_inv in Hb as (b & w0 & Hb & Hr).
      unfold hw_buffer_at in Hb. rewrite bind_get_run in Hb.
      destruct (Run.hw_buffers _); [|discriminate].
      destruct (nat_index index); [|discriminate].
      destruct (_ !! _); [|discriminate].
      injection Hb as <- <-. injection Hr as <- <-. auto.
    - injection Hb as <- <-. auto. }
  destruct Hbuf as [-> Hi]. rewrite bind_xioctl in H.
  destruct (answer _ w) eqn:Ha; injection H as <- <-;
    eexists; (split; [reflexivity|]); (split; [reflexivity|]);
    cbn [qbuf_reply]; rewrite Ha, Hi; auto.
Qed.

Lemma queue_buffers_loop (body : Z -> M Z) (indices : list Z) :
  (forall index w r w1, body index w = Some (r, w1) ->
     exists c, w_calls w1 = c :: w_calls w /\ w_dev w1 = w_dev w /\
               qbuf_reply c = Some (index, negb (r <? 0)) /\
               (r = 0 \/ r = -1)) ->
  forall w rc w',
    for_each indices body w = Some (rc, w') ->
    exists new,
      w_calls w' = new ++ w_calls w /\ w_dev w' = w_dev w /\
      ((rc = 0 /\ map qbuf_reply (rev new) = map queued_ok indices) \/
       (rc = -1 /\ exists done index rest,
          indices = done ++ index :: rest /\
          map qbuf_reply (rev new) =
            map queued_ok done ++ [Some (index, false)])).
Proof.
  intros Hbody. induction indices as [|i rest IH]; intros w rc w' H;
    cbn [for_each] in H.
  - injection H as <- <-. exists []. auto.
  - apply bind_inv in H as (r & w1 & Hb & H).
    apply Hbody in Hb as (c & Hc & Hd & Hq & Hr).
    destruct Hr as [-> | ->].
    + change (0 <? 0) with false in *. cbn [negb] in Hq. cbv iota in H.
      apply IH in H as (new & Hn & Hd' & Hcase).
      exists (new ++ [c]). split; [rewrite Hn, Hc, <- app_assoc; reflexivity|].
      split; [congruence|].
      rewrite rev_app_distr. cbn [rev app map]. rewrite Hq.
      destruct Hcase as [[-> Hm] | (-> & done & k & rest' & -> & Hm)].
      * left. rewrite Hm. auto.
      * right. split; [reflexivity|]. exists (i :: done), k, rest'.
        rewrite Hm. auto.
    + change (-1 <? 0) with true in *. cbn [negb] in Hq. cbv iota in H.
      injection H as <- <-. exists [c]. split; [exact Hc|].
      split; [exact Hd|]. right. split; [reflexivity|].
      exists [], i, rest. cbn. rewrite Hq. auto.
Qed.

(** X10.  The queueing step.  Whenever it returns, all it has done is
    [VIDIOC_QBUF] requests, one per slot in the order of the slots from
    0, the device structure untouched.  It returns 0 when every slot of
    the pool was accepted; at the first refusal it stops and returns -1,
    the slots after the refused one never offered. *)
Theorem open_queue_buffers_in_order (w w' : world K) (rc : Z) :
  _device_open_queue_buffers w = Some (rc, w') ->
  exists new,
    w_calls w' = new ++ w_calls w /\ w_dev w' = w_dev w /\
    ((rc = 0 /\
      map qbuf_reply (rev new) =
        map queued_ok (seqZ 0 (Run.n_buffers (run (w_dev w))))) \/
     (rc = -1 /\ exists done index rest,
        seqZ 0 (Run.n_buffers (run (w_dev w))) = done ++ index :: rest /\
        map qbuf_reply (rev new) =
          map queued_ok done ++ [Some (index, false)])).
Proof.
  unfold _device_open_queue_buffers, for_index. rewrite bind_get_run.
  apply queue_buffers_loop. intros index w0 r w1 H.
  exact (queue_buffer_turn index w0 w1 r _ eq_refl H).
Qed.

(** ** The controls *)

Lemma query_control_run (cid : Z) (quiet : bool) (w : world K) :
  exists rc query,
    _device_query_control cid quiet w =
      Some ((rc, query), after (queryctrl_request cid w) w) /\
    match control_available (answer (queryctrl_request cid w) w) with
    | Some q => rc = 0 /\ query = q
    | None => rc = -1
    end.
Proof.
  unfold _device_query_control. rewrite bind_get_run, bind_xioctl.
  fold (queryctrl_request cid w). unfold control_available.
  destruct (answer (queryctrl_request cid w) w) as [q|].
  - destruct (Z.land (Query.flags q) V4L2_CTRL_FLAG_DISABLED =? 0);
      eexists _, _; (split; [reflexivity|]); auto.
  - eexists _, _. split; [reflexivity|]. reflexivity.
Qed.

Lemma SET_CID_VALUE_run (cid value : Z) (quiet : bool) (w : world K) :
  SET_CID_VALUE cid value quiet w =
  match control_available (answer (queryctrl_request cid w) w) with
  | Some query =>
      _device_set_control query cid value quiet
        (after (queryctrl_request cid w) w)
  | None => Some (tt, after (queryctrl_request cid w) w)
  end.
Proof.
  unfold SET_CID_VALUE.
  destruct (query_control_run cid quiet w) as (rc & query & Hq & Hc).
  unfold bind at 1. rewrite Hq. cbn [fst snd].
  destruct (control_available _) as [q|].
  - destruct Hc as [-> ->]. reflexivity.
  - subst rc. reflexivity.
Qed.

Lemma SET_CID_DEFAULT_run (cid : Z) (quiet : bool) (w : world K) :
  SET_CID_DEFAULT cid quiet w =
  match control_available (answer (queryctrl_request cid w) w) with
  | Some query =>
      _device_set_control query cid (Query.default_value query) quiet
        (after (queryctrl_request cid w) w)
  | None => Some (tt, after (queryctrl_request cid w) w)
  end.
Proof.
  unfold SET_CID_DEFAULT.
  destruct (query_control_run cid quiet w) as (rc & query & Hq & Hc).
  unfold bind at 1. rewrite Hq. cbn [fst snd].
  destruct (control_available _) as [q|].
  - destruct Hc as [-> ->]. reflexivity.
  - subst rc. reflexivity.
Qed.

(** X11.  A control the device does not know, or reports as disabled, is
    never written: setting it to a value or to its default makes the
    query and nothing more. *)
Theorem unavailable_control_not_written (cid value : Z) (quiet : bool)
    (w : world K) :
  control_available (answer (queryctrl_request cid w) w) = None ->
  SET_CID_VALUE cid value quiet w =
    Some (tt, after (queryctrl_request cid w) w) /\
  SET_CID_DEFAULT cid quiet w =
    Some (tt, after (queryctrl_request cid w) w).
Proof.
  intros H. rewrite SET_CID_VALUE_run, SET_CID_DEFAULT_run, H. auto.
Qed.

(** X12.  Setting a control to its default goes through the same validation
    as a configured value: the default the device reports is written
    back when it lies in the reported range and is a multiple of the
    reported step, and otherwise nothing is written after the query. *)
Theorem default_control_validated (cid : Z) (quiet : bool) (w : world K)
    (query : v4l2_queryctrl) :
  control_available (answer (queryctrl_request cid w) w) = Some query ->
  rem_defined (Query.default_value query) (Query.step query) ->
  let w1 := after (queryctrl_request cid w) w in
  (control_value_valid query (Query.default_value query) ->
   SET_CID_DEFAULT cid quiet w =
     Some (tt, after (s_ctrl_request cid (Query.default_value query) w1) w1)) /\
  (~ control_value_valid query (Query.default_value query) ->
   SET_CID_DEFAULT cid quiet w = Some (tt, w1)).
Proof.
  intros Ha Hd w1. rewrite SET_CID_DEFAULT_run, Ha. fold w1.
  rewrite set_control_run, (control_value_invalid_defined _ _ Hd).
  pose proof (control_value_ok_spec query (Query.default_value query)
                (proj1 Hd)) as Hok.
  destruct (control_value_ok query (Query.default_value query));
    cbn [negb]; split; intros Hv; try reflexivity.
  - destruct Hv. apply Hok. reflexivity.
  - apply Hok in Hv. discriminate.
Qed.

Section ControlCalls.
Context {A : Type} (obs : device_t -> A).

Lemma ctrl_query_control (cid : Z) (quiet : bool) :
  keeps ctrl_call obs (_device_query_control cid quiet).
Proof. unfold _device_query_control. keeps_auto. Qed.

Lemma ctrl_set_control (query : v4l2_queryctrl) (cid value : Z) (quiet : bool) :
  keeps ctrl_call obs (_device_set_control query cid value quiet).
Proof. unfold _device_set_control. keeps_auto. Qed.

Lemma ctrl_SET_CID_VALUE (cid value : Z) (quiet : bool) :
  keeps ctrl_call obs (SET_CID_VALUE cid value quiet).
Proof.
  unfold SET_CID_VALUE. keeps_auto;
    first [apply ctrl_query_control | apply ctrl_set_control].
Qed.

Lemma ctrl_SET_CID_DEFAULT (cid : Z) (quiet : bool) :
  keeps ctrl_call obs (SET_CID_DEFAULT cid quiet).
Proof.
  unfold SET_CID_DEFAULT. keeps_auto;
    first [apply ctrl_query_control | apply ctrl_set_control].
Qed.

Lemma ctrl_CONTROL_MANUAL_CID (cid : Z) (field : controls_t -> control_t) :
  keeps ctrl_call obs (CONTROL_MANUAL_CID cid field).
Proof.
  unfold CONTROL_MANUAL_CID. keeps_auto;
    first [apply ctrl_SET_CID_VALUE | apply ctrl_SET_CID_DEFAULT].
Qed.

Lemma ctrl_CONTROL_AUTO_CID (cid_auto cid_manual : Z)
    (field : controls_t -> control_t) :
  keeps ctrl_call obs (CONTROL_AUTO_CID cid_auto cid_manual field).
Proof.
  unfold CONTROL_AUTO_CID. keeps_auto;
    first [apply ctrl_SET_CID_VALUE | apply ctrl_SET_CID_DEFAULT].
Qed.

End ControlCalls.

(** X13.  The controls step talks to the device about controls only: whenever
    it returns, every call it made is a [VIDIOC_QUERYCTRL] or a
    [VIDIOC_S_CTRL], and the device structure is what it was. *)
Theorem apply_controls_only_controls (w w' : world K) :
  _device_apply_controls w = Some (tt, w') ->
  exists new,
    w_calls w' = new ++ w_calls w /\
    forallb ctrl_call new = true /\
    w_dev w' = w_dev w.
Proof.
  revert w w'.
  assert (Hk : keeps ctrl_call (fun d => d) _device_apply_controls).
  { unfold _device_apply_controls. keeps_auto;
      first [apply ctrl_CONTROL_MANUAL_CID | apply ctrl_CONTROL_AUTO_CID]. }
  intros w w' H. exact (Hk w tt w' H).
Qed.

(** X14.  With every control left in the mode [CTL_MODE_NONE], as
    [device_init] leaves them, the controls step makes no call at all. *)
Theorem apply_controls_none (w : world K) :
  Forall (fun field => mode (field (ctl (w_dev w))) = CTL_MODE_NONE)
    control_fields ->
  _device_apply_controls w = Some (tt, w).
Proof.
  unfold control_fields. rewrite !Forall_cons.
  intros (H1 & H2 & H3 & H4 & H5 & H6 & H7 & H8 & H9 & H10 & H11 & H12 & _).
  unfold _device_apply_controls, CONTROL_AUTO_CID, CONTROL_MANUAL_CID.
  repeat (rewrite bind_bind, bind_get_dev;
          first [rewrite H1 | rewrite H2 | rewrite H3 | rewrite H4
                | rewrite H5 | rewrite H6 | rewrite H7 | rewrite H8
                | rewrite H9 | rewrite H10 | rewrite H11 | rewrite H12];
          rewrite bind_ret).
  rewrite bind_get_dev, H12. reflexivity.
Qed.

(** *** The controls step returns

    With a driver that reports neither step 0 nor step -1, every macro
    of the controls step has a result. *)
Lemma returns_bind {A B : Type} (c : M A) (f : A -> M B) :
  returns c -> (forall a, returns (f a)) -> returns (bind c f).
Proof.
  intros Hc Hf w. destruct (Hc w) as (a & w1 & H1).
  destruct (Hf a w1) as (b & w2 & H2).
  exists b, w2. unfold bind. rewrite H1. exact H2.
Qed.

Lemma returns_ret {A : Type} (a : A) : returns (@ret K A a).
Proof. intros w. exists a, w. reflexivity. Qed.

Lemma returns_get_dev : returns (@get_dev K).
Proof. intros w. eexists _, _. reflexivity. Qed.

Lemma available_step (cid : Z) (w : world K) (query : v4l2_queryctrl) :
  sane_steps ->
  control_available (answer (queryctrl_request cid w) w) = Some query ->
  forall value, rem_defined value (Query.step query).
Proof.
  intros Hs Ha value. unfold control_available in Ha.
  destruct (answer _ w) as [q|] eqn:E; [|discriminate].
  destruct (_ =? 0); [|discriminate]. injection Ha as ->.
  destruct (Hs _ _ _ _ E) as [H0 H1]. split; [exact H0|]. tauto.
Qed.

Lemma returns_set_control (query : v4l2_queryctrl) (cid value : Z)
    (quiet : bool) (w : world K) :
  rem_defined value (Query.step query) ->
  exists a w', _device_set_control query cid value quiet w = Some (a, w').
Proof.
  intros Hd. rewrite set_control_run, (control_value_invalid_defined _ _ Hd).
  destruct (negb _); eexists _, _; reflexivity.
Qed.

Lemma returns_SET_CID_VALUE (cid value : Z) (quiet : bool) :
  sane_steps -> returns (SET_CID_VALUE cid value quiet).
Proof.
  intros Hs w. rewrite SET_CID_VALUE_run.
  destruct (control_available _) as [q|] eqn:Ha.
  - apply returns_set_control. exact (available_step cid w q Hs Ha value).
  - eexists _, _. reflexivity.
Qed.

Lemma returns_SET_CID_DEFAULT (cid : Z) (quiet : bool) :
  sane_steps -> returns (SET_CID_DEFAULT cid quiet).
Proof.
  intros Hs w. rewrite SET_CID_DEFAULT_run.
  destruct (control_available _) as [q|] eqn:Ha.
  - apply returns_set_control. exact (available_step cid w q Hs Ha _).
  - eexists _, _. reflexivity.
Qed.

Lemma returns_CONTROL_MANUAL_CID (cid : Z) (field : controls_t -> control_t) :
  sane_steps -> returns (CONTROL_MANUAL_CID cid field).
Proof.
  intros Hs. unfold CONTROL_MANUAL_CID.
  apply returns_bind; [apply returns_get_dev|]. intros d.
  destruct (mode _);
    first [apply returns_ret | apply returns_SET_CID_VALUE, Hs
          | apply returns_SET_CID_DEFAULT, Hs].
Qed.

Lemma returns_CONTROL_AUTO_CID (cid_auto cid_manual : Z)
    (field : controls_t -> control_t) :
  sane_steps -> returns (CONTROL_AUTO_CID cid_auto cid_manual field).
Proof.
  intros Hs. unfold CONTROL_AUTO_CID.
  apply returns_bind; [apply returns_get_dev|]. intros d.
  destruct (mode _);
    repeat first [ apply returns_ret
                 | apply returns_SET_CID_VALUE, Hs
                 | apply returns_SET_CID_DEFAULT, Hs
                 | apply returns_bind; [|intros ?] ].
Qed.

(** X15.  With a driver that reports neither step 0 nor step -1 for any
    control, the controls step has a result from every state, whatever
    controls are configured and whatever else the driver answers. *)
Theorem apply_controls_returns (w : world K) :
  sane_steps ->
  exists w', _device_apply_controls w = Some (tt, w').
Proof.
  intros Hs.
  assert (Hr : returns _device_apply_controls).
  { unfold _device_apply_controls.
    repeat first [ apply returns_CONTROL_MANUAL_CID, Hs
                 | apply returns_CONTROL_AUTO_CID, Hs
                 | apply returns_bind; [|intros ?] ]. }
  destruct (Hr w) as ([] & w' & H). exists w'. exact H.
Qed.

(** ** Memory: what is acquired is released *)

Lemma no_memory_quiet (log : list call) :
  forallb no_memory_call log = true ->
  mapped log = [] /\ unmapped log = [] /\ allocs log = [] /\ frees log = [].
Proof.
  induction log as [|c rest IH]; [auto|]. cbn [forallb].
  intros H. apply andb_prop in H as [Hc Hr].
  destruct (IH Hr) as (E1 & E2 & E3 & E4).
  unfold mapped, unmapped, allocs, frees in *. cbn [omap list_omap].
  rewrite E1, E2, E3, E4.
  destruct c as [R s r]. destruct s; try discriminate; auto.
Qed.

Lemma nat_index_of_nat (k : nat) : nat_index (Z.of_nat k) = Some k.
Proof. apply nat_index_Some. split; [lia|]. rewrite Nat2Z.id. reflexivity. Qed.

Lemma modify_hw_buffer_inv (index : Z) (f : hw_buffer_t -> hw_buffer_t)
    (w w' : world K) (u : unit) :
  modify_hw_buffer index f w = Some (u, w') ->
  exists b, slot w index = Some b /\ w' = put_slot index (f b) w.
Proof.
  unfold modify_hw_buffer. intros H.
  apply bind_inv in H as (b & w0 & Hb & H).
  assert (Hs : slot w index = Some b /\ w0 = w).
  { unfold hw_buffer_at in Hb. rewrite bind_get_run in Hb. unfold slot.
    destruct (Run.hw_buffers _); [|discriminate].
    destruct (nat_index index); [|discriminate].
    destruct (_ !! _); [|discriminate]. injection Hb as -> ->. auto. }
  destruct Hs as [Hs ->]. exists b. split; [exact Hs|].
  injection H as <-. rewrite <- H. reflexivity.
Qed.

Lemma slot_of_pool (w : world K) (k : nat) (bufs : list hw_buffer_t)
    (b : hw_buffer_t) :
  Run.hw_buffers (run (w_dev w)) = Some bufs ->
  slot w (Z.of_nat k) = Some b -> bufs !! k = Some b.
Proof.
  unfold slot. intros ->. rewrite nat_index_of_nat. auto.
Qed.

(** *** Filling the pool *)

Section Filling.
Context {X : Type} (acq rel : call -> option X) (key : hw_buffer_t -> X).

(** The loop over [n_buffers]: the slots below [n_buffers] grow by what
    the turns acquire, in order, whether the loop ends or fails. *)
Lemma acquires_loop (body : M Z) (iterations : nat) :
  acquires_one acq rel key body ->
  forall (k : nat) (bufs : list hw_buffer_t) (w w' : world K) (rc : Z),
    Run.hw_buffers (run (w_dev w)) = Some bufs ->
    Run.n_buffers (run (w_dev w)) = Z.of_nat k ->
    (k <= List.length bufs)%nat ->
    for_n_buffers_loop iterations body w = Some (rc, w') ->
    exists new bufs' k',
      w_calls w' = new ++ w_calls w /\
      omap rel new = [] /\
      Run.hw_buffers (run (w_dev w')) = Some bufs' /\
      Run.n_buffers (run (w_dev w')) = Z.of_nat k' /\
      (k' <= List.length bufs')%nat /\
      map key (take k' bufs') = map key (take k bufs) ++ rev (omap acq new).
Proof.
  intros Hone. induction iterations as [|m IH];
    intros k bufs w w' rc Hb Hn Hk H; cbn [for_n_buffers_loop] in H.
  - injection H as <- <-. exists [], bufs, k.
    rewrite app_nil_r. split; [reflexivity|]. split; [reflexivity|]. auto.
  - apply bind_inv in H as (r & w1 & H1 & H).
    destruct (Hone k bufs w w1 r Hb Hn H1)
      as (new1 & bufs1 & E1 & U1 & Hb1 & Hn1 & L1 & T1 & Hr).
    destruct Hr as [[-> M1] | (-> & b & Hl & M1)].
    + change (-1 <? 0) with true in H. cbv iota in H. injection H as <- <-.
      exists new1, bufs1, k. rewrite M1, T1, app_nil_r.
      repeat (split; [assumption|]). split; [lia|reflexivity].
    + change (0 <? 0) with false in H. cbv iota in H.
      rewrite bind_modify_run in H.
      apply (IH (S k) bufs1) in H; cycle 1.
      * exact Hb1.
      * cbn. rewrite Hn1. lia.
      * apply lookup_lt_Some in Hl. lia.
      * destruct H as (new2 & bufs2 & k2 & E2 & U2 & Hb2 & Hn2 & L2 & T2).
        exists (new2 ++ new1), bufs2, k2.
        change (w_calls w' = new2 ++ w_calls w1) in E2.
        split; [rewrite E2, E1, app_assoc; reflexivity|].
        rewrite !omap_app, U1, U2, rev_app_distr, M1.
        split; [reflexivity|]. split; [exact Hb2|]. split; [exact Hn2|].
        split; [exact L2|].
        rewrite T2, (take_S_r _ _ _ Hl), map_app, T1, <- app_assoc.
        reflexivity.
Qed.

(** The tail shared by the two strategies, after [VIDIOC_REQBUFS]. *)
Lemma acquires_tail (res : option Z) (body : M Z) (w w' : world K) (rc : Z) :
  acquires_one acq rel key body ->
  match res with
  | None => ret (-1)
  | Some count =>
      if count <? 1 then ret (-1)
      else
        (modify_run (Run.set_hw_buffers
                       (Some (replicate (Z.to_nat count) zero_hw_buffer)));;
         for_n_buffers count body)%prog
  end w = Some (rc, w') ->
  exists new,
    w_calls w' = new ++ w_calls w /\
    omap rel new = [] /\
    ((rc = -1 /\ omap acq new = [] /\ w_dev w' = w_dev w) \/
     (exists bufs,
        Run.hw_buffers (run (w_dev w')) = Some bufs /\
        (Z.to_nat (Run.n_buffers (run (w_dev w'))) <= List.length bufs)%nat /\
        walked key (w_dev w') = rev (omap acq new))).
Proof.
  intros Hone H.
  assert (Hfail : Some (-1, w) = Some (rc, w') ->
    exists new,
      w_calls w' = new ++ w_calls w /\
      omap rel new = [] /\
      ((rc = -1 /\ omap acq new = [] /\ w_dev w' = w_dev w) \/
       (exists bufs,
          Run.hw_buffers (run (w_dev w')) = Some bufs /\
          (Z.to_nat (Run.n_buffers (run (w_dev w'))) <= List.length bufs)%nat /\
          walked key (w_dev w') = rev (omap acq new)))).
  { intros [= <- <-]. exists []. split; [reflexivity|].
    split; [reflexivity|]. left. auto. }
  destruct res as [count|]; [|exact (Hfail H)].
  destruct (count <? 1); [exact (Hfail H)|]. clear Hfail.
  rewrite bind_modify_run in H. unfold for_n_buffers in H.
  rewrite bind_modify_run in H.
  eapply (acquires_loop _ _ Hone 0%nat
            (replicate (Z.to_nat count) zero_hw_buffer))
    in H; [| reflexivity | reflexivity | lia].
  destruct H as (new & bufs' & k' & E & U & Hb & Hn & L & T).
  exists new. split; [exact E|]. split; [exact U|].
  right. exists bufs'. split; [exact Hb|].
  rewrite Hn, Nat2Z.id. split; [exact L|].
  rewrite take_0 in T.
  unfold walked. rewrite Hb, Hn, Nat2Z.id, T. reflexivity.
Qed.

End Filling.

Lemma keeps_frame_open_io_method :
  keeps any_call frame_obs _device_open_io_method.
Proof.
  unfold _device_open_io_method, _device_open_io_method_mmap,
    _device_open_io_method_userptr.
  keeps_auto.
Qed.

(** One turn of the loop of [_device_open_io_method_mmap]. *)
Lemma mmap_turn (body : M Z) :
  body = (r <- get_run;;
          let buf_info :=
            {| Buf.index := Run.n_buffers r;
               Buf.type := V4L2_BUF_TYPE_VIDEO_CAPTURE;
               Buf.bytesused := 0; Buf.memory := V4L2_MEMORY_MMAP;
               Buf.m_offset := 0; Buf.m_userptr := NullPtr;
               Buf.length := 0 |} in
          res <- xioctl (Run.fd r) (VIDIOC_QUERYBUF buf_info);;
          match res with
          | None => ret (-1)
          | Some buf_info =>
              p <- sys (sys_mmap (Buf.length buf_info) (Run.fd r)
                          (Buf.m_offset buf_info));;
              modify_hw_buffer (Run.n_buffers r) (set_data p);;
              if is_map_failed p then ret (-1)
              else
                modify_hw_buffer (Run.n_buffers r)
                  (set_allocated (Buf.length buf_info));;
                ret 0
          end)%prog ->
  acquires_one mmap_reply munmap_reply region body.
Proof.
  intros -> k bufs w w1 r Hb Hn H. rewrite bind_get_run in H. cbv zeta in H.
  rewrite bind_xioctl, Hn in H.
  match type of H with
  | context [answer ?q w] => set (query := q) in *
  end.
  destruct (answer query w) as [info|] eqn:Hq.
  2:{ injection H as <- <-. exists [Call query None], bufs.
      unfold after. rewrite Hq. cbn [w_calls w_dev].
      split; [reflexivity|]. split; [reflexivity|]. split; [exact Hb|].
      split; [exact Hn|]. split; [reflexivity|]. split; [reflexivity|].
      left. auto. }
  rewrite bind_sys in H.
  match type of H with
  | context [answer ?m (after query w)] => set (map_call := m) in *
  end.
  set (p := answer map_call (after query w)) in *.
  set (wm := after map_call (after query w)) in *.
  assert (Ewm : w_calls wm = [Call map_call p; Call query (Some info)] ++ w_calls w).
  { unfold wm, after. cbn [w_calls]. fold p. rewrite Hq. reflexivity. }
  apply bind_inv in H as ([] & w2 & Hm & H).
  apply modify_hw_buffer_inv in Hm as (b & Hs & ->).
  apply (slot_of_pool wm k bufs b Hb) in Hs.
  assert (Hlt : (k < List.length bufs)%nat) by (apply lookup_lt_Some in Hs; exact Hs).
  destruct (is_map_failed p) eqn:Hp.
  - injection H as <- <-.
    exists [Call map_call p; Call query (Some info)], (<[k := set_data p b]> bufs).
    split; [exact Ewm|]. split; [reflexivity|].
    split; [cbn; rewrite Hb, Nat2Z.id; reflexivity|].
    split; [exact Hn|]. split; [apply length_insert|].
    split; [apply take_insert_ge; lia|].
    left. split; [reflexivity|]. cbn. rewrite Hp. reflexivity.
  - apply bind_inv in H as ([] & w3 & Hm2 & H).
    apply modify_hw_buffer_inv in Hm2 as (b2 & Hs2 & ->).
    injection H as <- <-.
    assert (Hb2 : b2 = set_data p b).
    { unfold slot, put_slot in Hs2. cbn in Hs2.
      rewrite Hb, nat_index_of_nat, Nat2Z.id in Hs2. cbn in Hs2.
      rewrite list_lookup_insert_eq in Hs2 by exact Hlt.
      injection Hs2 as <-. reflexivity. }
    subst b2.
    exists [Call map_call p; Call query (Some info)],
      (<[k := set_allocated (Buf.length info) (set_data p b)]> bufs).
    split; [exact Ewm|]. split; [reflexivity|].
    split; [cbn; rewrite Hb, Nat2Z.id; cbn; rewrite list_insert_insert_eq;
            reflexivity|].
    split; [exact Hn|]. split; [apply length_insert|].
    split; [apply take_insert_ge; lia|].
    right. split; [reflexivity|]. eexists. split.
    + apply list_lookup_insert_eq. exact Hlt.
    + cbn. rewrite Hp. reflexivity.
Qed.

(** One turn of the loop of [_device_open_io_method_userptr]: when it
    returns, the block was allocated and the slot holds it. *)
Lemma userptr_turn (body : M Z) (page_size buf_size : Z) :
  body = (r <- get_run;;
          p <- sys (sys_aligned_alloc page_size buf_size);;
          if is_null p then undefined
          else
            modify_hw_buffer (Run.n_buffers r) (set_data p);;
            modify_hw_buffer (Run.n_buffers r) (set_allocated buf_size);;
            ret 0)%prog ->
  acquires_one alloc_reply free_reply data body.
Proof.
  intros -> k bufs w w1 r Hb Hn H. rewrite bind_get_run, bind_sys, Hn in H.
  set (alloc := sys_aligned_alloc page_size buf_size) in *.
  set (p := answer alloc w) in *.
  destruct (is_null p); [discriminate|].
  apply bind_inv in H as ([] & w2 & Hm & H).
  apply modify_hw_buffer_inv in Hm as (b & Hs & ->).
  apply (slot_of_pool (after alloc w) k bufs b Hb) in Hs.
  assert (Hlt : (k < List.length bufs)%nat) by (apply lookup_lt_Some in Hs; exact Hs).
  apply bind_inv in H as ([] & w3 & Hm2 & H).
  apply modify_hw_buffer_inv in Hm2 as (b2 & Hs2 & ->).
  injection H as <- <-.
  assert (Hb2 : b2 = set_data p b).
  { unfold slot, put_slot in Hs2. cbn in Hs2.
    rewrite Hb, nat_index_of_nat, Nat2Z.id in Hs2. cbn in Hs2.
    rewrite list_lookup_insert_eq in Hs2 by exact Hlt.
    injection Hs2 as <-. reflexivity. }
  subst b2.
  exists [Call alloc p], (<[k := set_allocated buf_size (set_data p b)]> bufs).
  split; [reflexivity|]. split; [reflexivity|].
  split; [cbn; rewrite Hb, Nat2Z.id; cbn; rewrite list_insert_insert_eq;
          reflexivity|].
  split; [exact Hn|]. split; [apply length_insert|].
  split; [apply take_insert_ge; lia|].
  right. split; [reflexivity|]. eexists. split.
  - apply list_lookup_insert_eq. exact Hlt.
  - reflexivity.
Qed.

(** The buffer step by memory mapping and by user pointers. *)
Lemma mmap_step :
  step_acquires mmap_reply munmap_reply region V4L2_MEMORY_MMAP.
Proof.
  intros w w' rc Hio H.
  pose proof (keeps_frame_open_io_method _ _ _ H) as (_ & _ & _ & Hf).
  unfold _device_open_io_method in H.
  rewrite bind_get_dev, Hio, Z.eqb_refl in H.
  unfold _device_open_io_method_mmap in H.
  rewrite bind_get_dev, bind_xioctl in H.
  match type of H with
  | context [answer ?q w] => set (request := q) in *
  end.
  apply (acquires_tail mmap_reply munmap_reply region) in H;
    [|exact (mmap_turn _ eq_refl)].
  destruct H as (new & E & U & Hcase).
  exists (new ++ [Call request (answer request w)]).
  split; [rewrite E, <- app_assoc; reflexivity|].
  rewrite !omap_app, U.
  change (omap mmap_reply [Call request (answer request w)])
    with (@nil (data_ptr * Z)).
  rewrite (app_nil_r (omap mmap_reply new)).
  split; [reflexivity|]. split; [exact Hf|].
  destruct Hcase as [(-> & M & D) | Hkept]; [|right; exact Hkept].
  left. rewrite D. auto.
Qed.

Lemma userptr_step :
  step_acquires alloc_reply free_reply data V4L2_MEMORY_USERPTR.
Proof.
  intros w w' rc Hio H.
  pose proof (keeps_frame_open_io_method _ _ _ H) as (_ & _ & _ & Hf).
  unfold _device_open_io_method in H.
  rewrite bind_get_dev, Hio in H.
  change (V4L2_MEMORY_USERPTR =? V4L2_MEMORY_MMAP) with false in H.
  rewrite Z.eqb_refl in H. cbv iota in H.
  unfold _device_open_io_method_userptr in H.
  rewrite bind_get_dev, bind_sys in H. cbv zeta in H.
  rewrite bind_xioctl in H.
  set (w0 := after sys_getpagesize w) in *.
  match type of H with
  | context [answer ?q w0] => set (request := q) in *
  end.
  apply (acquires_tail alloc_reply free_reply data) in H;
    [|exact (userptr_turn _ _ _ eq_refl)].
  destruct H as (new & E & U & Hcase).
  exists (new ++ [Call request (answer request w0);
                  Call sys_getpagesize (answer sys_getpagesize w)]).
  split; [rewrite E, <- app_assoc; reflexivity|].
  rewrite !omap_app, U.
  change (omap alloc_reply [Call request (answer request w0);
                            Call sys_getpagesize (answer sys_getpagesize w)])
    with (@nil data_ptr).
  rewrite (app_nil_r (omap alloc_reply new)).
  split; [reflexivity|]. split; [exact Hf|].
  destruct Hcase as [(-> & M & D) | Hkept]; [|right; exact Hkept].
  left. rewrite D. auto.
Qed.

(** *** Closing *)

Lemma seqZ_from_zero (n : Z) :
  seqZ 0 n = seqZ (Z.of_nat 0) (Z.of_nat (Z.to_nat n)).
Proof.
  destruct (Z.le_gt_cases 0 n) as [H|H].
  - rewrite Z2Nat.id by exact H. reflexivity.
  - rewrite (seqZ_nil 0 n) by lia.
    replace (Z.to_nat n) with 0%nat by lia. reflexivity.
Qed.

Lemma seqZ_next (s m : nat) :
  seqZ (Z.of_nat s) (Z.of_nat (S m)) =
  Z.of_nat s :: seqZ (Z.of_nat (S s)) (Z.of_nat m).
Proof.
  rewrite seqZ_cons by lia. f_equal. f_equal; lia.
Qed.

Lemma destroy_pictures_loop (pics : list (option picture_t)) (m : nat) :
  forall (s : nat) (w : world K),
    Run.pictures (run (w_dev w)) = Some pics ->
    (s + m <= List.length pics)%nat ->
    for_each (seqZ (Z.of_nat s) (Z.of_nat m))
      (fun index => picture_ptr_at index;; ret 0)%prog w = Some (0, w).
Proof.
  induction m as [|m IH]; intros s w Hp Hlen; [reflexivity|].
  rewrite seqZ_next. cbn [for_each].
  destruct (lookup_lt_is_Some_2 pics s ltac:(lia)) as [p Hl].
  assert (Hat : picture_ptr_at (Z.of_nat s) w = Some (p, w)).
  { unfold picture_ptr_at. rewrite bind_get_run, Hp, nat_index_of_nat, Hl.
    reflexivity. }
  rewrite bind_bind. unfold bind at 1. rewrite Hat. rewrite bind_ret.
  change (0 <? 0) with false. cbv iota. apply IH; [exact Hp|lia].
Qed.

Lemma filter_region_cons (b : hw_buffer_t) (rest : list (data_ptr * Z)) :
  rev (List.filter unmappable (region b :: rest)) =
  rev (List.filter unmappable rest) ++
  (if (allocated b >? 0) && negb (is_map_failed (data b))
   then [region b] else []).
Proof.
  cbn [List.filter]. unfold unmappable at 1. cbn [region fst snd].
  destruct ((allocated b >? 0) && negb (is_map_failed (data b)));
    [reflexivity|]. rewrite app_nil_r. reflexivity.
Qed.

Lemma filter_data_cons (b : hw_buffer_t) (rest : list data_ptr) :
  rev (List.filter nonnull (data b :: rest)) =
  rev (List.filter nonnull rest) ++
  (if negb (is_null (data b)) then [data b] else []).
Proof.
  cbn [List.filter]. unfold nonnull at 1.
  destruct (negb (is_null (data b))); [reflexivity|].
  rewrite app_nil_r. reflexivity.
Qed.

(** What the loop of [device_close] over the slots releases. *)
Lemma release_slots_loop (body : Z -> M Z) (bufs : list hw_buffer_t) (m : nat) :
  body = (fun index =>
    d <- get_dev;;
    b <- hw_buffer_at index;;
    (if io_method d =? V4L2_MEMORY_MMAP then
       if (allocated b >? 0) && negb (is_map_failed (data b)) then
         sys (sys_munmap (data b) (allocated b));; ret tt
       else ret tt
     else
       if negb (is_null (data b)) then sys (sys_free (data b))
       else ret tt);;
    ret 0)%prog ->
  forall (s : nat) (w : world K),
    Run.hw_buffers (run (w_dev w)) = Some bufs ->
    (s + m <= List.length bufs)%nat ->
    exists w' new,
      for_each (seqZ (Z.of_nat s) (Z.of_nat m)) body w = Some (0, w') /\
      w_dev w' = w_dev w /\
      w_calls w' = new ++ w_calls w /\
      mapped new = [] /\ allocs new = [] /\
      unmapped new =
        (if io_method (w_dev w) =? V4L2_MEMORY_MMAP
         then rev (List.filter unmappable (map region (take m (drop s bufs))))
         else []) /\
      frees new =
        (if io_method (w_dev w) =? V4L2_MEMORY_MMAP
         then []
         else rev (List.filter nonnull (map data (take m (drop s bufs))))).
Proof.
  intros ->. induction m as [|m IH]; intros s w Hb Hlen.
  - exists w, []. cbn. destruct (_ =? _); auto 10.
  - rewrite seqZ_next. cbn [for_each].
    destruct (lookup_lt_is_Some_2 bufs s ltac:(lia)) as [b Hl].
    assert (Hat : hw_buffer_at (Z.of_nat s) w = Some (b, w)).
    { unfold hw_buffer_at. rewrite bind_get_run, Hb, nat_index_of_nat, Hl.
      reflexivity. }
    rewrite bind_bind, bind_get_dev, bind_bind. unfold bind at 1.
    rewrite Hat. cbv beta iota. rewrite bind_bind.
    rewrite (drop_S _ _ _ Hl). cbn [take map].
    rewrite filter_region_cons, filter_data_cons.
    assert (Hturn : exists wb newb,
      ((if io_method (w_dev w) =? V4L2_MEMORY_MMAP then
          if (allocated b >? 0) && negb (is_map_failed (data b)) then
            sys (sys_munmap (data b) (allocated b));; ret tt
          else ret tt
        else
          if negb (is_null (data b)) then sys (sys_free (data b))
          else ret tt)%prog : M unit) w = Some (tt, wb) /\
      w_dev wb = w_dev w /\ w_calls wb = newb ++ w_calls w /\
      mapped newb = [] /\ allocs newb = [] /\
      unmapped newb =
        (if io_method (w_dev w) =? V4L2_MEMORY_MMAP
         then (if (allocated b >? 0) && negb (is_map_failed (data b))
               then [region b] else [])
         else []) /\
      frees newb =
        (if io_method (w_dev w) =? V4L2_MEMORY_MMAP
         then []
         else (if negb (is_null (data b)) then [data b] else []))).
    { destruct (io_method (w_dev w) =? V4L2_MEMORY_MMAP).
      - destruct ((allocated b >? 0) && negb (is_map_failed (data b))).
        + rewrite bind_sys. eexists _, [_].
          split; [reflexivity|]. split; [reflexivity|].
          split; [reflexivity|]. repeat split.
        + exists w, []. auto 10.
      - destruct (negb (is_null (data b))).
        + unfold sys. destruct (kernel_step _ _ _) as [[] k'].
          eexists _, [_]. split; [reflexivity|]. split; [reflexivity|].
          split; [reflexivity|]. repeat split.
        + exists w, []. auto 10. }
    destruct Hturn as (wb & newb & Hrun & Hd & Hc & Hm & Ha & Hu & Hf).
    unfold bind at 1. rewrite Hrun. rewrite bind_ret.
    change (0 <? 0) with false. cbv iota.
    destruct (IH (S s) wb)
      as (w' & new & Hloop & Hd' & Hc' & Hm' & Ha' & Hu' & Hf');
      [rewrite Hd; exact Hb|lia|].
    exists w', (new ++ newb). split; [exact Hloop|].
    split; [congruence|].
    split; [rewrite Hc', Hc, app_assoc; reflexivity|].
    unfold mapped, unmapped, allocs, frees in *.
    rewrite !omap_app, Hm, Hm', Ha, Ha', Hu, Hu', Hf, Hf', Hd.
    split; [reflexivity|]. split; [reflexivity|].
    destruct (io_method (w_dev w) =? V4L2_MEMORY_MMAP); split; reflexivity.
Qed.

(** [device_close] on arrays that reach as far as [n_buffers]: it
    returns, acquires nothing, and releases the slots below [n_buffers]
    that pass its test, in the order of the slots: by memory mapping it
    unmaps them, and otherwise it frees them. *)
Lemma device_close_run (w : world K) :
  closable (w_dev w) ->
  exists w' new,
    device_close w = Some (tt, w') /\
    w_calls w' = new ++ w_calls w /\
    mapped new = [] /\ allocs new = [] /\
    unmapped new =
      (if io_method (w_dev w) =? V4L2_MEMORY_MMAP
       then rev (List.filter unmappable (held (w_dev w)))
       else []) /\
    frees new =
      (if io_method (w_dev w) =? V4L2_MEMORY_MMAP
       then []
       else rev (List.filter nonnull (owned (w_dev w)))).
Proof.
  intros [Hp Hb]. unfold device_close.
  rewrite bind_modify_run, bind_get_run.
  set (w1 := with_run (Run.set_n_workers 0 (run (w_dev w))) w).
  change (Run.pictures (run (w_dev w1))) with (Run.pictures (run (w_dev w))).
  change (Run.n_buffers (run (w_dev w1))) with (Run.n_buffers (run (w_dev w))).
  assert (P2 : exists w2,
    (match Run.pictures (run (w_dev w)) with
     | Some _ =>
         for_index (Run.n_buffers (run (w_dev w)))
           (fun index => picture_ptr_at index;; ret 0);;
         modify_run (Run.set_pictures None)
     | None => ret tt
     end)%prog w1 = Some (tt, w2) /\
    w_calls w2 = w_calls w /\
    slots_obs (w_dev w2) = slots_obs (w_dev w)).
  { destruct (Run.pictures (run (w_dev w))) as [pics|] eqn:Epics.
    - unfold for_index. rewrite seqZ_from_zero. unfold bind at 1.
      rewrite (destroy_pictures_loop pics _ 0 w1 Epics) by (cbn; lia).
      eexists. split; [reflexivity|]. auto.
    - exists w1. auto. }
  destruct P2 as (w2 & R2 & C2 & O2).
  unfold bind at 1. rewrite R2. rewrite bind_get_run.
  assert (Hbufs : Run.hw_buffers (run (w_dev w2)) = Run.hw_buffers (run (w_dev w)))
    by (injection O2; auto).
  assert (Hn : Run.n_buffers (run (w_dev w2)) = Run.n_buffers (run (w_dev w)))
    by (injection O2; auto).
  assert (Hio : io_method (w_dev w2) = io_method (w_dev w))
    by (injection O2; auto).
  assert (Hfd : Run.fd (run (w_dev w2)) = Run.fd (run (w_dev w)))
    by (injection O2; auto).
  assert (P3 : exists w3 new,
    (match Run.hw_buffers (run (w_dev w2)) with
     | Some _ =>
         for_index (Run.n_buffers (run (w_dev w2)))
           (fun index =>
              d <- get_dev;;
              b <- hw_buffer_at index;;
              (if io_method d =? V4L2_MEMORY_MMAP then
                 if (allocated b >? 0) && negb (is_map_failed (data b)) then
                   sys (sys_munmap (data b) (allocated b));; ret tt
                 else ret tt
               else
                 if negb (is_null (data b)) then sys (sys_free (data b))
                 else ret tt);;
              ret 0);;
         modify_run (Run.set_n_buffers 0);;
         modify_run (Run.set_hw_buffers None)
     | None => ret tt
     end)%prog w2 = Some (tt, w3) /\
    w_calls w3 = new ++ w_calls w /\
    Run.fd (run (w_dev w3)) = Run.fd (run (w_dev w)) /\
    mapped new = [] /\ allocs new = [] /\
    unmapped new =
      (if io_method (w_dev w) =? V4L2_MEMORY_MMAP
       then rev (List.filter unmappable (held (w_dev w)))
       else []) /\
    frees new =
      (if io_method (w_dev w) =? V4L2_MEMORY_MMAP
       then []
       else rev (List.filter nonnull (owned (w_dev w))))).
  { unfold held, owned, walked. rewrite Hbufs, Hn.
    destruct (Run.hw_buffers (run (w_dev w))) as [bufs|] eqn:Ebufs.
    - unfold for_index. rewrite seqZ_from_zero.
      destruct (release_slots_loop _ bufs (Z.to_nat (Run.n_buffers (run (w_dev w))))
                  eq_refl 0 w2)
        as (wl & new & Rl & Dl & Cl & Ml & Al & Ul & Fl);
        [exact Hbufs|cbn; lia|].
      unfold bind at 1. rewrite Rl. cbv beta iota. rewrite bind_modify_run.
      eexists _, new. split; [reflexivity|].
      split; [cbn; rewrite Cl, C2; reflexivity|].
      split; [cbn; rewrite Dl; exact Hfd|].
      split; [exact Ml|]. split; [exact Al|].
      rewrite Ul, Fl, Hio, drop_0. split; reflexivity.
    - exists w2, []. split; [reflexivity|]. split; [exact C2|].
      split; [exact Hfd|]. split; [reflexivity|]. split; [reflexivity|].
      destruct (_ =? _); split; reflexivity. }
  destruct P3 as (w3 & new & R3 & C3 & F3 & M3 & A3 & U3 & Fr3).
  unfold bind at 1. rewrite R3. rewrite bind_get_run.
  destruct (Run.fd (run (w_dev w3)) >=? 0).
  - rewrite bind_sys. eexists _, (_ :: new).
    split; [reflexivity|]. split; [cbn; rewrite C3; reflexivity|].
    split; [exact M3|]. split; [exact A3|]. split; [exact U3|exact Fr3].
  - exists w3, new. auto 10.
Qed.

Lemma mmap_close :
  close_releases mmap_reply munmap_reply region unmappable V4L2_MEMORY_MMAP.
Proof.
  intros w Hc Hio.
  destruct (device_close_run w Hc) as (w' & new & R & E & M & _ & U & _).
  exists w', new. rewrite Hio, Z.eqb_refl in U. auto.
Qed.

Lemma userptr_close :
  close_releases alloc_reply free_reply data nonnull V4L2_MEMORY_USERPTR.
Proof.
  intros w Hc Hio.
  destruct (device_close_run w Hc) as (w' & new & R & E & _ & A & _ & F).
  exists w', new. rewrite Hio in F.
  change (V4L2_MEMORY_USERPTR =? V4L2_MEMORY_MMAP) with false in F. auto.
Qed.

Lemma open_session_closable (w : world K) :
  open_session w -> closable (w_dev w).
Proof.
  intros Hs. unfold closable.
  destruct (Z.le_gt_cases (Run.n_buffers (run (w_dev w))) 0) as [Hz|Hpos].
  { assert (E : Z.to_nat (Run.n_buffers (run (w_dev w))) = 0%nat) by lia.
    rewrite E.
    split; [destruct (Run.pictures _)|destruct (Run.hw_buffers _)];
      first [exact I | apply Nat.le_0_l]. }
  destruct (Hs (Run.n_buffers (run (w_dev w)) - 1) ltac:(lia)) as [[b Hb] [p Hq]].
  unfold slot in Hb. unfold picture in Hq.
  assert (Hi : nat_index (Run.n_buffers (run (w_dev w)) - 1)
               = Some (Z.to_nat (Run.n_buffers (run (w_dev w)) - 1))).
  { apply nat_index_Some. split; [lia|reflexivity]. }
  rewrite Hi in Hb, Hq. split.
  - destruct (Run.pictures (run (w_dev w))) as [pics|]; [|exact I].
    destruct (pics !! _) eqn:El; [|discriminate].
    apply lookup_lt_Some in El. lia.
  - destruct (Run.hw_buffers (run (w_dev w))) as [bufs|]; [|exact I].
    apply lookup_lt_Some in Hb. lia.
Qed.

(** *** The open sequence and the pool *)

Lemma quiet_apply_resolution (width height : Z) :
  keeps no_memory_call pool_obs (_device_apply_resolution width height).
Proof. unfold _device_apply_resolution. keeps_auto. Qed.

Lemma quiet_open_check_cap : keeps no_memory_call pool_obs _device_open_check_cap.
Proof. unfold _device_open_check_cap. keeps_auto. Qed.

Lemma quiet_apply_dv_timings :
  keeps no_memory_call pool_obs _device_apply_dv_timings.
Proof.
  unfold _device_apply_dv_timings. keeps_auto.
  apply quiet_apply_resolution.
Qed.

Lemma quiet_open_dv_timings :
  keeps no_memory_call pool_obs _device_open_dv_timings.
Proof.
  unfold _device_open_dv_timings. keeps_auto;
    first [apply quiet_apply_resolution | apply quiet_apply_dv_timings].
Qed.

Lemma quiet_open_format : keeps no_memory_call pool_obs _device_open_format.
Proof.
  unfold _device_open_format. keeps_auto. apply quiet_apply_resolution.
Qed.

Lemma quiet_open_hw_fps : keeps no_memory_call pool_obs _device_open_hw_fps.
Proof. unfold _device_open_hw_fps. keeps_auto. Qed.

Lemma quiet_open_queue_buffers :
  keeps no_memory_call pool_obs _device_open_queue_buffers.
Proof. unfold _device_open_queue_buffers. keeps_auto. Qed.

Lemma quiet_open_alloc_picbufs :
  keeps no_memory_call slots_obs _device_open_alloc_picbufs.
Proof. unfold _device_open_alloc_picbufs. keeps_auto. Qed.

Lemma quiet_apply_controls :
  keeps no_memory_call slots_obs _device_apply_controls.
Proof.
  apply (keeps_weaken ctrl_call no_memory_call (fun d => d) slots_obs).
  - intros [R s r] H. destruct s; try discriminate. reflexivity.
  - intros d d' ->. reflexivity.
  - unfold _device_apply_controls. keeps_auto;
      first [apply ctrl_CONTROL_MANUAL_CID | apply ctrl_CONTROL_AUTO_CID].
Qed.

Lemma reaches_refl {A : Type} (P : call -> bool) (obs : device_t -> A)
    (w : world K) :
  reaches P obs w w.
Proof. exists []. auto. Qed.

Lemma pool_obs_slots (d d' : device_t) :
  pool_obs d' = pool_obs d -> slots_obs d' = slots_obs d.
Proof. unfold pool_obs, slots_obs. intros [= -> -> -> _ ->]. reflexivity. Qed.

(** Where a [device_open] went: it failed before the buffer step, in
    it, or while queueing, each time leaving through [device_close]; or
    it succeeded. *)
Lemma device_open_cases (w w' : world K) (rc : Z) :
  device_open w = Some (rc, w') ->
  let opening := sys_open (path (w_dev w)) (Z.lor O_RDWR O_NONBLOCK) in
  let w1 := with_run (Run.set_fd (answer opening w) (run (w_dev w)))
              (after opening w) in
  exists w5,
    reaches no_memory_call pool_obs w1 w5 /\
    ((rc = -1 /\ device_open_error w5 = Some (-1, w')) \/
     exists rc6 w6,
       _device_open_io_method w5 = Some (rc6, w6) /\
       ((rc = -1 /\ device_open_error w6 = Some (-1, w')) \/
        ((rc6 <? 0) = false /\
         exists w7,
           reaches no_memory_call pool_obs w6 w7 /\
           ((rc = -1 /\ device_open_error w7 = Some (-1, w')) \/
            (rc = 0 /\ reaches no_memory_call slots_obs w7 w'))))).
Proof.
  intros H opening w1.
  assert (Herr : forall w0 r, device_open_error w0 = Some (r, w') ->
                   r = -1 /\ device_open_error w0 = Some (-1, w')).
  { intros w0 r He. pose proof (device_open_error_run _ _ _ He) as [-> _].
    auto. }
  unfold device_open in H.
  rewrite bind_get_dev, bind_sys, bind_modify_run in H.
  fold opening in H. fold w1 in H.
  destruct (answer opening w <? 0).
  { exists w1. split; [apply reaches_refl|]. left. exact (Herr _ _ H). }
  apply bind_inv in H as (rc2 & w2 & H2 & H).
  apply (keeps_reaches _ _ _ _ _ _ quiet_open_check_cap) in H2.
  destruct (rc2 <? 0).
  { exists w2. split; [exact H2|]. left. exact (Herr _ _ H). }
  apply bind_inv in H as (rc3 & w3 & H3 & H).
  apply (keeps_reaches _ _ _ _ _ _ quiet_open_dv_timings) in H3.
  pose proof (reaches_trans _ _ _ _ _ H2 H3) as R3.
  destruct (rc3 <? 0).
  { exists w3. split; [exact R3|]. left. exact (Herr _ _ H). }
  apply bind_inv in H as (rc4 & w4 & H4 & H).
  apply (keeps_reaches _ _ _ _ _ _ quiet_open_format) in H4.
  pose proof (reaches_trans _ _ _ _ _ R3 H4) as R4.
  destruct (rc4 <? 0).
  { exists w4. split; [exact R4|]. left. exact (Herr _ _ H). }
  apply bind_inv in H as ([] & w5 & H5 & H).
  apply (keeps_reaches _ _ _ _ _ _ quiet_open_hw_fps) in H5.
  pose proof (reaches_trans _ _ _ _ _ R4 H5) as R5.
  apply bind_inv in H as (rc6 & w6 & H6 & H).
  exists w5. split; [exact R5|]. right. exists rc6, w6. split; [exact H6|].
  destruct (rc6 <? 0); [left; exact (Herr _ _ H)|].
  right. split; [reflexivity|].
  apply bind_inv in H as (rc7 & w7 & H7 & H).
  apply (keeps_reaches _ _ _ _ _ _ quiet_open_queue_buffers) in H7.
  exists w7. split; [exact H7|].
  destruct (rc7 <? 0); [left; exact (Herr _ _ H)|].
  right.
  apply bind_inv in H as ([] & w8 & H8 & H).
  apply (keeps_reaches _ _ _ _ _ _ quiet_open_alloc_picbufs) in H8.
  apply bind_inv in H as ([] & w9 & H9 & H).
  apply (keeps_reaches _ _ _ _ _ _ quiet_apply_controls) in H9.
  rewrite bind_get_dev, bind_modify_run in H. injection H as <- <-.
  split; [reflexivity|].
  apply (reaches_trans _ _ _ _ _ (reaches_trans _ _ _ _ _ H8 H9)).
  exists []. auto.
Qed.

Lemma walked_slots {X : Type} (key : hw_buffer_t -> X) (d d' : device_t) :
  slots_obs d' = slots_obs d -> walked key d' = walked key d.
Proof. unfold slots_obs, walked. intros [= -> -> _ _]. reflexivity. Qed.

Lemma closable_pool (d d' : device_t) :
  pool_obs d' = pool_obs d -> closable d -> closable d'.
Proof. unfold pool_obs, closable. intros [= -> -> _ -> _]. auto. Qed.

(** *** One strategy from open to close

    A buffer strategy [method] whose buffer step acquires and whose
    [device_close] releases, the other steps being silent about what it
    acquires and releases. *)
Section Strategy.
Context {X : Type} (acq rel : call -> option X) (key : hw_buffer_t -> X)
  (test : X -> bool) (method : Z).
Hypothesis silent :
  forall log, forallb no_memory_call log = true ->
    omap acq log = [] /\ omap rel log = [].
Hypothesis fills : step_acquires acq rel key method.
Hypothesis empties : close_releases acq rel key test method.

Lemma filter_test_rev (l : list X) :
  rev (List.filter test (rev l)) = List.filter test l.
Proof. rewrite List.filter_rev, rev_involutive. reflexivity. Qed.

(** Leaving through [device_close] with the slots holding what the log
    shows acquired: what passes the test is released. *)
Lemma error_path_releases (w0 w w' : world K) (new : list call) :
  w_calls w = new ++ w_calls w0 ->
  omap rel new = [] ->
  walked key (w_dev w) = rev (omap acq new) ->
  closable (w_dev w) ->
  io_method (w_dev w) = method ->
  device_open_error w = Some (-1, w') ->
  exists all,
    w_calls w' = all ++ w_calls w0 /\
    omap rel all = List.filter test (omap acq all).
Proof.
  intros E U Hh Hc Hio H. unfold device_open_error in H.
  destruct (empties w Hc Hio) as (wc & closed & Rc & Ec & Mc & Uc).
  unfold bind in H. rewrite Rc in H. injection H as <-.
  exists (closed ++ new). split; [rewrite Ec, E, app_assoc; reflexivity|].
  rewrite !omap_app, U, Mc, Uc, Hh.
  rewrite filter_test_rev, app_nil_r. reflexivity.
Qed.

Lemma failed_open_releases (w w' : world K) :
  io_method (w_dev w) = method ->
  Run.hw_buffers (run (w_dev w)) = None ->
  Run.pictures (run (w_dev w)) = None ->
  device_open w = Some (-1, w') ->
  exists new,
    w_calls w' = new ++ w_calls w /\
    omap rel new = List.filter test (omap acq new).
Proof.
  intros Hio Hb Hp H. apply device_open_cases in H. cbv zeta in H.
  match type of H with
  | context [reaches _ _ ?x _] => set (w1 := x) in *
  end.
  assert (S1 : forall w5, reaches no_memory_call pool_obs w1 w5 ->
            exists new5,
              w_calls w5 = new5 ++ w_calls w /\
              omap acq new5 = [] /\ omap rel new5 = [] /\
              pool_obs (w_dev w5) = pool_obs (w_dev w1)).
  { intros w5 (new & E & F & O).
    exists (new ++ [Call (sys_open (path (w_dev w)) (Z.lor O_RDWR O_NONBLOCK))
                      (answer (sys_open (path (w_dev w)) (Z.lor O_RDWR O_NONBLOCK)) w)]).
    split; [rewrite E, <- app_assoc; reflexivity|].
    assert (F' : forallb no_memory_call
                   (new ++ [Call (sys_open (path (w_dev w)) (Z.lor O_RDWR O_NONBLOCK))
                              (answer (sys_open (path (w_dev w))
                                         (Z.lor O_RDWR O_NONBLOCK)) w)]) = true).
    { rewrite forallb_app, F. reflexivity. }
    destruct (silent _ F') as [M U]. auto. }
  destruct H as (w5 & R5 & H).
  destruct (S1 w5 R5) as (new5 & E5 & M5 & U5 & O5).
  assert (P5 : Run.hw_buffers (run (w_dev w5)) = None /\
               Run.pictures (run (w_dev w5)) = None /\
               io_method (w_dev w5) = method).
  { unfold pool_obs in O5. injection O5 as -> _ -> -> _. auto. }
  destruct P5 as (Hb5 & Hp5 & Hio5).
  destruct H as [[_ H] | (rc6 & w6 & H6 & H)].
  { apply (error_path_releases w w5 w' new5 E5 U5); try assumption.
    - unfold walked. rewrite Hb5, M5. reflexivity.
    - unfold closable. rewrite Hb5, Hp5. auto. }
  apply (fills w5 w6 rc6 Hio5) in H6 as (new6 & E6 & U6 & F6 & Hcase).
  assert (P6 : Run.pictures (run (w_dev w6)) = None /\
               io_method (w_dev w6) = method).
  { unfold frame_obs in F6. injection F6 as -> -> _. auto. }
  destruct P6 as (Hp6 & Hio6).
  assert (L6 : w_calls w6 = (new6 ++ new5) ++ w_calls w /\
               omap rel (new6 ++ new5) = [] /\
               walked key (w_dev w6) = rev (omap acq (new6 ++ new5)) /\
               closable (w_dev w6)).
  { split; [rewrite E6, E5, app_assoc; reflexivity|].
    rewrite !omap_app, U6, U5, M5, (app_nil_r (omap acq new6)).
    split; [reflexivity|].
    destruct Hcase as [(_ & M6 & Hb6 & _) | (bufs & Hb6 & Hlen & Hh)].
    - unfold walked, closable. rewrite Hb6, Hb5, Hp6, M6. auto.
    - split; [exact Hh|]. unfold closable. rewrite Hb6, Hp6. auto. }
  destruct L6 as (E6' & U6' & Hh6 & Hc6).
  destruct H as [[_ H] | (_ & w7 & R7 & H)].
  { exact (error_path_releases w w6 w' _ E6' U6' Hh6 Hc6 Hio6 H). }
  destruct H as [[_ H] | [Hrc _]]; [|discriminate].
  destruct R7 as (new7 & E7 & F7 & O7).
  apply silent in F7 as [M7 U7].
  apply (error_path_releases w w7 w' (new7 ++ new6 ++ new5)).
  - rewrite E7, E6'. rewrite !app_assoc. reflexivity.
  - rewrite omap_app, U7, U6'. reflexivity.
  - rewrite omap_app, M7. cbn [app].
    rewrite (walked_slots _ _ _ (pool_obs_slots _ _ O7)). exact Hh6.
  - exact (closable_pool _ _ O7 Hc6).
  - unfold pool_obs in O7. injection O7 as _ _ -> _ _. exact Hio6.
  - exact H.
Qed.

Lemma open_pool_ledger (w w1 : world K) :
  io_method (w_dev w) = method ->
  device_open w = Some (0, w1) ->
  exists opened,
    w_calls w1 = opened ++ w_calls w /\
    omap rel opened = [] /\
    walked key (w_dev w1) = rev (omap acq opened) /\
    io_method (w_dev w1) = method.
Proof.
  intros Hio H. apply device_open_cases in H. cbv zeta in H.
  destruct H as (w5 & (new5 & E5 & F5 & O5) & H).
  assert (F5' : forallb no_memory_call
                  (new5 ++ [Call (sys_open (path (w_dev w)) (Z.lor O_RDWR O_NONBLOCK))
                              (answer (sys_open (path (w_dev w))
                                         (Z.lor O_RDWR O_NONBLOCK)) w)]) = true).
  { rewrite forallb_app, F5. reflexivity. }
  apply silent in F5' as [M5 U5].
  assert (Hio5 : io_method (w_dev w5) = method).
  { unfold pool_obs in O5. injection O5 as _ _ -> _ _. exact Hio. }
  destruct H as [[H _] | (rc6 & w6 & H6 & H)]; [discriminate|].
  destruct H as [[H _] | (Hrc & w7 & R7 & H)]; [discriminate|].
  destruct H as [[H _] | [_ R9]]; [discriminate|].
  apply (fills w5 w6 rc6 Hio5) in H6 as (new6 & E6 & U6 & F6 & Hcase).
  destruct Hcase as [(-> & _) | (bufs & Hb6 & Hlen & Hh)]; [discriminate|].
  destruct R7 as (new7 & E7 & F7 & O7).
  apply silent in F7 as [M7 U7].
  destruct R9 as (new9 & E9 & F9 & O9).
  apply silent in F9 as [M9 U9].
  exists (new9 ++ new7 ++ new6 ++ new5
          ++ [Call (sys_open (path (w_dev w)) (Z.lor O_RDWR O_NONBLOCK))
                (answer (sys_open (path (w_dev w)) (Z.lor O_RDWR O_NONBLOCK)) w)]).
  split; [rewrite E9, E7, E6, E5, <- !app_assoc; reflexivity|].
  rewrite (omap_app rel new9), (omap_app rel new7), (omap_app rel new6).
  rewrite (omap_app acq new9), (omap_app acq new7), (omap_app acq new6).
  rewrite U9, U7, U6, U5, M9, M7, M5.
  split; [reflexivity|].
  cbn [app]. rewrite (app_nil_r (omap acq new6)).
  rewrite (walked_slots _ _ _ O9), (walked_slots _ _ _ (pool_obs_slots _ _ O7)).
  split; [exact Hh|].
  unfold slots_obs in O9. injection O9 as _ _ -> _.
  unfold pool_obs in O7. injection O7 as _ _ -> _ _.
  unfold frame_obs in F6. injection F6 as -> _ _. exact Hio5.
Qed.

Lemma open_close_releases (w w1 : world K) :
  io_method (w_dev w) = method ->
  device_open w = Some (0, w1) ->
  exists w2 opened closed,
    w_calls w1 = opened ++ w_calls w /\
    omap rel opened = [] /\
    walked key (w_dev w1) = rev (omap acq opened) /\
    device_close w1 = Some (tt, w2) /\
    w_calls w2 = closed ++ w_calls w1 /\
    omap acq closed = [] /\
    omap rel closed = List.filter test (omap acq opened).
Proof.
  intros Hio H.
  pose proof (open_session_closable _ (open_establishes_session _ _ H)) as Hc.
  destruct (open_pool_ledger w w1 Hio H) as (opened & E & U & Hh & Hio1).
  destruct (empties w1 Hc Hio1) as (w2 & closed & Rc & Ec & Mc & Uc).
  exists w2, opened, closed.
  repeat (split; [assumption|]).
  rewrite Uc, Hh. apply filter_test_rev.
Qed.

End Strategy.

Lemma silent_maps (log : list call) :
  forallb no_memory_call log = true ->
  omap mmap_reply log = [] /\ omap munmap_reply log = [].
Proof. intros H. destruct (no_memory_quiet log H) as (M & U & _). auto. Qed.

Lemma silent_allocs (log : list call) :
  forallb no_memory_call log = true ->
  omap alloc_reply log = [] /\ omap free_reply log = [].
Proof. intros H. destruct (no_memory_quiet log H) as (_ & _ & A & F). auto. Qed.

(** X16.  Memory mapping from open to close leaks nothing.  After a
    successful open the slots of the pool are, in order, exactly the
    regions the open mapped, and it unmapped nothing; a [device_close]
    that follows returns, maps nothing, and unmaps every one of those
    regions that passes its test, a positive length, with the address
    and the length it was mapped with. *)
Theorem open_close_unmaps (w w1 : world K) :
  io_method (w_dev w) = V4L2_MEMORY_MMAP ->
  device_open w = Some (0, w1) ->
  exists w2 opened closed,
    w_calls w1 = opened ++ w_calls w /\
    unmapped opened = [] /\
    held (w_dev w1) = rev (mapped opened) /\
    device_close w1 = Some (tt, w2) /\
    w_calls w2 = closed ++ w_calls w1 /\
    mapped closed = [] /\
    unmapped closed = List.filter unmappable (mapped opened).
Proof.
  exact (open_close_releases mmap_reply munmap_reply region unmappable
           V4L2_MEMORY_MMAP silent_maps mmap_step mmap_close w w1).
Qed.

(** X17.  A failed open of a closed device by memory mapping leaks no
    mapping: the regions it unmapped on its way out are exactly the
    regions it had mapped that pass the test of [device_close], a
    positive length, each unmapped once with the address and the length
    it was mapped with, newest first. *)
Theorem failed_open_unmaps (w w' : world K) :
  io_method (w_dev w) = V4L2_MEMORY_MMAP ->
  Run.hw_buffers (run (w_dev w)) = None ->
  Run.pictures (run (w_dev w)) = None ->
  device_open w = Some (-1, w') ->
  exists new,
    w_calls w' = new ++ w_calls w /\
    unmapped new = List.filter unmappable (mapped new).
Proof.
  exact (failed_open_releases mmap_reply munmap_reply region unmappable
           V4L2_MEMORY_MMAP silent_maps mmap_step mmap_close w w').
Qed.

(** X18.  User pointers from open to close leak nothing.  After a successful
    open the slots of the pool hold, in order, exactly the blocks the
    open allocated, and it freed nothing; a [device_close] that follows
    returns, allocates nothing, and frees every one of those blocks that
    is not [NULL]. *)
Theorem open_close_frees (w w1 : world K) :
  io_method (w_dev w) = V4L2_MEMORY_USERPTR ->
  device_open w = Some (0, w1) ->
  exists w2 opened closed,
    w_calls w1 = opened ++ w_calls w /\
    frees opened = [] /\
    owned (w_dev w1) = rev (allocs opened) /\
    device_close w1 = Some (tt, w2) /\
    w_calls w2 = closed ++ w_calls w1 /\
    allocs closed = [] /\
    frees closed = List.filter nonnull (allocs opened).
Proof.
  exact (open_close_releases alloc_reply free_reply data nonnull
           V4L2_MEMORY_USERPTR silent_allocs userptr_step userptr_close w w1).
Qed.

(** X19.  A failed open of a closed device by user pointers leaks no block:
    the blocks it freed on its way out are exactly the blocks it had
    allocated that are not [NULL], each freed once, newest first. *)
Theorem failed_open_frees (w w' : world K) :
  io_method (w_dev w) = V4L2_MEMORY_USERPTR ->
  Run.hw_buffers (run (w_dev w)) = None ->
  Run.pictures (run (w_dev w)) = None ->
  device_open w = Some (-1, w') ->
  exists new,
    w_calls w' = new ++ w_calls w /\
    frees new = List.filter nonnull (allocs new).
Proof.
  exact (failed_open_releases alloc_reply free_reply data nonnull
           V4L2_MEMORY_USERPTR silent_allocs userptr_step userptr_close w w').
Qed.

(** X20.  Closing an open session always returns: no slot and no picture is
    looked for outside its array.  The close maps and allocates
    nothing; by memory mapping it unmaps, in the order of the slots,
    exactly the slots that pass its test, a positive length and an
    address other than [MAP_FAILED], and frees nothing; by any other
    strategy it frees every slot whose address is not [NULL], and unmaps
    nothing. *)
Theorem close_open_session (w : world K) :
  open_session w ->
  exists w' closed,
    device_close w = Some (tt, w') /\
    w_calls w' = closed ++ w_calls w /\
    mapped closed = [] /\ allocs closed = [] /\
    unmapped closed =
      (if io_method (w_dev w) =? V4L2_MEMORY_MMAP
       then rev (List.filter unmappable (held (w_dev w)))
       else []) /\
    frees closed =
      (if io_method (w_dev w) =? V4L2_MEMORY_MMAP
       then []
       else rev (List.filter nonnull (owned (w_dev w)))).
Proof.
  intros Hs. exact (device_close_run w (open_session_closable w Hs)).
Qed.

(** *** Grabbing and releasing leave the memory alone *)

Lemma map_region_insert (bufs : list hw_buffer_t) (i : nat)
    (b b' : hw_buffer_t) :
  bufs !! i = Some b -> region b' = region b ->
  map region (<[i := b']> bufs) = map region bufs.
Proof.
  revert i. induction bufs as [|x rest IH]; intros [|i] Hl Hr;
    try discriminate; cbn in *.
  - injection Hl as ->. rewrite Hr. reflexivity.
  - f_equal. exact (IH i Hl Hr).
Qed.

Lemma regions_modify_hw_buffer (index : Z) (f : hw_buffer_t -> hw_buffer_t) :
  (forall b, region (f b) = region b) ->
  keeps no_memory_call regions_obs (modify_hw_buffer index f).
Proof.
  intros Hf w u w' H. apply modify_hw_buffer_inv in H as (b & Hs & ->).
  exists []. split; [reflexivity|]. split; [reflexivity|].
  unfold regions_obs, put_slot. cbn. unfold slot in Hs.
  destruct (Run.hw_buffers (run (w_dev w))) as [bufs|]; [|discriminate].
  destruct (nat_index index) as [i|] eqn:Hi; [|discriminate].
  apply nat_index_Some in Hi as [_ ->]. cbn.
  rewrite (map_region_insert _ _ _ _ Hs (Hf b)). reflexivity.
Qed.

Lemma held_regions (d d' : device_t) :
  regions_obs d' = regions_obs d -> held d' = held d.
Proof.
  unfold regions_obs, held, walked. intros [= Hr -> _].
  destruct (Run.hw_buffers (run d')) as [bufs'|],
    (Run.hw_buffers (run d)) as [bufs|]; try discriminate; [|reflexivity].
  injection Hr as Hr. rewrite <- !List.firstn_map, Hr. reflexivity.
Qed.

Ltac keeps_regions :=
  cbv zeta;
  repeat first [ apply regions_modify_hw_buffer; intros; reflexivity
               | keeps_step ].

Lemma regions_grab_buffer : keeps no_memory_call regions_obs device_grab_buffer.
Proof.
  unfold device_grab_buffer, modify_picture, store_picture_ptr, hw_buffer_at,
    picture_ptr_at.
  keeps_regions.
Qed.

Lemma regions_release_buffer (index : Z) :
  keeps no_memory_call regions_obs (device_release_buffer index).
Proof.
  unfold device_release_buffer, hw_buffer_at. keeps_regions.
Qed.

(** X21.  Grabbing and releasing buffers leave the memory of the pool alone:
    whenever either returns, every slot has the address and the length
    it had, the pool has as many slots, and nothing was mapped,
    unmapped, allocated or freed.  So what [device_close] releases after
    any number of them is what it would have released before. *)
Theorem grab_release_keep_regions (w w' : world K) (index rc : Z) :
  device_grab_buffer w = Some (rc, w') \/
  device_release_buffer index w = Some (rc, w') ->
  regions_obs (w_dev w') = regions_obs (w_dev w) /\
  held (w_dev w') = held (w_dev w) /\
  exists new,
    w_calls w' = new ++ w_calls w /\
    mapped new = [] /\ unmapped new = [] /\ allocs new = [] /\ frees new = [].
Proof.
  intros H.
  assert (Hk : exists new, w_calls w' = new ++ w_calls w /\
                 forallb no_memory_call new = true /\
                 regions_obs (w_dev w') = regions_obs (w_dev w)).
  { destruct H as [H|H].
    - exact (regions_grab_buffer _ _ _ H).
    - exact (regions_release_buffer index _ _ _ H). }
  destruct Hk as (new & E & F & O). apply no_memory_quiet in F.
  split; [exact O|]. split; [exact (held_regions _ _ O)|].
  exists new. auto.
Qed.

(** ** The configuration is read, not written *)

Lemma config_apply_resolution (width height : Z) :
  keeps any_call config_of (_device_apply_resolution width height).
Proof. unfold _device_apply_resolution. keeps_auto. Qed.

Lemma config_open_check_cap : keeps any_call config_of _device_open_check_cap.
Proof. unfold _device_open_check_cap. keeps_auto. Qed.

Lemma config_open_format : keeps any_call config_of _device_open_format.
Proof.
  unfold _device_open_format. keeps_auto. apply config_apply_resolution.
Qed.

Lemma config_open_hw_fps : keeps any_call config_of _device_open_hw_fps.
Proof. unfold _device_open_hw_fps. keeps_auto. Qed.

Lemma config_open_io_method : keeps any_call config_of _device_open_io_method.
Proof.
  unfold _device_open_io_method, _device_open_io_method_mmap,
    _device_open_io_method_userptr.
  keeps_auto.
Qed.

Lemma config_open_queue_buffers :
  keeps any_call config_of _device_open_queue_buffers.
Proof. unfold _device_open_queue_buffers. keeps_auto. Qed.

Lemma config_open_alloc_picbufs :
  keeps any_call config_of _device_open_alloc_picbufs.
Proof. unfold _device_open_alloc_picbufs. keeps_auto. Qed.

Lemma config_apply_controls : keeps any_call config_of _device_apply_controls.
Proof.
  apply (keeps_weaken ctrl_call any_call (fun d => d) config_of).
  - reflexivity.
  - intros d d' ->. reflexivity.
  - unfold _device_apply_controls. keeps_auto;
      first [apply ctrl_CONTROL_MANUAL_CID | apply ctrl_CONTROL_AUTO_CID].
Qed.

Lemma config_close : keeps any_call config_of device_close.
Proof. unfold device_close. keeps_auto. Qed.

Lemma config_switch_capturing (enable : bool) :
  keeps any_call config_of (device_switch_capturing enable).
Proof. unfold device_switch_capturing. keeps_auto. Qed.

Lemma config_grab_buffer : keeps any_call config_of device_grab_buffer.
Proof. unfold device_grab_buffer. keeps_auto. Qed.

Lemma config_release_buffer (index : Z) :
  keeps any_call config_of (device_release_buffer index).
Proof. unfold device_release_buffer. keeps_auto. Qed.

Lemma config_consume_event : keeps any_call config_of device_consume_event.
Proof. unfold device_consume_event. keeps_auto. Qed.

(** X22.  The functions that work on an opened device read the
    configuration and never write it: whenever [device_close],
    [device_switch_capturing], [device_grab_buffer],
    [device_release_buffer] or [device_consume_event] returns, every
    field of the device structure outside [run] is what it was. *)
Theorem session_calls_keep_configuration (w w' : world K) (enable : bool)
    (index : Z) :
  device_close w = Some (tt, w') \/
  (exists rc,
     device_switch_capturing enable w = Some (rc, w') \/
     device_grab_buffer w = Some (rc, w') \/
     device_release_buffer index w = Some (rc, w') \/
     device_consume_event w = Some (rc, w')) ->
  config_of (w_dev w') = config_of (w_dev w).
Proof.
  intros [H | (rc & [H | [H | [H | H]]])].
  - apply config_close in H as (_ & _ & _ & O). exact O.
  - apply config_switch_capturing in H as (_ & _ & _ & O). exact O.
  - apply config_grab_buffer in H as (_ & _ & _ & O). exact O.
  - apply config_release_buffer in H as (_ & _ & _ & O). exact O.
  - apply config_consume_event in H as (_ & _ & _ & O). exact O.
Qed.

Lemma config_settings (d d' : device_t) :
  config_of d' = config_of d -> settings_obs d' = settings_obs d.
Proof.
  unfold config_of, settings_obs, settings_of, fixed_standard, set_run,
    set_standard.
  intros [= -> -> -> -> -> -> -> -> -> -> -> ->]. reflexivity.
Qed.

Lemma settings_apply_dv_timings :
  keeps any_call (fun d => (settings_of d, dv_timings d)) _device_apply_dv_timings.
Proof.
  unfold _device_apply_dv_timings, _device_apply_resolution. keeps_auto.
Qed.

Lemma settings_open_dv_timings :
  keeps any_call settings_obs _device_open_dv_timings.
Proof.
  intros w rc w' H. unfold _device_open_dv_timings in H.
  rewrite bind_get_dev in H.
  apply bind_inv in H as (r1 & w1 & H1 & H).
  apply config_apply_resolution in H1 as (new1 & E1 & _ & O1).
  assert (Hflag : dv_timings (w_dev w1) = dv_timings (w_dev w)).
  { apply (f_equal dv_timings) in O1. exact O1. }
  apply config_settings in O1.
  destruct (dv_timings (w_dev w)) eqn:Hdv.
  - assert (Hk : keeps any_call (fun d => (settings_of d, dv_timings d))
                   (rc <- _device_apply_dv_timings;;
                    if rc <? 0 then ret (-1)
                    else
                      r <- get_run;;
                      res <- xioctl (Run.fd r)
                               (VIDIOC_SUBSCRIBE_EVENT V4L2_EVENT_SOURCE_CHANGE);;
                      match res with
                      | None => ret (-1)
                      | Some _ => ret 0
                      end)%prog).
    { keeps_auto. apply settings_apply_dv_timings. }
    apply Hk in H as (new2 & E2 & _ & O2).
    exists (new2 ++ new1). split; [rewrite E2, E1, app_assoc; reflexivity|].
    split; [apply forallb_forall; reflexivity|].
    pose proof (f_equal fst O2) as Os. pose proof (f_equal snd O2) as Of.
    pose proof (f_equal fst O1) as Os1.
    unfold settings_obs in Os1. cbn [fst snd] in Os, Of, Os1.
    rewrite Hflag in Of.
    unfold settings_obs, fixed_standard. rewrite Of, Os, Os1, Hdv.
    reflexivity.
  - injection H as <- <-. exists new1. split; [exact E1|].
    split; [apply forallb_forall; reflexivity|]. exact O1.
Qed.

Lemma settings_device_open : keeps any_call settings_obs device_open.
Proof.
  assert (W : forall (B : Type) (c : M B),
             keeps any_call config_of c -> keeps any_call settings_obs c).
  { intros B c. apply keeps_weaken; [auto|apply config_settings]. }
  assert (Hclose : keeps any_call settings_obs device_open_error).
  { unfold device_open_error. keeps_auto. exact (W _ _ config_close). }
  unfold device_open. keeps_auto; try exact Hclose.
  - exact (W _ _ config_open_check_cap).
  - exact settings_open_dv_timings.
  - exact (W _ _ config_open_format).
  - exact (W _ _ config_open_hw_fps).
  - exact (W _ _ config_open_io_method).
  - exact (W _ _ config_open_queue_buffers).
  - exact (W _ _ config_open_alloc_picbufs).
  - exact (W _ _ config_apply_controls).
Qed.

(** X23.  [device_open], whether it returns 0 or -1, leaves the
    configuration it was given, with one exception: the standard.  Every
    other field outside [run] is what it was, and so is the standard
    when the configuration does not ask for DV timings; with DV timings
    the open may store there the standard the device detects. *)
Theorem open_keeps_configuration (w w' : world K) (rc : Z) :
  device_open w = Some (rc, w') ->
  settings_of (w_dev w') = settings_of (w_dev w) /\
  dv_timings (w_dev w') = dv_timings (w_dev w) /\
  (dv_timings (w_dev w) = false ->
   standard (w_dev w') = standard (w_dev w) /\
   config_of (w_dev w') = config_of (w_dev w)).
Proof.
  intros H. apply settings_device_open in H as (_ & _ & _ & O).
  pose proof (f_equal fst O) as Os. pose proof (f_equal snd O) as Of.
  unfold settings_obs in Os, Of. cbn [fst snd] in Os, Of.
  assert (Hdv : dv_timings (w_dev w') = dv_timings (w_dev w)).
  { exact (f_equal dv_timings Os). }
  split; [exact Os|]. split; [exact Hdv|].
  intros Hoff. unfold fixed_standard in Of. rewrite Hdv, Hoff in Of.
  injection Of as Hstd. split; [exact Hstd|].
  unfold settings_of, config_of, set_standard, set_run in *.
  injection Os as -> -> -> -> -> -> -> -> -> -> ->. rewrite Hstd.
  reflexivity.
Qed.

(** *** The state a successful open leaves *)

Lemma keeps_fd_open_io_method :
  keeps any_call (fun d => Run.fd (run d)) _device_open_io_method.
Proof.
  unfold _device_open_io_method, _device_open_io_method_mmap,
    _device_open_io_method_userptr.
  keeps_auto.
Qed.

Lemma device_open_descriptor (w w' : world K) :
  device_open w = Some (0, w') ->
  0 <= answer (sys_open (path (w_dev w)) (Z.lor O_RDWR O_NONBLOCK)) w.
Proof.
  unfold device_open. rewrite bind_get_dev, bind_sys, bind_modify_run.
  destruct (Z.ltb_spec
              (answer (sys_open (path (w_dev w)) (Z.lor O_RDWR O_NONBLOCK)) w) 0)
    as [Hneg|Hpos]; [|intros _; exact Hpos].
  intros H. destruct (device_open_error_fails _ _ H).
Qed.

(** X24.  What a successful open leaves: an open session, a pool of at least
    one buffer with a picture for every slot, a resolution that passed
    the check, and in [fd] the descriptor [open] answered, which is not
    negative. *)
Theorem open_success_state (w w' : world K) :
  device_open w = Some (0, w') ->
  open_session w' /\
  1 <= Run.n_buffers (run (w_dev w')) /\
  forbidden_resolution (Run.width (run (w_dev w')))
    (Run.height (run (w_dev w'))) = false /\
  Run.fd (run (w_dev w')) =
    answer (sys_open (path (w_dev w)) (Z.lor O_RDWR O_NONBLOCK)) w /\
  0 <= Run.fd (run (w_dev w')).
Proof.
  intros H.
  split; [exact (open_establishes_session w w' H)|].
  split.
  { destruct (device_open_success w w' H)
      as (w3 & w4 & w5 & w6 & w9 & _ & _ & _ & H6 & (_ & _ & _ & O9) & ->).
    apply open_io_method_grant in H6 as (new6 & _ & _ & _ & _ & _ & Hok & _).
    destruct (Hok eq_refl) as [_ Hn].
    assert (E : Run.n_buffers (run (w_dev w9)) = Run.n_buffers (run (w_dev w6))).
    { unfold run_obs in O9. injection O9 as _ _ _ _ _ ->. reflexivity. }
    cbn. rewrite E. exact Hn. }
  split; [exact (open_negotiated_resolution w w' H)|].
  assert (Hfd : Run.fd (run (w_dev w')) =
                answer (sys_open (path (w_dev w)) (Z.lor O_RDWR O_NONBLOCK)) w).
  { pose proof H as Hc. apply device_open_cases in Hc. cbv zeta in Hc.
    destruct Hc as (w5 & (_ & _ & _ & O5) & Hc).
    destruct Hc as [[Hc _] | (rc6 & w6 & H6 & Hc)]; [discriminate|].
    destruct Hc as [[Hc _] | (_ & w7 & (_ & _ & _ & O7) & Hc)]; [discriminate|].
    destruct Hc as [[Hc _] | [_ (_ & _ & _ & O9)]]; [discriminate|].
    apply keeps_fd_open_io_method in H6 as (_ & _ & _ & O6).
    unfold slots_obs in O9. injection O9 as _ _ _ ->.
    unfold pool_obs in O7. injection O7 as _ _ _ _ ->.
    rewrite O6.
    unfold pool_obs in O5. injection O5 as _ _ _ _ ->. reflexivity. }
  split; [exact Hfd|]. rewrite Hfd. exact (device_open_descriptor w w' H).
Qed.

End Properties.

(** * Names: parsing and printing *)

Section Names.
Context {sentinels : Sentinels}.

Lemma char_code_range (c : ascii) : 0 <= char_code c < 256.
Proof.
  unfold char_code. pose proof (N_ascii_bounded c) as H. lia.
Qed.

Lemma tolower_zero (c : Z) : 0 <= c -> (tolower c = 0 <-> c = 0).
Proof.
  unfold tolower. intros H.
  destruct ((65 <=? c) && (c <=? 90)) eqn:E; [|tauto].
  apply andb_prop in E as [E1 E2]. lia.
Qed.

Lemma casefold_cons (c : ascii) (rest : string) :
  casefold (String c rest) =
  if char_code c =? 0 then [] else tolower (char_code c) :: casefold rest.
Proof.
  unfold casefold, codes. cbn [list_ascii_of_string map c_string].
  destruct (char_code c =? 0); reflexivity.
Qed.

(** [strcasecmp] answers 0 exactly for two strings that read the same
    once in lower case. *)
Lemma strcasecmp_zero (s1 s2 : string) :
  strcasecmp s1 s2 = 0 <-> casefold s1 = casefold s2.
Proof.
  revert s2. induction s1 as [|c1 r1 IH]; intros [|c2 r2];
    cbn [strcasecmp]; rewrite ?casefold_cons.
  - tauto.
  - pose proof (char_code_range c2) as R2.
    pose proof (tolower_zero (char_code c2) (proj1 R2)) as T2.
    destruct (Z.eqb_spec (char_code c2) 0) as [E|E].
    + split; [reflexivity|]. intros _. lia.
    + split; [lia|]. discriminate.
  - pose proof (char_code_range c1) as R1.
    pose proof (tolower_zero (char_code c1) (proj1 R1)) as T1.
    destruct (Z.eqb_spec (char_code c1) 0) as [E|E].
    + split; [reflexivity|]. intros _. lia.
    + split; [lia|]. discriminate.
  - pose proof (char_code_range c1) as R1.
    pose proof (char_code_range c2) as R2.
    pose proof (tolower_zero (char_code c1) (proj1 R1)) as T1.
    pose proof (tolower_zero (char_code c2) (proj1 R2)) as T2.
    destruct (Z.eqb_spec (tolower (char_code c1)) (tolower (char_code c2)))
      as [E|E].
    + destruct (Z.eqb_spec (char_code c1) 0) as [E1|E1].
      * destruct (Z.eqb_spec (char_code c2) 0) as [E2|E2]; [tauto|].
        exfalso. apply E2, T2. rewrite <- E. apply T1, E1.
      * destruct (Z.eqb_spec (char_code c2) 0) as [E2|E2].
        { exfalso. apply E1, T1. rewrite E. apply T2, E2. }
        rewrite IH, E. split; [intros ->; reflexivity|].
        intros [= H]. exact H.
    + split; [lia|].
      destruct (Z.eqb_spec (char_code c1) 0) as [E1|E1];
        destruct (Z.eqb_spec (char_code c2) 0) as [E2|E2];
        try discriminate.
      * exfalso. apply E. rewrite E1, E2. reflexivity.
      * intros [= H _]. contradiction.
Qed.

Lemma parse_table_casefold (table : list (string * Z)) (s1 s2 : string) :
  casefold s1 = casefold s2 -> parse_table table s1 = parse_table table s2.
Proof.
  intros H. induction table as [|[name v] rest IH]; cbn [parse_table].
  - reflexivity.
  - assert (E : (strcasecmp s1 name =? 0) = (strcasecmp s2 name =? 0)).
    { destruct (Z.eqb_spec (strcasecmp s1 name) 0) as [E1|E1];
        destruct (Z.eqb_spec (strcasecmp s2 name) 0) as [E2|E2];
        try reflexivity; exfalso.
      - apply E2, strcasecmp_zero. rewrite <- H. apply strcasecmp_zero, E1.
      - apply E1, strcasecmp_zero. rewrite H. apply strcasecmp_zero, E2. }
    rewrite E, IH. reflexivity.
Qed.

(** X25.  Printing a format and parsing the name back, in any mix of upper
    and lower case: every format of the table comes back as itself,
    except [V4L2_PIX_FMT_JPEG], which shares its name with
    [V4L2_PIX_FMT_MJPEG] and comes back as that; a format outside the
    table prints as a name the parser does not know. *)
Theorem format_name_round_trip (fmt : Z) (str : string) :
  casefold str = casefold (_format_to_string_supported fmt) ->
  device_parse_format str =
  match _format_to_string_nullable fmt with
  | Some _ => if fmt =? V4L2_PIX_FMT_JPEG then V4L2_PIX_FMT_MJPEG else fmt
  | None => FORMAT_UNKNOWN
  end.
Proof.
  intros H. unfold device_parse_format.
  rewrite (parse_table_casefold _ _ _ H). clear H.
  unfold _format_to_string_supported, _format_to_string_nullable, _FORMATS.
  cbn [format_lookup].
  repeat match goal with
         | |- context [fmt =? ?c] =>
             destruct (Z.eqb_spec fmt c) as [->|?]; [reflexivity|]
         end.
  reflexivity.
Qed.

(** X26.  Printing a standard and parsing the name back, in any mix of upper
    and lower case: PAL, NTSC and SECAM come back as themselves; every
    other standard prints as the name of entry 0, which the parser skips,
    and comes back as [STANDARD_UNKNOWN]. *)
Theorem standard_name_round_trip (std : Z) (str : string) :
  casefold str = casefold (_standard_to_string std) ->
  device_parse_standard str =
  if (std =? V4L2_STD_PAL) || (std =? V4L2_STD_NTSC) || (std =? V4L2_STD_SECAM)
  then std else STANDARD_UNKNOWN.
Proof.
  intros H. unfold device_parse_standard.
  rewrite (parse_table_casefold _ _ _ H). clear H.
  unfold _standard_to_string, _STANDARDS. cbn [format_lookup tail].
  destruct (Z.eqb_spec std V4L2_STD_UNKNOWN) as [->|?]; [reflexivity|].
  destruct (Z.eqb_spec std V4L2_STD_PAL) as [->|?]; [reflexivity|].
  destruct (Z.eqb_spec std V4L2_STD_NTSC) as [->|?]; [reflexivity|].
  destruct (Z.eqb_spec std V4L2_STD_SECAM) as [->|?]; reflexivity.
Qed.

(** X27.  Printing an I/O method and parsing the name back, in any mix of
    upper and lower case: MMAP and USERPTR come back as themselves, any
    other method as [IO_METHOD_UNKNOWN]. *)
Theorem io_method_name_round_trip (io_method : Z) (str : string) :
  casefold str = casefold (_io_method_to_string_supported io_method) ->
  device_parse_io_method str =
  if (io_method =? V4L2_MEMORY_MMAP) || (io_method =? V4L2_MEMORY_USERPTR)
  then io_method else IO_METHOD_UNKNOWN.
Proof.
  intros H. unfold device_parse_io_method.
  rewrite (parse_table_casefold _ _ _ H). clear H.
  unfold _io_method_to_string_supported, _IO_METHODS. cbn [format_lookup].
  destruct (Z.eqb_spec io_method V4L2_MEMORY_MMAP) as [->|?]; [reflexivity|].
  destruct (Z.eqb_spec io_method V4L2_MEMORY_USERPTR) as [->|?]; reflexivity.
Qed.

End Names.

(** ** The fourcc printer *)

Lemma byte_of_range (c : ascii) : 0 <= byte_of c < 256.
Proof.
  unfold byte_of. pose proof (nat_ascii_bounded c) as H. lia.
Qed.

Lemma land_shiftl_low (x y n : Z) :
  0 <= n -> 0 <= x < 2 ^ n -> Z.land x (Z.shiftl y n) = 0.
Proof.
  intros Hn Hx. apply Z.bits_inj'. intros m Hm.
  rewrite Z.land_spec, Z.bits_0.
  destruct (Z.lt_ge_cases m n) as [Hlt|Hge].
  - rewrite (Z.shiftl_spec_low _ _ _ Hlt). apply andb_false_r.
  - assert (Hb : Z.testbit x m = false).
    { destruct (Z.eq_dec x 0) as [->|Hx0]; [apply Z.bits_0|].
      apply Z.bits_above_log2; [lia|].
      apply Z.log2_lt_pow2; [lia|].
      apply Z.lt_le_trans with (2 ^ n); [lia|].
      apply Z.pow_le_mono_r; lia. }
    rewrite Hb. reflexivity.
Qed.

Lemma lor_shiftl_add (x y n : Z) :
  0 <= n -> 0 <= x < 2 ^ n -> Z.lor x (Z.shiftl y n) = x + y * 2 ^ n.
Proof.
  intros Hn Hx. pose proof (Z.add_lor_land x (Z.shiftl y n)) as H.
  rewrite (land_shiftl_low x y n Hn Hx) in H.
  rewrite <- (Z.shiftl_mul_pow2 y n Hn). lia.
Qed.

Lemma v4l2_fourcc_sum (a b c d : ascii) :
  v4l2_fourcc a b c d =
  byte_of a + byte_of b * 2 ^ 8 + byte_of c * 2 ^ 16 + byte_of d * 2 ^ 24.
Proof.
  unfold v4l2_fourcc. fold (byte_of a) (byte_of b) (byte_of c) (byte_of d).
  pose proof (byte_of_range a). pose proof (byte_of_range b).
  pose proof (byte_of_range c). pose proof (byte_of_range d).
  replace (Z.shiftl (byte_of d) 24) with (Z.shiftl (Z.shiftl (byte_of d) 8) 16)
    by (rewrite Z.shiftl_shiftl by lia; reflexivity).
  rewrite <- Z.shiftl_lor, (lor_shiftl_add (byte_of c)) by lia.
  replace (Z.shiftl (byte_of c + byte_of d * 2 ^ 8) 16)
    with (Z.shiftl (Z.shiftl (byte_of c + byte_of d * 2 ^ 8) 8) 8)
    by (rewrite Z.shiftl_shiftl by lia; reflexivity).
  rewrite <- Z.shiftl_lor, (lor_shiftl_add (byte_of b)) by lia.
  rewrite (lor_shiftl_add (byte_of a)) by lia.
  lia.
Qed.

Lemma land_bit_31 (x : Z) :
  0 <= x < 2 ^ 32 ->
  Z.land x (Z.shiftl 1 31) = if x <? 2 ^ 31 then 0 else 2 ^ 31.
Proof.
  intros Hx. change (Z.shiftl 1 31) with (2 ^ 31).
  apply Z.bits_inj'. intros m Hm.
  rewrite Z.land_spec, Z.pow2_bits_eqb by lia.
  pose proof (Z.testbit_spec' x 31 ltac:(lia)) as Hb.
  destruct (Z.eqb_spec 31 m) as [<-|Hne].
  - rewrite andb_true_r.
    destruct (Z.ltb_spec x (2 ^ 31)) as [Hlt|Hge].
    + rewrite Z.bits_0. rewrite Z.div_small in Hb by lia.
      destruct (Z.testbit x 31); [discriminate|reflexivity].
    + rewrite Z.pow2_bits_eqb, Z.eqb_refl by lia.
      assert (Hq : x / 2 ^ 31 = 1) by (symmetry; apply Z.div_unique with (x - 2 ^ 31); lia).
      rewrite Hq in Hb. destruct (Z.testbit x 31); [reflexivity|discriminate].
  - rewrite andb_false_r.
    destruct (x <? 2 ^ 31); [rewrite Z.bits_0; reflexivity|].
    rewrite Z.pow2_bits_eqb by lia. symmetry. apply Z.eqb_neq. exact Hne.
Qed.

(** X28.  The fourcc printer undoes [v4l2_fourcc]: for four 7-bit characters
    and a buffer of at least 8 bytes it writes exactly those characters
    and the terminating NUL; with bit 31 set on top, the big-endian mark
    of the kernel headers, it writes the same characters followed by
    [-BE]. *)
Theorem fourcc_printed_back (a b c d : ascii) (size : Z) :
  byte_of a < 128 -> byte_of b < 128 -> byte_of c < 128 -> byte_of d < 128 ->
  8 <= size ->
  _format_to_string_fourcc size (v4l2_fourcc a b c d) =
    Some [byte_of a; byte_of b; byte_of c; byte_of d; 0] /\
  _format_to_string_fourcc size (Z.lor (v4l2_fourcc a b c d) (Z.shiftl 1 31)) =
    Some ([byte_of a; byte_of b; byte_of c; byte_of d] ++ codes "-BE" ++ [0]).
Proof.
  intros Ha Hb Hc Hd Hs. unfold _format_to_string_fourcc.
  destruct (Z.ltb_spec size 8) as [?|_]; [lia|].
  rewrite v4l2_fourcc_sum.
  pose proof (byte_of_range a). pose proof (byte_of_range b).
  pose proof (byte_of_range c). pose proof (byte_of_range d).
  set (x := byte_of a + byte_of b * 2 ^ 8 + byte_of c * 2 ^ 16
            + byte_of d * 2 ^ 24).
  assert (Hx : 0 <= x < 2 ^ 31) by (unfold x; lia).
  rewrite (lor_shiftl_add x 1 31) by lia.
  replace (x + 1 * 2 ^ 31) with (x + 2 ^ 31) by lia.
  cbv zeta. change 0x7F with (Z.ones 7).
  rewrite !Z.land_ones, !Z.shiftr_div_pow2 by lia.
  rewrite !land_bit_31 by lia.
  destruct (Z.ltb_spec x (2 ^ 31)) as [_|?]; [|lia].
  destruct (Z.ltb_spec (x + 2 ^ 31) (2 ^ 31)) as [?|_]; [lia|].
  change (negb (0 =? 0)) with false. change (negb (2 ^ 31 =? 0)) with true.
  cbv iota.
  assert (E0 : x mod 2 ^ 7 = byte_of a /\ (x + 2 ^ 31) mod 2 ^ 7 = byte_of a).
  { unfold x. split; Z.div_mod_to_equations; lia. }
  assert (E1 : (x / 2 ^ 8) mod 2 ^ 7 = byte_of b /\
               ((x + 2 ^ 31) / 2 ^ 8) mod 2 ^ 7 = byte_of b).
  { unfold x. split; Z.div_mod_to_equations; lia. }
  assert (E2 : (x / 2 ^ 16) mod 2 ^ 7 = byte_of c /\
               ((x + 2 ^ 31) / 2 ^ 16) mod 2 ^ 7 = byte_of c).
  { unfold x. split; Z.div_mod_to_equations; lia. }
  assert (E3 : (x / 2 ^ 24) mod 2 ^ 7 = byte_of d /\
               ((x + 2 ^ 31) / 2 ^ 24) mod 2 ^ 7 = byte_of d).
  { unfold x. split; Z.div_mod_to_equations; lia. }
  destruct E0 as [-> ->], E1 as [-> ->], E2 as [-> ->], E3 as [-> ->].
  split; reflexivity.
Qed.

(** ** device_init *)

(** X29.  Whatever [sysconf] answers for the number of processors, an error,
    zero or a count of any size, [device_init] asks for one to four
    workers and for exactly one buffer more than workers; for a count
    that fits [unsigned] the workers are that count clamped to 1..4.
    The runtime starts without a descriptor. *)
Theorem device_init_worker_bounds (cores_sysconf : Z) :
  let dev := fst (device_init cores_sysconf) in
  1 <= n_workers dev <= 4 /\
  n_buffers dev = n_workers dev + 1 /\
  n_workers dev =
    Z.max 1 (Z.min (unsigned_of_long (Z.max 0 cores_sysconf)) 4) /\
  Run.fd (run dev) = -1.
Proof.
  unfold device_init, max_u, min_u. cbn [fst n_workers n_buffers run].
  assert (E : (if cores_sysconf <? 0 then 0 else cores_sysconf)
              = Z.max 0 cores_sysconf).
  { destruct (Z.ltb_spec cores_sysconf 0); lia. }
  rewrite E. set (u := unsigned_of_long (Z.max 0 cores_sysconf)).
  assert (Hu : 0 <= u).
  { unfold u, unsigned_of_long. apply Z.mod_pos_bound. lia. }
  repeat split; lia.
Qed.


(** * Runs on the scripted device *)

Lemma session_is_open : open_session session.
Proof.
  intros index Hi.
  assert (Hn : Run.n_buffers (run (w_dev session)) = 2) by reflexivity.
  rewrite Hn in Hi.
  assert (index = 0 \/ index = 1) as [-> | ->] by lia;
    split; eexists; vm_compute; reflexivity.
Defined.

(** C1 on [session]: the frame in buffer 1 is grabbed; the call returns 1
    and the slot is marked. *)
Lemma grab_buffer_dequeue_witness :
  open_session session /\
  Run.n_buffers (run (w_dev session)) <= INT_MAX /\
  exists w',
    device_grab_buffer session = Some (1, w') /\
    option_map grabbed (slot w' 1) = Some true /\
    option_map used (slot w' 1) = Some 1000 /\
    option_map grab_ts (picture w' 1) = Some 1000.
Proof.
  assert (Hmax : Run.n_buffers (run (w_dev session)) <= INT_MAX)
    by (vm_compute; discriminate).
  split; [exact session_is_open|]. split; [exact Hmax|].
  destruct (grab_buffer_dequeue session session_is_open Hmax) as (_ & _ & H).
  destruct (H frame_in_buffer_1 eq_refl) as [_ H1].
  assert (Hi : 0 <= Buf.index frame_in_buffer_1
               < Run.n_buffers (run (w_dev session)))
    by (vm_compute; split; [discriminate|reflexivity]).
  destruct (H1 Hi) as (b & p & Hb & Hp & _ & Hgrab).
  assert (Hg : grabbed b = false).
  { vm_compute in Hb. injection Hb as <-. reflexivity. }
  destruct (Hgrab Hg) as (w' & Hrun & Hslot & Hpic & _).
  exists w'. split; [exact Hrun|].
  change (Buf.index frame_in_buffer_1) with 1 in Hslot, Hpic.
  rewrite Hslot, Hpic. repeat split.
Defined.

(** C2 on [session]: releasing slot 1, which is not grabbed, returns 0
    and leaves the slot clear. *)
Lemma release_buffer_requeue_witness :
  open_session session /\
  0 <= 1 < Run.n_buffers (run (w_dev session)) /\
  exists w',
    device_release_buffer 1 session = Some (0, w') /\
    option_map grabbed (slot w' 1) = Some false /\
    option_map used (slot w' 1) = Some 0.
Proof.
  assert (Hi : 0 <= 1 < Run.n_buffers (run (w_dev session)))
    by (vm_compute; split; [discriminate|reflexivity]).
  split; [exact session_is_open|]. split; [exact Hi|].
  destruct (release_buffer_requeue 1 session session_is_open Hi)
    as (b & Hb & _ & Hok & _).
  vm_compute in Hb. injection Hb as <-.
  destruct (Hok zero_v4l2_buffer) as (w' & Hrun & _ & _ & Hslot & _).
  { vm_compute. reflexivity. }
  exists w'. split; [exact Hrun|]. rewrite Hslot. split; reflexivity.
Defined.

(** C3 at a failing input: the configured width is 0, the device answers
    the format request with 640x480; [device_open] returns 0 although
    [_device_apply_resolution] refused the configured resolution.  The
    same with a width above the limit. *)
Lemma open_ignores_forbidden_desired_resolution :
  forbidden_resolution 0 480 = true /\
  result (device_open (start (config 0 480 3 4) (camera yuyv_640x480 2)))
    = Some 0 /\
  forbidden_resolution 20000 480 = true /\
  result (device_open (start (config 20000 480 3 4) (camera yuyv_640x480 2)))
    = Some 0.
Proof. repeat split; vm_compute; reflexivity. Qed.

(** C4 on [even_range_query] (0..10, step 2): the value 4 is written. *)
Lemma set_control_writes_iff_valid_witness :
  rem_defined 4 (Query.step even_range_query) /\
  _device_set_control even_range_query V4L2_CID_BRIGHTNESS 4 false session =
    Some (tt, after (s_ctrl_request V4L2_CID_BRIGHTNESS 4 session) session).
Proof.
  assert (Hd : rem_defined 4 (Query.step even_range_query)).
  { split; [discriminate|]. intros [H _]. discriminate. }
  split; [exact Hd|].
  destruct (set_control_writes_iff_valid even_range_query V4L2_CID_BRIGHTNESS 4
              false session Hd) as [Hw _].
  apply Hw. unfold control_value_valid. cbn.
  split; [split; discriminate|]. exists 2. reflexivity.
Defined.

(** C4 as stated fails: with the range 1..9 and step 2, the values on the
    boundaries (1, 9 and 1+2) lie in the range, yet none is written: the
    call returns with the world unchanged. *)
Lemma set_control_boundary_rejected :
  Query.minimum odd_range_query = 1 /\
  Query.maximum odd_range_query = 9 /\
  Query.minimum odd_range_query + Query.step odd_range_query = 3 /\
  _device_set_control odd_range_query V4L2_CID_BRIGHTNESS 1 false session =
    Some (tt, session) /\
  _device_set_control odd_range_query V4L2_CID_BRIGHTNESS 9 false session =
    Some (tt, session) /\
  _device_set_control odd_range_query V4L2_CID_BRIGHTNESS 3 false session =
    Some (tt, session).
Proof. repeat split; vm_compute; reflexivity. Qed.

(** C9 on [even_range_query]: step 2, value 4; the call returns. *)
Lemma set_control_defined_iff_witness :
  Query.step even_range_query <> 0 /\
  ~ (4 = INT_MIN /\ Query.step even_range_query = -1) /\
  (_device_set_control even_range_query V4L2_CID_BRIGHTNESS 4 false session =
     Some (tt, session) \/
   _device_set_control even_range_query V4L2_CID_BRIGHTNESS 4 false session =
     Some (tt, after (s_ctrl_request V4L2_CID_BRIGHTNESS 4 session) session)).
Proof.
  assert (H1 : Query.step even_range_query <> 0) by discriminate.
  assert (H2 : ~ (4 = INT_MIN /\ Query.step even_range_query = -1)).
  { intros [H _]. discriminate. }
  split; [exact H1|]. split; [exact H2|].
  exact (proj1 (proj2 (set_control_defined_iff even_range_query
                         V4L2_CID_BRIGHTNESS 4 false session)) H1 H2).
Defined.

(** With step 0 reported, a value inside the range has no defined
    validation, and a value outside it is skipped as usual. *)
Example set_control_zero_step :
  _device_set_control zero_step_query V4L2_CID_BRIGHTNESS 4 false session
    = None /\
  _device_set_control zero_step_query V4L2_CID_BRIGHTNESS 11 false session
    = Some (tt, session).
Proof. split; vm_compute; reflexivity. Qed.

(** C9 as stated fails: the reported step is not zero, and still the
    validation of [INT_MIN] has no defined result, [INT_MIN % -1]
    overflowing. *)
Lemma set_control_nonzero_step_undefined :
  Query.step negative_step_query <> 0 /\
  Query.minimum negative_step_query <= INT_MIN <= Query.maximum negative_step_query /\
  c_rem INT_MIN (Query.step negative_step_query) = None /\
  _device_set_control negative_step_query V4L2_CID_BRIGHTNESS INT_MIN false
    session = None.
Proof.
  split; [discriminate|]. split; [split; discriminate|].
  split; vm_compute; reflexivity.
Qed.



(** C8 on the scenario of the spec: three buffers asked for, two
    granted, four workers configured; open returns 0 with two workers. *)
Lemma open_effective_workers_witness :
  exists w',
    device_open (start (config 640 480 3 4) (camera yuyv_640x480 2))
      = Some (0, w') /\
    Run.n_buffers (run (w_dev w')) = 2 /\
    Run.n_workers (run (w_dev w')) = 2.
Proof.
  set (w := start (config 640 480 3 4) (camera yuyv_640x480 2)).
  set (w' := final_world (device_open w) w).
  assert (Hrun : device_open w = Some (0, w')) by (vm_compute; reflexivity).
  exists w'. split; [exact Hrun|].
  destruct (open_effective_workers w w' 0 Hrun) as (new & _ & _ & H & _).
  destruct (H eq_refl) as (_ & _ & Hmin & _).
  split; [reflexivity|]. rewrite Hmin. reflexivity.
Defined.

(** C6 on [session], which is stopped: enabling, with a device that
    accepts the request, returns 0 and sets [capturing]. *)
Lemma switch_capturing_state_machine_witness :
  Run.capturing (run (w_dev session)) = false /\
  exists w',
    device_switch_capturing true session = Some (0, w') /\
    Run.capturing (run (w_dev w')) = true.
Proof.
  split; [reflexivity|].
  destruct (switch_capturing_state_machine true session) as (_ & H & _).
  destruct (H eq_refl eq_refl) as (rc & w' & Hrun & _ & _ & Hans).
  vm_compute in Hans. destruct Hans as [-> Hc].
  exists w'. split; [exact Hrun|exact Hc].
Defined.

(** C10 at a refused pair: width 0 on [session] changes nothing. *)
Lemma apply_resolution_rejected_keeps_runtime_witness :
  _device_apply_resolution 0 480 session = Some (-1, session).
Proof.
  destruct (apply_resolution_rejected_keeps_runtime 0 480 session)
    as (rc & w' & Hrun & _ & Hrej & _).
  assert (Hrc : rc = -1).
  { vm_compute in Hrun. injection Hrun as <- _. reflexivity. }
  destruct (Hrej Hrc) as (-> & _). rewrite Hrun, Hrc. reflexivity.
Defined.

(** C7 on [session]: no event is pending, the dequeue fails, the call
    returns 0. *)
Lemma consume_event_error_iff_source_change_witness :
  result (device_consume_event session) = Some 0.
Proof.
  destruct (consume_event_error_iff_source_change session)
    as (rc & Hrun & [-> | ->] & Hiff).
  - rewrite Hrun. reflexivity.
  - destruct (proj1 Hiff eq_refl) as (event & Ha & _).
    vm_compute in Ha. discriminate.
Defined.

(** ** Runs for the further properties *)

Lemma frame_ready :
  answer (dqbuf_request session) session = Some frame_in_buffer_1 /\
  0 <= Buf.index frame_in_buffer_1 < Run.n_buffers (run (w_dev session)) /\
  Run.n_buffers (run (w_dev session)) <= INT_MAX.
Proof.
  split; [vm_compute; reflexivity|].
  split; [vm_compute; split; [discriminate|reflexivity]|].
  vm_compute. discriminate.
Defined.

(** Grab and release on [session]: the frame in buffer 1 is grabbed and
    given back; slot 1 is free again, and holds the descriptor as
    [streaming_camera] returned it, the byte count cleared. *)
Lemma grab_release_round_trip_witness :
  exists w1 w2,
    device_grab_buffer session = Some (1, w1) /\
    device_release_buffer 1 w1 = Some (0, w2) /\
    option_map grabbed (slot w2 1) = Some false /\
    option_map buf_info (slot w2 1) = Some (requeued frame_in_buffer_1).
Proof.
  destruct frame_ready as (Ha & Hi & Hmax).
  destruct (session_is_open (Buf.index frame_in_buffer_1) Hi)
    as [[b Hb] [p Hp]].
  assert (Hg : grabbed b = false).
  { pose proof Hb as Hb'. vm_compute in Hb'. injection Hb' as <-. reflexivity. }
  destruct (grab_release_round_trip session frame_in_buffer_1 b p
              Ha Hi Hmax Hb Hg Hp) as (w1 & Hgrab & Hrel).
  cbv zeta in Hrel.
  assert (E1 : w1 = final_world (device_grab_buffer session) session)
    by (rewrite Hgrab; reflexivity).
  destruct (answer _ w1) as [back|] eqn:E.
  - destruct Hrel as (w2 & Hr & _ & Hs & _). exists w1, w2.
    split; [exact Hgrab|]. split; [exact Hr|].
    change (Buf.index frame_in_buffer_1) with 1 in Hs. rewrite Hs.
    split; [reflexivity|].
    rewrite E1 in E. vm_compute in E. injection E as <-. reflexivity.
  - exfalso. rewrite E1 in E. vm_compute in E. discriminate E.
Defined.

(** A second dequeue of buffer 1 while it is grabbed is refused. *)
Lemma double_grab_rejected_witness :
  exists w1,
    device_grab_buffer session = Some (1, w1) /\
    result (device_grab_buffer w1) = Some (-1).
Proof.
  destruct frame_ready as (Ha & Hi & Hmax).
  destruct (session_is_open (Buf.index frame_in_buffer_1) Hi)
    as [[b Hb] [p Hp]].
  assert (Hg : grabbed b = false).
  { pose proof Hb as Hb'. vm_compute in Hb'. injection Hb' as <-. reflexivity. }
  destruct (double_grab_rejected session frame_in_buffer_1 b p
              Ha Hi Hmax Hb Hg Hp) as (w1 & Hgrab & Hagain).
  assert (E1 : w1 = final_world (device_grab_buffer session) session)
    by (rewrite Hgrab; reflexivity).
  exists w1. split; [exact Hgrab|].
  destruct (Hagain frame_in_buffer_1) as [Hr _];
    [rewrite E1; vm_compute; reflexivity|reflexivity|].
  rewrite Hr. reflexivity.
Defined.

(** A grab on [session] leaves an open session. *)
Lemma grab_release_keep_session_witness :
  exists rc w',
    device_grab_buffer session = Some (rc, w') /\ open_session w'.
Proof.
  destruct frame_ready as (Ha & Hi & Hmax).
  destruct (grab_release_keep_session session session_is_open Hmax)
    as [(rc & w' & Hg & Hs & _) _].
  { intros buf Hb. rewrite Ha in Hb. injection Hb as <-.
    vm_compute. discriminate. }
  exists rc, w'. split; [exact Hg|exact Hs].
Defined.

(** Closing [session]: the pool and the descriptor are gone. *)
Lemma close_releases_everything_witness :
  exists w',
    device_close session = Some (tt, w') /\
    Run.hw_buffers (run (w_dev w')) = None /\
    Run.fd (run (w_dev w')) < 0.
Proof.
  set (w' := final_world (device_close session) session).
  assert (Hrun : device_close session = Some (tt, w'))
    by (vm_compute; reflexivity).
  exists w'. split; [exact Hrun|].
  destruct (close_releases_everything session w' Hrun)
    as (_ & _ & Hb & Hfd & _).
  split; [exact Hb|exact Hfd].
Defined.

(** Closing [session] twice. *)
Lemma close_idempotent_witness :
  exists w1,
    device_close session = Some (tt, w1) /\
    device_close w1 = Some (tt, w1).
Proof.
  set (w1 := final_world (device_close session) session).
  assert (Hrun : device_close session = Some (tt, w1))
    by (vm_compute; reflexivity).
  exists w1. split; [exact Hrun|exact (close_idempotent session w1 Hrun)].
Defined.

(** An open that fails while queueing, on [refusing_camera]. *)
Lemma failed_open_is_closed_witness :
  exists w',
    device_open (start (config 640 480 3 4) refusing_camera) = Some (-1, w') /\
    Run.hw_buffers (run (w_dev w')) = None /\
    Run.fd (run (w_dev w')) < 0.
Proof.
  set (w := start (config 640 480 3 4) refusing_camera).
  set (w' := final_world (device_open w) w).
  assert (Hrun : device_open w = Some (-1, w')) by (vm_compute; reflexivity).
  exists w'. split; [exact Hrun|].
  destruct (failed_open_is_closed w w' Hrun) as (_ & _ & Hb & Hfd).
  split; [exact Hb|exact Hfd].
Defined.

(** The timings step on [capture_bridge]: 1280x720 replaces the
    configured 640x480. *)
Lemma open_dv_timings_reported_witness :
  exists w',
    _device_open_dv_timings (start bridge_config capture_bridge)
      = Some (0, w') /\
    Run.width (run (w_dev w')) = 1280 /\
    Run.height (run (w_dev w')) = 720.
Proof.
  set (w := start bridge_config capture_bridge).
  destruct (open_dv_timings_reported w timings_720p eq_refl)
    as (rc & w' & Hrun & _ & Hiff & Hres); [vm_compute; reflexivity|].
  cbv zeta in Hiff, Hres.
  assert (Hs : answer (s_dv_request timings_720p w)
                 (after (query_dv_request w) w) = Some timings_720p)
    by (vm_compute; reflexivity).
  assert (Hrc : rc = 0).
  { apply Hiff. exists timings_720p. split; [exact Hs|].
    split; [vm_compute; reflexivity|vm_compute; discriminate]. }
  subst rc. exists w'. split; [exact Hrun|].
  exact (Hres timings_720p eq_refl Hs).
Defined.

(** The frame rate step on [paced_camera]: no rate is configured, 255 is
    asked for, and the 30 the device answers is the hardware rate. *)
Lemma open_hw_fps_best_effort_witness :
  exists w',
    _device_open_hw_fps (start (config 640 480 3 4) paced_camera)
      = Some (tt, w') /\
    Run.hw_fps (run (w_dev w')) = 30.
Proof.
  set (w := start (config 640 480 3 4) paced_camera).
  destruct (open_hw_fps_best_effort w) as (w' & fps & Hrun & Hdev & Hfps & _).
  exists w'. split; [exact Hrun|]. rewrite Hdev.
  cbn [run set_run Run.hw_fps Run.set_hw_fps].
  eapply eq_trans; [eapply Hfps|]; vm_compute; try reflexivity.
  discriminate.
Defined.

(** Queueing the two buffers of [session]. *)
Lemma open_queue_buffers_in_order_witness :
  exists w' new,
    _device_open_queue_buffers session = Some (0, w') /\
    w_calls w' = new ++ w_calls session /\
    map qbuf_reply (rev new) = [Some (0, true); Some (1, true)].
Proof.
  set (w' := final_world (_device_open_queue_buffers session) session).
  assert (Hrun : _device_open_queue_buffers session = Some (0, w'))
    by (vm_compute; reflexivity).
  destruct (open_queue_buffers_in_order session w' 0 Hrun)
    as (new & E & _ & [[_ Hm] | [Hc _]]); [|discriminate].
  exists w', new. split; [exact Hrun|]. split; [exact E|]. exact Hm.
Defined.

(** [streaming_camera] knows no control: setting the brightness makes
    the query and stops. *)
Lemma unavailable_control_not_written_witness :
  SET_CID_VALUE V4L2_CID_BRIGHTNESS 4 false session =
    Some (tt, after (queryctrl_request V4L2_CID_BRIGHTNESS session) session).
Proof.
  apply (unavailable_control_not_written V4L2_CID_BRIGHTNESS 4 false session).
  vm_compute. reflexivity.
Defined.

(** The default contrast of [tunable_camera], 4 in 0..10 by steps of 2,
    is written back. *)
Lemma default_control_validated_witness :
  let w := start tuned_config tunable_camera in
  let w1 := after (queryctrl_request V4L2_CID_CONTRAST w) w in
  SET_CID_DEFAULT V4L2_CID_CONTRAST false w =
    Some (tt, after (s_ctrl_request V4L2_CID_CONTRAST 4 w1) w1).
Proof.
  intros w w1.
  assert (Ha : control_available (answer (queryctrl_request V4L2_CID_CONTRAST w) w)
               = Some even_range_query) by (vm_compute; reflexivity).
  assert (Hd : rem_defined (Query.default_value even_range_query)
                 (Query.step even_range_query)).
  { split; [discriminate|]. intros [_ H]. discriminate. }
  destruct (default_control_validated V4L2_CID_CONTRAST false w
              even_range_query Ha Hd) as [Hv _].
  apply Hv. split; [vm_compute; split; discriminate|].
  exists 2. reflexivity.
Defined.

(** The controls step with [tuned_config] on [tunable_camera]. *)
Lemma apply_controls_only_controls_witness :
  exists w' new,
    _device_apply_controls (start tuned_config tunable_camera) = Some (tt, w') /\
    w_calls w' = new ++ [] /\
    forallb ctrl_call new = true.
Proof.
  set (w := start tuned_config tunable_camera).
  set (w' := final_world (_device_apply_controls w) w).
  assert (Hrun : _device_apply_controls w = Some (tt, w'))
    by (vm_compute; reflexivity).
  destruct (apply_controls_only_controls w w' Hrun) as (new & E & F & _).
  exists w', new. split; [exact Hrun|]. split; [exact E|exact F].
Defined.

(** No control is configured in [session]. *)
Lemma apply_controls_none_witness :
  _device_apply_controls session = Some (tt, session).
Proof.
  apply apply_controls_none. repeat constructor.
Defined.

(** [steady_kernel] reports step 2 for every control. *)
Lemma apply_controls_returns_witness :
  exists w', _device_apply_controls (start tuned_config Steady) = Some (tt, w').
Proof.
  apply apply_controls_returns.
  intros fd cid k query H. vm_compute in H. injection H as <-.
  split; discriminate.
Defined.

(** The name of [V4L2_PIX_FMT_JPEG], in mixed case, parses as
    [V4L2_PIX_FMT_MJPEG]. *)
Lemma format_name_round_trip_witness :
  casefold "jPeG" = casefold (_format_to_string_supported V4L2_PIX_FMT_JPEG) /\
  device_parse_format "jPeG" = V4L2_PIX_FMT_MJPEG.
Proof.
  assert (H : casefold "jPeG"
              = casefold (_format_to_string_supported V4L2_PIX_FMT_JPEG))
    by (vm_compute; reflexivity).
  split; [exact H|].
  exact (format_name_round_trip V4L2_PIX_FMT_JPEG "jPeG" H).
Defined.

(** NTSC comes back; the name of the unknown standard does not parse. *)
Lemma standard_name_round_trip_witness :
  device_parse_standard "ntsc" = V4L2_STD_NTSC /\
  device_parse_standard "Unknown" = STANDARD_UNKNOWN.
Proof.
  split.
  - apply (standard_name_round_trip V4L2_STD_NTSC "ntsc").
    vm_compute. reflexivity.
  - apply (standard_name_round_trip V4L2_STD_UNKNOWN "Unknown").
    vm_compute. reflexivity.
Defined.

Lemma io_method_name_round_trip_witness :
  device_parse_io_method "UserPtr" = V4L2_MEMORY_USERPTR.
Proof.
  apply (io_method_name_round_trip V4L2_MEMORY_USERPTR "UserPtr").
  vm_compute. reflexivity.
Defined.

(** The fourcc of YUYV printed back. *)
Lemma fourcc_printed_back_witness :
  _format_to_string_fourcc 8 V4L2_PIX_FMT_YUYV = Some (codes "YUYV" ++ [0]).
Proof.
  apply (fourcc_printed_back "Y" "U" "Y" "V" 8);
    solve [vm_compute; reflexivity | vm_compute; discriminate].
Defined.

(** The open that fails while queueing on [refusing_camera] had mapped
    two buffers, and unmapped both on its way out. *)
Lemma failed_open_unmaps_witness :
  exists w',
    device_open (start (config 640 480 3 4) refusing_camera) = Some (-1, w') /\
    unmapped (w_calls w') = List.filter unmappable (mapped (w_calls w')) /\
    List.length (unmapped (w_calls w')) = 2%nat.
Proof.
  set (w := start (config 640 480 3 4) refusing_camera).
  set (w' := final_world (device_open w) w).
  assert (Hrun : device_open w = Some (-1, w')) by (vm_compute; reflexivity).
  exists w'. split; [exact Hrun|].
  destruct (failed_open_unmaps w w' eq_refl eq_refl eq_refl Hrun)
    as (new & E & Hu).
  change (w_calls w) with (@nil call) in E. rewrite app_nil_r in E.
  rewrite <- E in Hu. split; [exact Hu|]. vm_compute. reflexivity.
Defined.

(** Open and close on [camera]: the two buffers mapped are unmapped. *)
Lemma open_close_unmaps_witness :
  exists w1 w2 closed,
    device_open (start (config 640 480 3 4) (camera yuyv_640x480 2))
      = Some (0, w1) /\
    device_close w1 = Some (tt, w2) /\
    w_calls w2 = closed ++ w_calls w1 /\
    unmapped closed = List.filter unmappable (mapped (w_calls w1)) /\
    List.length (mapped (w_calls w1)) = 2%nat.
Proof.
  set (w := start (config 640 480 3 4) (camera yuyv_640x480 2)).
  set (w1 := final_world (device_open w) w).
  assert (Hrun : device_open w = Some (0, w1)) by (vm_compute; reflexivity).
  destruct (open_close_unmaps w w1 eq_refl Hrun)
    as (w2 & opened & closed & E & _ & _ & Hc & Ec & _ & Hu).
  change (w_calls w) with (@nil call) in E. rewrite app_nil_r in E.
  rewrite <- E in Hu.
  exists w1, w2, closed. split; [exact Hrun|]. split; [exact Hc|].
  split; [exact Ec|]. split; [exact Hu|]. vm_compute. reflexivity.
Defined.

(** Closing [session] returns and maps nothing. *)
Lemma close_open_session_witness :
  exists w' closed,
    device_close session = Some (tt, w') /\
    w_calls w' = closed ++ w_calls session /\
    mapped closed = [].
Proof.
  destruct (close_open_session session session_is_open)
    as (w' & closed & Hrun & E & Hm & _).
  exists w', closed. split; [exact Hrun|]. split; [exact E|exact Hm].
Defined.

(** The grab on [session] leaves the regions of the pool as they were. *)
Lemma grab_release_keep_regions_witness :
  exists w',
    device_grab_buffer session = Some (1, w') /\
    held (w_dev w') = held (w_dev session).
Proof.
  set (w' := final_world (device_grab_buffer session) session).
  assert (Hrun : device_grab_buffer session = Some (1, w'))
    by (vm_compute; reflexivity).
  exists w'. split; [exact Hrun|].
  destruct (grab_release_keep_regions session w' 0 1 (or_introl Hrun))
    as (_ & Hh & _).
  exact Hh.
Defined.

(** The open on [camera]: a session with descriptor 3. *)
Lemma open_success_state_witness :
  exists w',
    device_open (start (config 640 480 3 4) (camera yuyv_640x480 2))
      = Some (0, w') /\
    open_session w' /\
    Run.fd (run (w_dev w')) = 3.
Proof.
  set (w := start (config 640 480 3 4) (camera yuyv_640x480 2)).
  set (w' := final_world (device_open w) w).
  assert (Hrun : device_open w = Some (0, w')) by (vm_compute; reflexivity).
  destruct (open_success_state w w' Hrun) as (Hs & _ & _ & Hfd & _).
  exists w'. split; [exact Hrun|]. split; [exact Hs|].
  rewrite Hfd. reflexivity.
Defined.

(** Open and close by user pointers on [camera]: the two blocks
    allocated are freed. *)
Lemma open_close_frees_witness :
  exists w1 w2 closed,
    device_open (start userptr_config (camera yuyv_640x480 2)) = Some (0, w1) /\
    device_close w1 = Some (tt, w2) /\
    w_calls w2 = closed ++ w_calls w1 /\
    frees closed = List.filter nonnull (allocs (w_calls w1)) /\
    List.length (allocs (w_calls w1)) = 2%nat.
Proof.
  set (w := start userptr_config (camera yuyv_640x480 2)).
  set (w1 := final_world (device_open w) w).
  assert (Hrun : device_open w = Some (0, w1)) by (vm_compute; reflexivity).
  destruct (open_close_frees w w1 eq_refl Hrun)
    as (w2 & opened & closed & E & _ & _ & Hc & Ec & _ & Hu).
  change (w_calls w) with (@nil call) in E. rewrite app_nil_r in E.
  rewrite <- E in Hu.
  exists w1, w2, closed. split; [exact Hrun|]. split; [exact Hc|].
  split; [exact Ec|]. split; [exact Hu|]. vm_compute. reflexivity.
Defined.

(** The open by user pointers that fails while queueing on
    [refusing_camera] had allocated two blocks, and freed both. *)
Lemma failed_open_frees_witness :
  exists w',
    device_open (start userptr_config refusing_camera) = Some (-1, w') /\
    frees (w_calls w') = List.filter nonnull (allocs (w_calls w')) /\
    List.length (frees (w_calls w')) = 2%nat.
Proof.
  set (w := start userptr_config refusing_camera).
  set (w' := final_world (device_open w) w).
  assert (Hrun : device_open w = Some (-1, w')) by (vm_compute; reflexivity).
  exists w'. split; [exact Hrun|].
  destruct (failed_open_frees w w' eq_refl eq_refl eq_refl Hrun)
    as (new & E & Hu).
  change (w_calls w) with (@nil call) in E. rewrite app_nil_r in E.
  rewrite <- E in Hu. split; [exact Hu|]. vm_compute. reflexivity.
Defined.

(** The grab on [session] leaves the configuration as it was. *)
Lemma session_calls_keep_configuration_witness :
  exists w',
    device_grab_buffer session = Some (1, w') /\
    config_of (w_dev w') = config_of (w_dev session).
Proof.
  set (w' := final_world (device_grab_buffer session) session).
  assert (Hrun : device_grab_buffer session = Some (1, w'))
    by (vm_compute; reflexivity).
  exists w'. split; [exact Hrun|].
  apply (session_calls_keep_configuration session w' true 0).
  right. exists 1. right. left. exact Hrun.
Defined.

(** The open on [camera], without DV timings: the configuration is
    untouched. *)
Lemma open_keeps_configuration_witness :
  exists w',
    device_open (start (config 640 480 3 4) (camera yuyv_640x480 2))
      = Some (0, w') /\
    config_of (w_dev w') = config_of (config 640 480 3 4).
Proof.
  set (w := start (config 640 480 3 4) (camera yuyv_640x480 2)).
  set (w' := final_world (device_open w) w).
  assert (Hrun : device_open w = Some (0, w')) by (vm_compute; reflexivity).
  exists w'. split; [exact Hrun|].
  destruct (open_keeps_configuration w w' 0 Hrun) as (_ & _ & H).
  destruct (H eq_refl) as [_ Hc]. exact Hc.
Defined.

(** With DV timings asked for and a device that answers no timings but
    a standard, the open overwrites the configured standard. *)
Example open_stores_detected_standard :
  standard bridge_config = V4L2_STD_UNKNOWN /\
  option_map (fun w' => standard (w_dev w'))
    (option_map snd (device_open (start bridge_config analog_grabber)))
    = Some V4L2_STD_PAL.
Proof. split; vm_compute; reflexivity. Qed.
